(** * MongoDriver: field rewriting and query construction

    A shallow embedding of [packages/mongodb/src/MongoDriver.ts]:
    [renameFields], [convertObjectIds], [buildFilterById], [buildFields],
    and [find], [findOne], [count], [nativeInsert], [nativeInsertMany],
    [nativeUpdate], [nativeUpdateMany], [nativeDelete] and [aggregate] up
    to the call of the store.

    Documents are JavaScript values.  An object is an association list in
    insertion order, the order [Object.keys] and [forEach] follow for keys
    that are not array indices, so the key-by-key pass of [renameFields]
    runs in the order the source runs it.  Numbers are integers.  The
    first part of the file takes documents as trees, which is what a
    filter or an update written as a literal is; [Module Store] models the
    same functions over an object store with references, where a write
    through an alias is visible to the caller.

    What [@mikro-orm/core] provides is either a parameter
    ([inlineEmbeddables], [processCursorOptions], [mapResult], the
    connection, the platform) or, for the small helpers of [Utils], a
    definition modelled from the specification and marked as such.  The
    patterns the runtime's [RegExp] constructor accepts are a parameter
    too: [new RegExp] throws a [SyntaxError] for the others. *)

From Stdlib Require Import List String Ascii ZArith Bool Arith Lia.
From Stdlib Require Import DecimalString.
Import ListNotations.
Open Scope string_scope.
Set Warnings "-register-all".

(** ** Values *)

Inductive value : Type :=
| VUndefined
| VNull
| VBool (b : bool)
| VNum (n : Z)
| VStr (s : string)
| VObjectId (hex : string)      (* new ObjectId(hex) *)
| VRegExp (source : value)      (* new RegExp(source) *)
| VArr (items : list value)
| VObj (entries : list (string * value)).

Definition Dictionary : Type := list (string * value).

(** The induction principle that reaches the values nested in arrays and
    objects. *)
Section ValueInd.
Variable P : value -> Prop.
Hypothesis HUndefined : P VUndefined.
Hypothesis HNull : P VNull.
Hypothesis HBool : forall b, P (VBool b).
Hypothesis HNum : forall n, P (VNum n).
Hypothesis HStr : forall s, P (VStr s).
Hypothesis HObjectId : forall h, P (VObjectId h).
Hypothesis HRegExp : forall v, P v -> P (VRegExp v).
Hypothesis HArr : forall items, Forall P items -> P (VArr items).
Hypothesis HObj : forall entries, Forall (fun kv => P (snd kv)) entries -> P (VObj entries).

Fixpoint value_rect' (v : value) : P v :=
  match v with
  | VUndefined => HUndefined
  | VNull => HNull
  | VBool b => HBool b
  | VNum n => HNum n
  | VStr s => HStr s
  | VObjectId h => HObjectId h
  | VRegExp s => HRegExp s (value_rect' s)
  | VArr items =>
      HArr items
        ((fix all (l : list value) : Forall P l :=
            match l with
            | [] => Forall_nil P
            | x :: t => Forall_cons x (value_rect' x) (all t)
            end) items)
  | VObj entries =>
      HObj entries
        ((fix all (l : list (string * value)) : Forall (fun kv => P (snd kv)) l :=
            match l with
            | [] => Forall_nil _
            | (k, x) :: t => Forall_cons (k, x) (value_rect' x) (all t)
            end) entries)
  end.
End ValueInd.

(** ** Objects as ordered dictionaries *)

(** [k in d] *)
Fixpoint has (k : string) (d : Dictionary) : bool :=
  match d with
  | [] => false
  | (k', _) :: t => if String.eqb k' k then true else has k t
  end.

(** [d[k]]: [undefined] for a key that is not there. *)
Fixpoint get (k : string) (d : Dictionary) : value :=
  match d with
  | [] => VUndefined
  | (k', v) :: t => if String.eqb k' k then v else get k t
  end.

(** [d[k] = v]: an existing key keeps its place, a new one goes last. *)
Fixpoint set (k : string) (v : value) (d : Dictionary) : Dictionary :=
  match d with
  | [] => [(k, v)]
  | (k', v') :: t => if String.eqb k' k then (k', v) :: t else (k', v') :: set k v t
  end.

(** [delete d[k]] *)
Fixpoint delete (k : string) (d : Dictionary) : Dictionary :=
  match d with
  | [] => []
  | (k', v) :: t => if String.eqb k' k then delete k t else (k', v) :: delete k t
  end.

(** [Object.keys(d)] *)
Definition keys (d : Dictionary) : list string := map fst d.

(** The key JavaScript gives the [i]-th element of an array or character
    of a string: its decimal numeral. *)
Definition indexKey (i : nat) : string := NilEmpty.string_of_uint (Nat.to_uint i).

Fixpoint indexed {A} (f : A -> value) (i : nat) (l : list A) : Dictionary :=
  match l with
  | [] => []
  | x :: t => (indexKey i, f x) :: indexed f (S i) t
  end.

(** [Object.assign({}, data)]: the own enumerable string-keyed properties of
    [data].  A string contributes its characters and an array its elements,
    both under their indices; [null], [undefined], numbers and booleans
    contribute nothing, and neither do the class instances of this model
    ([ObjectId], [RegExp]), which are opaque. *)
Definition Object_assign (data : value) : Dictionary :=
  match data with
  | VObj entries => entries
  | VArr items => indexed (fun v => v) 0 items
  | VStr s => indexed (fun c => VStr (String c EmptyString)) 0 (list_ascii_of_string s)
  | _ => []
  end.

(** JavaScript truthiness, for [if (x)], [!x] and [!!x]. *)
Definition truthy (v : value) : bool :=
  match v with
  | VUndefined | VNull => false
  | VBool b => b
  | VNum n => negb (Z.eqb n 0)
  | VStr s => negb (String.eqb s "")
  | _ => true
  end.

(** [x == null] *)
Definition isNullish (v : value) : bool :=
  match v with
  | VUndefined | VNull => true
  | _ => false
  end.

(** ** Strings *)

Definition lowerChar (c : ascii) : ascii :=
  let n := nat_of_ascii c in
  if ((65 <=? n) && (n <=? 90))%nat then ascii_of_nat (n + 32)%nat else c.

(** [s.toLowerCase()] on the ASCII letters; no character outside ASCII
    lowercases to a letter of "objectid", so the comparisons below are
    exact. *)
Fixpoint toLowerCase (s : string) : string :=
  match s with
  | EmptyString => EmptyString
  | String c t => String (lowerChar c) (toLowerCase t)
  end.

Definition isHexDigit (c : ascii) : bool :=
  let n := nat_of_ascii c in
  (((48 <=? n) && (n <=? 57)) || ((97 <=? n) && (n <=? 102)) || ((65 <=? n) && (n <=? 70)))%nat.

(** [data.match(/^[0-9a-f]{24}$/i)] *)
Definition matchesObjectId (s : string) : bool :=
  (String.length s =? 24)%nat && forallb isHexDigit (list_ascii_of_string s).

(** ** convertObjectIds (MongoDriver.ts, lines 319-339) *)

Fixpoint convertObjectIds (data : value) : value :=
  match data with
  | VObjectId _ => data
  | VStr s => if matchesObjectId s then VObjectId s else data
  | VArr items => VArr (map convertObjectIds items)
  | VObj entries =>
      VObj ((fix each (l : Dictionary) : Dictionary :=
               match l with
               | [] => []
               | (k, v) :: t => (k, convertObjectIds v) :: each t
               end) entries)
  | _ => data
  end.

Definition mapValues (f : value -> value) (d : Dictionary) : Dictionary :=
  map (fun kv => (fst kv, f (snd kv))) d.

(** ** Entity metadata ([@mikro-orm/core], read-only here) *)

Inductive ReferenceKind : Type :=
| SCALAR | ONE_TO_ONE | ONE_TO_MANY | MANY_TO_ONE | MANY_TO_MANY | EMBEDDED.

Module EntityProperty.
Record t : Type := {
  name : string;
  kind : ReferenceKind;
  type : string;
  fieldNames : option (list string);
  array : bool;
  object : bool;
  lazy : bool;
  formula : bool;
  serializedPrimaryKey : bool
}.
End EntityProperty.

Module EntityMetadata.
Record t : Type := {
  className : string;
  props : list EntityProperty.t;
  primaryKeys : list string;
  serializedPrimaryKey : option string;
  embeddable : bool;
  virtual : bool
}.

(** [meta.properties[k]] *)
Definition properties (meta : t) (k : string) : option EntityProperty.t :=
  find (fun p => String.eqb (EntityProperty.name p) k) (props meta).

(** [meta.getPrimaryProps()] *)
Definition getPrimaryProps (meta : t) : list (option EntityProperty.t) :=
  map (properties meta) (primaryKeys meta).
End EntityMetadata.

(** [names[0]] used as a property key: an empty array yields [undefined],
    which JavaScript turns into the key "undefined". *)
Definition item0 (names : list string) : string := hd "undefined" names.

(** ** Errors *)

Inductive exn : Type :=
| Error (message : string)   (* throw new Error(message) *)
| TypeError                  (* raised by the runtime, e.g. ['k' in 5] *)
| BSONError                  (* raised by [new ObjectId(x)] *)
| SyntaxError                (* raised by [new RegExp(x)] *)
| Unsupported                (* a value outside the fragment modelled here *)
| OutOfFuel.                 (* the recursion bound of the model was reached *)

Inductive result (A : Type) : Type :=
| Ok (a : A)
| Err (e : exn).
Arguments Ok {A} a.
Arguments Err {A} e.

Definition bind {A B} (r : result A) (f : A -> result B) : result B :=
  match r with
  | Ok a => f a
  | Err e => Err e
  end.

Notation "x <- r ;; k" := (bind r (fun x => k))
  (at level 61, r at next level, right associativity).

(** [items.map(f)] for an [f] that may throw. *)
Fixpoint mapM {A B} (f : A -> result B) (l : list A) : result (list B) :=
  match l with
  | [] => Ok []
  | x :: t => y <- f x ;; ys <- mapM f t ;; Ok (y :: ys)
  end.

(** [keys.forEach(k => ...)] for a callback that updates the object and
    may throw. *)
Fixpoint forEachKey {D} (f : D -> string -> result D) (ks : list string) (s : D) : result D :=
  match ks with
  | [] => Ok s
  | k :: t => s' <- f s k ;; forEachKey f t s'
  end.

Definition CannotMerge : exn :=
  Error "Cannot merge multiple $fulltext conditions to top level of the query object.".

Definition OnlyTopLevel : exn :=
  Error "Full text search is only supported on the top level of the query object.".

(** ** Helpers of [Utils] *)

(** Modelled from the spec: [Utils.isGroupOperator] is declared in
    [@mikro-orm/core], not in this package.  The spec names the
    group operators as the logical AND and OR groupings. *)
Definition isGroupOperator (k : string) : bool :=
  String.eqb k "$and" || String.eqb k "$or".

(** Modelled from the spec: [Utils.isPlainObject] is declared in
    [@mikro-orm/core]; a value is a plain object when it is a mapping, as
    opposed to an array, a class instance or a scalar. *)
Definition isPlainObject (v : value) : bool :=
  match v with
  | VObj _ => true
  | _ => false
  end.

(** [Array.isArray(v)] *)
Definition isArray (v : value) : bool :=
  match v with
  | VArr _ => true
  | _ => false
  end.

(** Modelled from the spec: [Utils.renameKey] is declared in
    [@mikro-orm/core].  It renames the key where it stands, so that the
    document "has key p (never both)", and leaves the object alone when the
    old key is missing or the new one is taken. *)
Definition renameKey (payload : Dictionary) (from to : string) : Dictionary :=
  if has from payload && negb (has to payload)
  then map (fun kv => (if String.eqb (fst kv) from then to else fst kv, snd kv)) payload
  else payload.

(** Modelled from the spec: [Utils.hasNestedKey] is declared in
    [@mikro-orm/core]; it tells whether the key "is found at any depth" of
    the objects and arrays of a value.  Where [renameFields] calls it the
    top level of the copy no longer holds the key, so what it finds is
    below the top level. *)
Fixpoint hasNestedKey (object : value) (key : string) : bool :=
  match object with
  | VArr items => existsb (fun o => hasNestedKey o key) items
  | VObj entries =>
      (fix some (l : Dictionary) : bool :=
         match l with
         | [] => false
         | (k, v) :: t => String.eqb k key || hasNestedKey v key || some t
         end) entries
  | _ => false
  end.

(** ** renameFields (MongoDriver.ts, lines 226-317) *)

(** Lines 231-233: the serialized primary key is renamed to the primary key. *)
Definition aliasPrimaryKey (meta : option EntityMetadata.t) (copiedData : Dictionary) : Dictionary :=
  match meta with
  | Some m =>
      match EntityMetadata.serializedPrimaryKey m with
      | Some spk =>
          if negb (String.eqb spk "") && negb (EntityMetadata.embeddable m)
             && negb (String.eqb spk (item0 (EntityMetadata.primaryKeys m)))
          then renameKey copiedData spk (item0 (EntityMetadata.primaryKeys m))
          else copiedData
      | None => copiedData
      end
  | None => copiedData
  end.

(** Lines 241-254, the loop over [copiedData.$and]: returns the elements as
    the loop leaves them and the copy.  ['$fulltext' in and] throws a
    [TypeError] when [and] is not an object. *)
Fixpoint hoistFulltextFrom (ands : list value) (copiedData : Dictionary)
  : result (list value * Dictionary) :=
  match ands with
  | [] => Ok ([], copiedData)
  | and :: rest =>
      match and with
      | VObj entries =>
          if has "$fulltext" entries then
            if has "$fulltext" copiedData then Err CannotMerge
            else
              r <- hoistFulltextFrom rest (set "$fulltext" (get "$fulltext" entries) copiedData) ;;
              Ok (VObj (delete "$fulltext" entries) :: fst r, snd r)
          else
            r <- hoistFulltextFrom rest copiedData ;; Ok (and :: fst r, snd r)
      | VArr _ | VObjectId _ | VRegExp _ =>
          r <- hoistFulltextFrom rest copiedData ;; Ok (and :: fst r, snd r)
      | _ => Err TypeError
      end
  end.

(** Lines 241-254.  A truthy [$and] that is not an array has no elements to
    scan unless it has a [length]: a string has (its first character is
    not an object, so [in] throws), an object with a [length] entry is
    outside this model. *)
Definition hoistFulltext (copiedData : Dictionary) : result Dictionary :=
  let and := get "$and" copiedData in
  if truthy and then
    match and with
    | VArr items =>
        r <- hoistFulltextFrom items copiedData ;;
        Ok (set "$and" (VArr (fst r)) (snd r))
    | VStr _ => Err TypeError
    | VObj entries => if has "length" entries then Err Unsupported else Ok copiedData
    | _ => Ok copiedData
    end
  else Ok copiedData.

(** Lines 257-260. *)
Definition restructureFulltext (copiedData : Dictionary) : Dictionary :=
  if has "$fulltext" copiedData
  then delete "$fulltext"
         (set "$text" (VObj [("$search", get "$fulltext" copiedData)]) copiedData)
  else copiedData.

(** [new RegExp(pattern)].  The constructor belongs to the runtime: it
    throws a [SyntaxError] for a pattern it does not accept, and which
    patterns it accepts is the parameter [acceptsPattern]. *)
Definition new_RegExp (acceptsPattern : value -> bool) (pattern : value) : result value :=
  if acceptsPattern pattern then Ok (VRegExp pattern) else Err SyntaxError.

(** Lines 311-313. *)
Definition regexShorthand (acceptsPattern : value -> bool) (copiedData : Dictionary)
  (k : string) : result Dictionary :=
  match get k copiedData with
  | VObj entries =>
      if has "$re" entries
      then r <- new_RegExp acceptsPattern (get "$re" entries) ;; Ok (set k r copiedData)
      else Ok copiedData
  | _ => Ok copiedData
  end.

Section RenameFields.

(** [this.metadata.find(entityName)] *)
Variable metadata_find : string -> option EntityMetadata.t.

(** [this.inlineEmbeddables(meta, copiedData, where)] of [DatabaseDriver],
    which is declared in [@mikro-orm/core]: it updates the copy and
    may throw. *)
Variable inlineEmbeddables : EntityMetadata.t -> Dictionary -> bool -> result Dictionary.

(** The patterns the runtime's [RegExp] constructor accepts. *)
Variable acceptsPattern : value -> bool.

(** Lines 235-237. *)
Definition inlineStep (meta : option EntityMetadata.t) (copiedData : Dictionary) (where_ : bool)
  : result Dictionary :=
  match meta with
  | Some m => if EntityMetadata.embeddable m then Ok copiedData
              else inlineEmbeddables m copiedData where_
  | None => Ok copiedData
  end.

Section Callback.

(** The recursive calls [this.renameFields(...)]. *)
Variable recur : string -> value -> bool -> option bool -> result Dictionary.

Definition renameEach (entityName : string) (items : list value) (where_ : bool)
  (object : option bool) : result (list value) :=
  mapM (fun v => d <- recur entityName v where_ object ;; Ok (VObj d)) items.

(** Lines 282-300: what the kind of the property does to the copy.  [None]
    is the early [return] of line 288; otherwise the flag [isObjectId] and
    the copy. *)
Definition rewriteByKind (prop : EntityProperty.t) (where_ : bool) (object : option bool)
  (copiedData : Dictionary) : result (option (bool * Dictionary)) :=
  match EntityProperty.kind prop with
  | SCALAR =>
      Ok (Some (String.eqb (toLowerCase (EntityProperty.type prop)) "objectid", copiedData))
  | EMBEDDED =>
      let v := get (EntityProperty.name prop) copiedData in
      if isNullish v then Ok None
      else
        match v with
        | VArr items =>
            if EntityProperty.array prop then
              items' <- renameEach (EntityProperty.type prop) items where_ (Some true) ;;
              Ok (Some (false, set (EntityProperty.name prop) (VArr items') copiedData))
            else
              d <- recur (EntityProperty.type prop) v where_
                     (if EntityProperty.object prop then Some true else object) ;;
              Ok (Some (false, set (EntityProperty.name prop) (VObj d) copiedData))
        | _ =>
            d <- recur (EntityProperty.type prop) v where_
                   (if EntityProperty.object prop then Some true else object) ;;
            Ok (Some (false, set (EntityProperty.name prop) (VObj d) copiedData))
        end
  | _ =>
      match metadata_find (EntityProperty.type prop) with
      | None => Err TypeError
      | Some meta2 =>
          match EntityMetadata.properties meta2 (item0 (EntityMetadata.primaryKeys meta2)) with
          | None => Err TypeError
          | Some pk =>
              Ok (Some (String.eqb (toLowerCase (EntityProperty.type pk)) "objectid", copiedData))
          end
      end
  end.

(** Lines 268-314: the callback of [Utils.keys(copiedData).forEach]. *)
Definition renameFieldsKey (meta : option EntityMetadata.t) (entityName : string)
  (where_ : bool) (object : option bool) (copiedData : Dictionary) (k : string)
  : result Dictionary :=
  if isGroupOperator k then
    match get k copiedData with
    | VArr items =>
        items' <- renameEach entityName items false None ;;
        Ok (set k (VArr items') copiedData)
    | v =>
        d <- recur entityName v false None ;;
        Ok (set k (VObj d) copiedData)
    end
  else
    match match meta with Some m => EntityMetadata.properties m k | None => None end with
    | Some prop =>
        r <- rewriteByKind prop where_ object copiedData ;;
        match r with
        | None => Ok copiedData
        | Some (isObjectId, cd) =>
            let cd := if isObjectId then set k (convertObjectIds (get k cd)) cd else cd in
            let cd := match EntityProperty.fieldNames prop with
                      | Some names => renameKey cd k (item0 names)
                      | None => cd
                      end in
            regexShorthand acceptsPattern cd k
        end
    | None => regexShorthand acceptsPattern copiedData k
    end.

End Callback.

(** Lines 228-237: the copy, the primary-key alias and the inlining. *)
Definition renameFieldsCopy (entityName : string) (data : value) (where_ : bool)
  : result Dictionary :=
  let copiedData := Object_assign data in
  let meta := metadata_find entityName in
  let copiedData := aliasPrimaryKey meta copiedData in
  inlineStep meta copiedData where_.

(** Lines 228-260: the above, then the hoisting of [$fulltext] and its
    replacement by [$text]. *)
Definition renameFieldsHead (entityName : string) (data : value) (where_ : bool)
  : result Dictionary :=
  copiedData <- renameFieldsCopy entityName data where_ ;;
  copiedData <- hoistFulltext copiedData ;;
  Ok (restructureFulltext copiedData).

Fixpoint renameFields (fuel : nat) (entityName : string) (data : value) (where_ : bool)
  (object : option bool) {struct fuel} : result Dictionary :=
  match fuel with
  | O => Err OutOfFuel
  | S fuel' =>
      copiedData <- renameFieldsHead entityName data where_ ;;
      if hasNestedKey (VObj copiedData) "$fulltext" then Err OnlyTopLevel
      else
        forEachKey
          (renameFieldsKey (renameFields fuel') (metadata_find entityName) entityName where_ object)
          (keys copiedData) copiedData
  end.

End RenameFields.

(** ** The driver facade *)

Module PopulateOptions.
Record t : Type := { field : string; all : bool }.
End PopulateOptions.

(** An entry of [options.fields]: a field name, or a structured
    sub-selection (a plain object). *)
Inductive EntityField : Type :=
| FieldName (s : string)
| FieldObject (d : Dictionary).

Module FindOptions.
Record t : Type := {
  first : option Z;
  last : option Z;
  before : option value;
  after : option value;
  populate : option (list PopulateOptions.t);
  fields : option (list EntityField);
  orderBy : value;
  limit : option Z;
  offset : option Z
}.
End FindOptions.

(** [options.onConflict*] of [nativeUpdate]; [upsert] travels with them. *)
Module UpsertOptions.
Record t : Type := {
  upsert : bool;
  onConflictFields : option (list string);
  onConflictMergeFields : option (list string);
  onConflictExcludeFields : option (list string)
}.
End UpsertOptions.

(** What the connection answers to a write: the part of [QueryResult] the
    driver reads and sets. *)
Module QueryResult.
Record t : Type := {
  affectedRows : Z;
  insertedIds : option (list value);
  rows : option (list Dictionary)
}.
End QueryResult.

(** [v != null] for an optional argument. *)
Definition isGiven {A} (o : option A) : bool :=
  match o with
  | Some _ => true
  | None => false
  end.

(** Truthiness of an optional number: [undefined] and [0] are falsy. *)
Definition truthyNumber (n : option Z) : bool :=
  match n with
  | Some z => negb (Z.eqb z 0)
  | None => false
  end.

(** Modelled from the spec: [Utils.isPrimaryKey] is declared in
    [@mikro-orm/core]; a "bare identifier value" is a string, a number or
    a native identifier, and never a filter document. *)
Definition isPrimaryKey (key : value) : bool :=
  match key with
  | VStr _ | VNum _ | VObjectId _ => true
  | _ => false
  end.

(** Modelled from the spec: [Utils.isEmpty] is declared in
    [@mikro-orm/core]; a condition is empty when it has no key ("if either
    side is empty, return the other unchanged"). *)
Definition isEmpty (cond : Dictionary) : bool :=
  match cond with
  | [] => true
  | _ => false
  end.

(** Modelled from the spec: [Utils.asArray] is declared in
    [@mikro-orm/core]; an ordering specification is a sequence, a single
    specification stands for the sequence that holds it, and none for the
    empty sequence. *)
Definition asArray (v : value) : list value :=
  match v with
  | VUndefined => []
  | VArr items => items
  | _ => [v]
  end.

(** [new ObjectId(id)] of [bson]: a string of 24 hexadecimal digits gives
    the identifier it spells, an identifier gives itself, another string
    is rejected; an identifier built from a number depends on more than
    the number and is outside this model. *)
Definition new_ObjectId (id : value) : result value :=
  match id with
  | VStr s => if matchesObjectId s then Ok (VObjectId s) else Err BSONError
  | VObjectId h => Ok (VObjectId h)
  | _ => Err Unsupported
  end.

(** [s.includes('.')] *)
Fixpoint includesDot (s : string) : bool :=
  match s with
  | EmptyString => false
  | String c t => if Ascii.eqb c "."%char then true else includesDot t
  end.

(** [s.substring(0, s.indexOf('.'))] for an [s] that includes a dot. *)
Fixpoint beforeDot (s : string) : string :=
  match s with
  | EmptyString => EmptyString
  | String c t => if Ascii.eqb c "."%char then EmptyString else String c (beforeDot t)
  end.

(** [fields.includes(pk)] *)
Definition includesName (fields : list EntityField) (pk : string) : bool :=
  existsb (fun f => match f with FieldName s => String.eqb s pk | FieldObject _ => false end)
          fields.

(** [lazyProps.includes(p)]: properties are told apart by their names. *)
Definition includesProp (l : list EntityProperty.t) (p : EntityProperty.t) : bool :=
  existsb (fun q => String.eqb (EntityProperty.name q) (EntityProperty.name p)) l.

(** [Utils.flatten(props.map(p => p.fieldNames))]; a property without field
    names would put [undefined] in the projection, which is outside this
    model. *)
Fixpoint flattenFieldNames (l : list EntityProperty.t) : result (list string) :=
  match l with
  | [] => Ok []
  | p :: t =>
      match EntityProperty.fieldNames p with
      | Some names => rest <- flattenFieldNames t ;; Ok (names ++ rest)%list
      | None => Err Unsupported
      end
  end.

Section Driver.

Variable metadata_find : string -> option EntityMetadata.t.
Variable inlineEmbeddables : EntityMetadata.t -> Dictionary -> bool -> result Dictionary.
Variable acceptsPattern : value -> bool.

(** [this.platform.shouldHaveColumn(prop, populate)] *)
Variable shouldHaveColumn : EntityProperty.t -> list PopulateOptions.t -> bool.

(** [this.processCursorOptions(meta, options, orderBy)] of [DatabaseDriver]:
    returns the options as it leaves them, the new ordering and the
    cursor's condition. *)
Variable processCursorOptions :
  option EntityMetadata.t -> FindOptions.t -> value -> result (FindOptions.t * value * value).

(** [this.rethrow(this.getConnection('read').find(...))]: entity, filter,
    ordering, limit, offset, projection. *)
Variable connection_find :
  string -> Dictionary -> list Dictionary -> option Z -> option Z ->
  option (list EntityField) -> result (list value).

(** [this.rethrow(this.getConnection('write').updateMany(...))] and
    [deleteMany(...)]. *)
Variable connection_updateMany :
  string -> Dictionary -> Dictionary -> UpsertOptions.t -> result value.
Variable connection_deleteMany : string -> Dictionary -> result value.

(** [this.mapResult(row, meta)] and [this.findVirtual(...)] of
    [DatabaseDriver]. *)
Variable mapResult : value -> option EntityMetadata.t -> value.
Variable findVirtual : string -> value -> FindOptions.t -> result (list value).

(** Lines 341-349. *)
Definition buildFilterById (entityName : string) (id : value) : result Dictionary :=
  match metadata_find entityName with
  | None => Err TypeError
  | Some meta =>
      match EntityMetadata.properties meta (item0 (EntityMetadata.primaryKeys meta)) with
      | None => Err TypeError
      | Some pk =>
          if String.eqb (toLowerCase (EntityProperty.type pk)) "objectid"
          then oid <- new_ObjectId id ;; Ok [("_id", oid)]
          else Ok [("_id", id)]
      end
  end.

(** Lines 98-100, 151-153 and 209-211: a bare primary key becomes a
    filter. *)
Definition whereById (entityName : string) (where_ : value) : result value :=
  if isPrimaryKey where_
  then d <- buildFilterById entityName where_ ;; Ok (VObj d)
  else Ok where_.

(** Line 358. *)
Definition lazyProps (meta : EntityMetadata.t) (populate : list PopulateOptions.t)
  : list EntityProperty.t :=
  filter (fun prop =>
            EntityProperty.lazy prop
            && negb (existsb (fun p => String.eqb (PopulateOptions.field p) (EntityProperty.name prop)
                                       || PopulateOptions.all p) populate))
         (EntityMetadata.props meta).

(** Lines 383-384 and 392-393: the columns of the properties that are
    neither left out by the platform nor lazy. *)
Definition eagerColumns (meta : EntityMetadata.t) (populate : list PopulateOptions.t)
  : result (list string) :=
  let props := filter (fun prop => shouldHaveColumn prop populate) (EntityMetadata.props meta) in
  flattenFieldNames (filter (fun p => negb (includesProp (lazyProps meta populate) p)) props).

(** Lines 362-388: one turn of the loop over [fields]; [ret] is returned
    with what the turn pushed. *)
Definition buildField (meta : EntityMetadata.t) (populate : list PopulateOptions.t)
  (ret : list string) (field : EntityField) : result (list string) :=
  match field with
  | FieldObject _ => Ok ret
  | FieldName field =>
      let field := if includesDot field then beforeDot field else field in
      match EntityMetadata.properties meta field with
      | Some prop =>
          match EntityProperty.fieldNames prop with
          | None => Ok ret
          | Some _ =>
              prop <- (if EntityProperty.serializedPrimaryKey prop
                       then match EntityMetadata.getPrimaryProps meta with
                            | Some pk :: _ => Ok pk
                            | _ => Err TypeError
                            end
                       else Ok prop) ;;
              match EntityProperty.fieldNames prop with
              | Some (name :: _) => Ok (ret ++ [name])%list
              | Some [] => Err Unsupported
              | None => Err TypeError
              end
          end
      | None =>
          if String.eqb field "*"
          then cols <- eagerColumns meta populate ;; Ok (ret ++ cols)%list
          else Ok (ret ++ [field])%list
      end
  end.

Fixpoint buildEachField (meta : EntityMetadata.t) (populate : list PopulateOptions.t)
  (fields : list EntityField) (ret : list string) : result (list string) :=
  match fields with
  | [] => Ok ret
  | field :: rest =>
      ret' <- buildField meta populate ret field ;; buildEachField meta populate rest ret'
  end.

(** Lines 351-397. *)
Definition buildFields (entityName : string) (populate : list PopulateOptions.t)
  (fields : option (list EntityField)) : result (option (list EntityField)) :=
  match metadata_find entityName with
  | None => Ok fields
  | Some meta =>
      ret <- match fields with
             | Some fields =>
                 ret <- buildEachField meta populate fields [] ;;
                 Ok (filter (fun pk => negb (includesName fields pk))
                            (EntityMetadata.primaryKeys meta) ++ ret)%list
             | None =>
                 if (0 <? List.length (filter (fun p => negb (EntityProperty.formula p))
                                              (lazyProps meta populate)))%nat
                 then eagerColumns meta populate
                 else Ok []
             end ;;
      Ok (match ret with
          | [] => None
          | _ => Some (map FieldName ret)
          end)
  end.

(** Lines 59-69. *)
Definition andWhere (cond1 cond2 : Dictionary) : Dictionary :=
  if isEmpty cond1 then cond2
  else if isEmpty cond2 then cond1
  else [("$and", VArr [VObj cond1; VObj cond2])].

Definition isVirtual (entityName : string) : bool :=
  match metadata_find entityName with
  | Some meta => EntityMetadata.virtual meta
  | None => false
  end.

Definition populateOf (options : FindOptions.t) : list PopulateOptions.t :=
  match FindOptions.populate options with
  | Some p => p
  | None => []
  end.

(** Lines 48-89.  [fuel] bounds the recursion of [renameFields].  [first]
    and [last] are read from the options before [processCursorOptions]
    sees them (line 53). *)
Definition find (fuel : nat) (entityName : string) (where_ : value) (options : FindOptions.t)
  : result (list value) :=
  if isVirtual entityName then findVirtual entityName where_ options
  else
    let first := FindOptions.first options in
    let last := FindOptions.last options in
    let before := FindOptions.before options in
    let after := FindOptions.after options in
    fields <- buildFields entityName (populateOf options) (FindOptions.fields options) ;;
    where_ <- renameFields metadata_find inlineEmbeddables acceptsPattern fuel entityName where_
                           true None ;;
    let isCursorPagination := isGiven first || isGiven last || isGiven before || isGiven after in
    if isCursorPagination then
      let meta := metadata_find entityName in
      cursor <- processCursorOptions meta options (FindOptions.orderBy options) ;;
      let '(options', newOrderBy, newWhere) := cursor in
      newWhereConverted <-
        renameFields metadata_find inlineEmbeddables acceptsPattern fuel entityName newWhere true
                     None ;;
      orderBy <- mapM (fun order =>
                         renameFields metadata_find inlineEmbeddables acceptsPattern fuel
                             entityName order
                                      false None)
                      (asArray newOrderBy) ;;
      res <- connection_find entityName (andWhere where_ newWhereConverted) orderBy
               (FindOptions.limit options') (FindOptions.offset options') fields ;;
      let res := if isCursorPagination && negb (truthyNumber first) && truthyNumber last
                 then rev res else res in
      Ok (map (fun r => mapResult r (metadata_find entityName)) res)
    else
      orderBy <- mapM (fun orderBy =>
                         renameFields metadata_find inlineEmbeddables acceptsPattern fuel
                             entityName orderBy
                                      false None)
                      (asArray (FindOptions.orderBy options)) ;;
      res <- connection_find entityName where_ orderBy
               (FindOptions.limit options) (FindOptions.offset options) fields ;;
      Ok (map (fun r => mapResult r (metadata_find entityName)) res).

(** Lines 91-110. *)
Definition findOne (fuel : nat) (entityName : string) (where_ : value) (options : FindOptions.t)
  : result value :=
  if isVirtual entityName then
    items <- findVirtual entityName where_ options ;;
    Ok (match items with
        | item :: _ => if isNullish item then VNull else item
        | [] => VNull
        end)
  else
    where_ <- whereById entityName where_ ;;
    fields <- buildFields entityName (populateOf options) (FindOptions.fields options) ;;
    where_ <- renameFields metadata_find inlineEmbeddables acceptsPattern fuel entityName where_
                           true None ;;
    orderBy <- mapM (fun orderBy =>
                       renameFields metadata_find inlineEmbeddables acceptsPattern fuel entityName
                                    orderBy
                                    false None)
                    (asArray (FindOptions.orderBy options)) ;;
    res <- connection_find entityName where_ orderBy (Some 1%Z) None fields ;;
    Ok (mapResult (hd VUndefined res) (metadata_find entityName)).

(** Line 161: [rename]; reading [fieldNames[0]] of a property without
    field names throws. *)
Definition renameField (entityName : string) (field : string) : result string :=
  match metadata_find entityName with
  | Some meta =>
      match EntityMetadata.properties meta field with
      | Some prop =>
          match EntityProperty.fieldNames prop with
          | Some (name :: _) => Ok name
          | Some [] => Ok field
          | None => Err TypeError
          end
      | None => Ok field
      end
  | None => Ok field
  end.

Definition renameFieldList (entityName : string) (fields : option (list string))
  : result (option (list string)) :=
  match fields with
  | Some l => l' <- mapM (renameField entityName) l ;; Ok (Some l')
  | None => Ok None
  end.

(** Lines 150-176. *)
Definition nativeUpdate (fuel : nat) (entityName : string) (where_ : value) (data : value)
  (options : UpsertOptions.t) : result value :=
  where_ <- whereById entityName where_ ;;
  where_ <- renameFields metadata_find inlineEmbeddables acceptsPattern fuel entityName where_ true
                         None ;;
  data <- renameFields metadata_find inlineEmbeddables acceptsPattern fuel entityName data false
                       None ;;
  fields <- renameFieldList entityName (UpsertOptions.onConflictFields options) ;;
  mergeFields <- renameFieldList entityName (UpsertOptions.onConflictMergeFields options) ;;
  excludeFields <- renameFieldList entityName (UpsertOptions.onConflictExcludeFields options) ;;
  connection_updateMany entityName where_ data
    {| UpsertOptions.upsert := UpsertOptions.upsert options;
       UpsertOptions.onConflictFields := fields;
       UpsertOptions.onConflictMergeFields := mergeFields;
       UpsertOptions.onConflictExcludeFields := excludeFields |}.

(** Lines 208-216. *)
Definition nativeDelete (fuel : nat) (entityName : string) (where_ : value) : result value :=
  where_ <- whereById entityName where_ ;;
  where_ <- renameFields metadata_find inlineEmbeddables acceptsPattern fuel entityName where_ true
                         None ;;
  connection_deleteMany entityName where_.

(** [this.countVirtual(...)] of [DatabaseDriver] and the remaining calls
    of the connection: [countDocuments], [insertOne], [insertMany],
    [bulkUpdateMany] and [aggregate]. *)
Variable countVirtual : string -> value -> result Z.
Variable connection_countDocuments : string -> Dictionary -> result Z.
Variable connection_insertOne : string -> Dictionary -> result QueryResult.t.
Variable connection_insertMany : string -> list Dictionary -> result QueryResult.t.
Variable connection_bulkUpdateMany :
  string -> list value -> list Dictionary -> UpsertOptions.t -> result QueryResult.t.
Variable connection_aggregate : string -> list value -> result (list value).

(** Lines 124-132. *)
Definition count (fuel : nat) (entityName : string) (where_ : value) : result Z :=
  if isVirtual entityName then countVirtual entityName where_
  else
    where_ <- renameFields metadata_find inlineEmbeddables acceptsPattern fuel entityName where_
                           true None ;;
    connection_countDocuments entityName where_.

(** Lines 134-137. *)
Definition nativeInsert (fuel : nat) (entityName : string) (data : value)
  : result QueryResult.t :=
  data <- renameFields metadata_find inlineEmbeddables acceptsPattern fuel entityName data false
                       None ;;
  connection_insertOne entityName data.

(** Line 143: [meta?.getPrimaryProps()[0].fieldNames[0] ?? '_id'].  Without
    metadata the name is [_id]; with metadata, a missing first primary
    property or one without field names makes the read throw. *)
Definition primaryFieldName (entityName : string) : result string :=
  match metadata_find entityName with
  | None => Ok "_id"
  | Some meta =>
      match EntityMetadata.getPrimaryProps meta with
      | Some pk :: _ =>
          match EntityProperty.fieldNames pk with
          | Some (name :: _) => Ok name
          | Some [] => Ok "_id"
          | None => Err TypeError
          end
      | _ => Err TypeError
      end
  end.

(** Lines 139-148. *)
Definition nativeInsertMany (fuel : nat) (entityName : string) (data : list value)
  : result QueryResult.t :=
  data <- mapM (fun d =>
                  renameFields metadata_find inlineEmbeddables acceptsPattern fuel entityName d
                               false None)
               data ;;
  pk <- primaryFieldName entityName ;;
  res <- connection_insertMany entityName data ;;
  match QueryResult.insertedIds res with
  | Some ids =>
      Ok {| QueryResult.affectedRows := QueryResult.affectedRows res;
            QueryResult.insertedIds := QueryResult.insertedIds res;
            QueryResult.rows := Some (map (fun id => [(pk, id)]) ids) |}
  | None => Err TypeError
  end.

(** Lines 179-185: a row of [where] that is a plain object is rewritten,
    any other row is kept. *)
Definition renameWhereRow (fuel : nat) (entityName : string) (row : value) : result value :=
  if isPlainObject row
  then d <- renameFields metadata_find inlineEmbeddables acceptsPattern fuel entityName row true
                         None ;;
       Ok (VObj d)
  else Ok row.

(** Lines 178-206. *)
Definition nativeUpdateMany (fuel : nat) (entityName : string) (where_ : list value)
  (data : list value) (options : UpsertOptions.t) : result QueryResult.t :=
  where_ <- mapM (renameWhereRow fuel entityName) where_ ;;
  data <- mapM (fun row =>
                  renameFields metadata_find inlineEmbeddables acceptsPattern fuel entityName row
                               false None)
               data ;;
  fields <- renameFieldList entityName (UpsertOptions.onConflictFields options) ;;
  mergeFields <- renameFieldList entityName (UpsertOptions.onConflictMergeFields options) ;;
  excludeFields <- renameFieldList entityName (UpsertOptions.onConflictExcludeFields options) ;;
  connection_bulkUpdateMany entityName where_ data
    {| UpsertOptions.upsert := UpsertOptions.upsert options;
       UpsertOptions.onConflictFields := fields;
       UpsertOptions.onConflictMergeFields := mergeFields;
       UpsertOptions.onConflictExcludeFields := excludeFields |}.

(** Lines 218-220. *)
Definition aggregate (entityName : string) (pipeline : list value) : result (list value) :=
  connection_aggregate entityName pipeline.

End Driver.

(** ** The same functions over an object store

    [renameFields] copies its argument with [Object.assign], which copies
    references: the objects and arrays below the top level are shared with
    the caller.  Here a value is a scalar or a reference into a store of
    objects and arrays, and every write goes to the store. *)

Module Store.

Definition loc : Type := nat.

Inductive hvalue : Type :=
| HUndefined
| HNull
| HBool (b : bool)
| HNum (n : Z)
| HStr (s : string)
| HObjectId (hex : string)
| HRegExp (source : hvalue)
| HRef (l : loc).

Inductive cell : Type :=
| CObj (entries : list (string * hvalue))
| CArr (items : list hvalue).

(** The store: a reference is an index, a new object goes last. *)
Definition store : Type := list cell.

(** Computations that read and write the store and may throw. *)
Definition M (A : Type) : Type := store -> result (A * store).

Definition ret {A} (a : A) : M A := fun s => Ok (a, s).

Definition throw {A} (e : exn) : M A := fun _ => Err e.

Definition mbind {A B} (m : M A) (f : A -> M B) : M B :=
  fun s => match m s with
           | Ok (a, s') => f a s'
           | Err e => Err e
           end.

Notation "x <~ m ;; k" := (mbind m (fun x => k))
  (at level 61, m at next level, right associativity).

Fixpoint mapS {A B} (f : A -> M B) (l : list A) : M (list B) :=
  match l with
  | [] => ret []
  | x :: t => y <~ f x ;; ys <~ mapS f t ;; ret (y :: ys)
  end.

Fixpoint forEachS {A} (f : A -> M unit) (l : list A) : M unit :=
  match l with
  | [] => ret tt
  | x :: t => _ <~ f x ;; forEachS f t
  end.

Fixpoint replace (l : loc) (c : cell) (s : store) : store :=
  match s, l with
  | [], _ => []
  | _ :: t, O => c :: t
  | x :: t, S l' => x :: replace l' c t
  end.

Definition alloc (c : cell) : M loc := fun s => Ok (List.length s, (s ++ [c])%list).

Definition load (l : loc) : M cell :=
  fun s => match nth_error s l with
           | Some c => Ok (c, s)
           | None => Err Unsupported
           end.

Definition save (l : loc) (c : cell) : M unit := fun s => Ok (tt, replace l c s).

Fixpoint hhas (k : string) (d : list (string * hvalue)) : bool :=
  match d with
  | [] => false
  | (k', _) :: t => if String.eqb k' k then true else hhas k t
  end.

Fixpoint hget (k : string) (d : list (string * hvalue)) : hvalue :=
  match d with
  | [] => HUndefined
  | (k', v) :: t => if String.eqb k' k then v else hget k t
  end.

Fixpoint hset (k : string) (v : hvalue) (d : list (string * hvalue)) : list (string * hvalue) :=
  match d with
  | [] => [(k, v)]
  | (k', v') :: t => if String.eqb k' k then (k', v) :: t else (k', v') :: hset k v t
  end.

Fixpoint hdelete (k : string) (d : list (string * hvalue)) : list (string * hvalue) :=
  match d with
  | [] => []
  | (k', v) :: t => if String.eqb k' k then hdelete k t else (k', v) :: hdelete k t
  end.

Fixpoint hindexed {A} (f : A -> hvalue) (i : nat) (l : list A) : list (string * hvalue) :=
  match l with
  | [] => []
  | x :: t => (indexKey i, f x) :: hindexed f (S i) t
  end.

(** The entries of the object at [l] (no entry for an array: the functions
    below read arrays through [load]). *)
Definition entriesAt (l : loc) : M (list (string * hvalue)) :=
  c <~ load l ;;
  match c with
  | CObj entries => ret entries
  | CArr _ => ret []
  end.

(** [k in o], [o[k]], [o[k] = v] and [delete o[k]] for the object at [l]. *)
Definition hasProp (l : loc) (k : string) : M bool :=
  entries <~ entriesAt l ;; ret (hhas k entries).

Definition getProp (l : loc) (k : string) : M hvalue :=
  entries <~ entriesAt l ;; ret (hget k entries).

Definition setProp (l : loc) (k : string) (v : hvalue) : M unit :=
  c <~ load l ;;
  match c with
  | CObj entries => save l (CObj (hset k v entries))
  | CArr _ => throw Unsupported
  end.

Definition deleteProp (l : loc) (k : string) : M unit :=
  c <~ load l ;;
  match c with
  | CObj entries => save l (CObj (hdelete k entries))
  | CArr _ => ret tt
  end.

(** [Object.assign({}, data)]: a new object with the entries of [data];
    the values are copied as they are, references included. *)
Definition Object_assign (data : hvalue) : M loc :=
  match data with
  | HRef l =>
      c <~ load l ;;
      match c with
      | CObj entries => alloc (CObj entries)
      | CArr items => alloc (CObj (hindexed (fun v => v) 0 items))
      end
  | HStr s =>
      alloc (CObj (hindexed (fun c => HStr (String c EmptyString)) 0 (list_ascii_of_string s)))
  | _ => alloc (CObj [])
  end.

Definition truthy (v : hvalue) : bool :=
  match v with
  | HUndefined | HNull => false
  | HBool b => b
  | HNum n => negb (Z.eqb n 0)
  | HStr s => negb (String.eqb s "")
  | _ => true
  end.

Definition isNullish (v : hvalue) : bool :=
  match v with
  | HUndefined | HNull => true
  | _ => false
  end.

(** [Utils.renameKey], as in the first part of the file, on the object at
    [l]. *)
Definition renameKey (l : loc) (from to : string) : M unit :=
  c <~ load l ;;
  match c with
  | CObj entries =>
      if hhas from entries && negb (hhas to entries)
      then save l (CObj (map (fun kv => (if String.eqb (fst kv) from then to else fst kv, snd kv))
                             entries))
      else ret tt
  | CArr _ => ret tt
  end.

(** [Utils.hasNestedKey], as in the first part of the file; the store may
    hold cycles, hence the bound. *)
Fixpoint hasNestedKey (fuel : nat) (object : hvalue) (key : string) : M bool :=
  match object with
  | HRef l =>
      match fuel with
      | O => throw OutOfFuel
      | S fuel' =>
          c <~ load l ;;
          match c with
          | CArr items =>
              (fix some (l : list hvalue) : M bool :=
                 match l with
                 | [] => ret false
                 | o :: t => b <~ hasNestedKey fuel' o key ;; if b then ret true else some t
                 end) items
          | CObj entries =>
              (fix some (l : list (string * hvalue)) : M bool :=
                 match l with
                 | [] => ret false
                 | (k, v) :: t =>
                     if String.eqb k key then ret true
                     else b <~ hasNestedKey fuel' v key ;; if b then ret true else some t
                 end) entries
          end
      end
  | _ => ret false
  end.

(** Lines 319-339: an array is mapped to a new array, an object is updated
    where it stands. *)
Fixpoint convertObjectIds (fuel : nat) (data : hvalue) : M hvalue :=
  match data with
  | HObjectId _ => ret data
  | HStr s => ret (if matchesObjectId s then HObjectId s else data)
  | HRef l =>
      match fuel with
      | O => throw OutOfFuel
      | S fuel' =>
          c <~ load l ;;
          match c with
          | CArr items =>
              items' <~ mapS (convertObjectIds fuel') items ;;
              a <~ alloc (CArr items') ;;
              ret (HRef a)
          | CObj entries =>
              _ <~ forEachS (fun k =>
                               v <~ getProp l k ;;
                               v' <~ convertObjectIds fuel' v ;;
                               setProp l k v')
                            (map fst entries) ;;
              ret data
          end
      end
  | _ => ret data
  end.

Section RenameFields.

Variable metadata_find : string -> option EntityMetadata.t.

(** [this.inlineEmbeddables(meta, copiedData, where)], which works on the
    object it is given. *)
Variable inlineEmbeddables : EntityMetadata.t -> loc -> bool -> M unit.

(** The patterns the runtime's [RegExp] constructor accepts. *)
Variable acceptsPattern : hvalue -> bool.

(** Lines 231-233. *)
Definition aliasPrimaryKey (meta : option EntityMetadata.t) (copiedData : loc) : M unit :=
  match meta with
  | Some m =>
      match EntityMetadata.serializedPrimaryKey m with
      | Some spk =>
          if negb (String.eqb spk "") && negb (EntityMetadata.embeddable m)
             && negb (String.eqb spk (item0 (EntityMetadata.primaryKeys m)))
          then renameKey copiedData spk (item0 (EntityMetadata.primaryKeys m))
          else ret tt
      | None => ret tt
      end
  | None => ret tt
  end.

(** Lines 235-237. *)
Definition inlineStep (meta : option EntityMetadata.t) (copiedData : loc) (where_ : bool)
  : M unit :=
  match meta with
  | Some m => if EntityMetadata.embeddable m then ret tt
              else inlineEmbeddables m copiedData where_
  | None => ret tt
  end.

(** Lines 243-252: one turn of the loop; [delete and.$fulltext] writes to
    the object the array holds. *)
Definition hoistFrom (copiedData : loc) (and : hvalue) : M unit :=
  match and with
  | HRef a =>
      found <~ hasProp a "$fulltext" ;;
      if found then
        taken <~ hasProp copiedData "$fulltext" ;;
        if taken then throw CannotMerge
        else
          v <~ getProp a "$fulltext" ;;
          _ <~ setProp copiedData "$fulltext" v ;;
          deleteProp a "$fulltext"
      else ret tt
  | HObjectId _ | HRegExp _ => ret tt
  | _ => throw TypeError
  end.

(** Lines 241-254. *)
Definition hoistFulltext (copiedData : loc) : M unit :=
  and <~ getProp copiedData "$and" ;;
  if truthy and then
    match and with
    | HRef a =>
        c <~ load a ;;
        match c with
        | CArr items => forEachS (hoistFrom copiedData) items
        | CObj entries => if hhas "length" entries then throw Unsupported else ret tt
        end
    | HStr _ => throw TypeError
    | _ => ret tt
    end
  else ret tt.

(** Lines 257-260. *)
Definition restructureFulltext (copiedData : loc) : M unit :=
  found <~ hasProp copiedData "$fulltext" ;;
  if found then
    v <~ getProp copiedData "$fulltext" ;;
    text <~ alloc (CObj [("$search", v)]) ;;
    _ <~ setProp copiedData "$text" (HRef text) ;;
    deleteProp copiedData "$fulltext"
  else ret tt.

(** Lines 311-313. *)
Definition regexShorthand (copiedData : loc) (k : string) : M unit :=
  v <~ getProp copiedData k ;;
  match v with
  | HRef l =>
      c <~ load l ;;
      match c with
      | CObj entries =>
          if hhas "$re" entries
          then if acceptsPattern (hget "$re" entries)
               then setProp copiedData k (HRegExp (hget "$re" entries))
               else throw SyntaxError
          else ret tt
      | CArr _ => ret tt
      end
  | _ => ret tt
  end.

(** The elements of [v] when it is an array. *)
Definition arrayItems (v : hvalue) : M (option (list hvalue)) :=
  match v with
  | HRef l =>
      c <~ load l ;;
      match c with
      | CArr items => ret (Some items)
      | CObj _ => ret None
      end
  | _ => ret None
  end.

Section Callback.

Variable recur : string -> hvalue -> bool -> option bool -> M loc.

(** [items.map(v => this.renameFields(...))]: a new array. *)
Definition renameEach (entityName : string) (items : list hvalue) (where_ : bool)
  (object : option bool) : M hvalue :=
  items' <~ mapS (fun v => l <~ recur entityName v where_ object ;; ret (HRef l)) items ;;
  a <~ alloc (CArr items') ;;
  ret (HRef a).

(** Lines 282-300; [None] is the early [return]. *)
Definition rewriteByKind (prop : EntityProperty.t) (where_ : bool) (object : option bool)
  (copiedData : loc) : M (option bool) :=
  match EntityProperty.kind prop with
  | SCALAR => ret (Some (String.eqb (toLowerCase (EntityProperty.type prop)) "objectid"))
  | EMBEDDED =>
      v <~ getProp copiedData (EntityProperty.name prop) ;;
      if isNullish v then ret None
      else
        items <~ arrayItems v ;;
        match items with
        | Some items =>
            if EntityProperty.array prop then
              a <~ renameEach (EntityProperty.type prop) items where_ (Some true) ;;
              _ <~ setProp copiedData (EntityProperty.name prop) a ;;
              ret (Some false)
            else
              l <~ recur (EntityProperty.type prop) v where_
                     (if EntityProperty.object prop then Some true else object) ;;
              _ <~ setProp copiedData (EntityProperty.name prop) (HRef l) ;;
              ret (Some false)
        | None =>
            l <~ recur (EntityProperty.type prop) v where_
                   (if EntityProperty.object prop then Some true else object) ;;
            _ <~ setProp copiedData (EntityProperty.name prop) (HRef l) ;;
            ret (Some false)
        end
  | _ =>
      match metadata_find (EntityProperty.type prop) with
      | None => throw TypeError
      | Some meta2 =>
          match EntityMetadata.properties meta2 (item0 (EntityMetadata.primaryKeys meta2)) with
          | None => throw TypeError
          | Some pk => ret (Some (String.eqb (toLowerCase (EntityProperty.type pk)) "objectid"))
          end
      end
  end.

(** Lines 268-314; [fuel] bounds [convertObjectIds]. *)
Definition renameFieldsKey (fuel : nat) (meta : option EntityMetadata.t) (entityName : string)
  (where_ : bool) (object : option bool) (copiedData : loc) (k : string) : M unit :=
  if isGroupOperator k then
    v <~ getProp copiedData k ;;
    items <~ arrayItems v ;;
    match items with
    | Some items =>
        a <~ renameEach entityName items false None ;;
        setProp copiedData k a
    | None =>
        l <~ recur entityName v false None ;;
        setProp copiedData k (HRef l)
    end
  else
    match match meta with Some m => EntityMetadata.properties m k | None => None end with
    | Some prop =>
        r <~ rewriteByKind prop where_ object copiedData ;;
        match r with
        | None => ret tt
        | Some isObjectId =>
            _ <~ (if isObjectId
                  then v <~ getProp copiedData k ;;
                       v' <~ convertObjectIds fuel v ;;
                       setProp copiedData k v'
                  else ret tt) ;;
            _ <~ match EntityProperty.fieldNames prop with
                 | Some names => renameKey copiedData k (item0 names)
                 | None => ret tt
                 end ;;
            regexShorthand copiedData k
        end
    | None => regexShorthand copiedData k
    end.

End Callback.

(** Lines 226-317: returns the reference of [copiedData]. *)
Fixpoint renameFields (fuel : nat) (entityName : string) (data : hvalue) (where_ : bool)
  (object : option bool) {struct fuel} : M loc :=
  match fuel with
  | O => throw OutOfFuel
  | S fuel' =>
      copiedData <~ Object_assign data ;;
      let meta := metadata_find entityName in
      _ <~ aliasPrimaryKey meta copiedData ;;
      _ <~ inlineStep meta copiedData where_ ;;
      _ <~ hoistFulltext copiedData ;;
      _ <~ restructureFulltext copiedData ;;
      nested <~ hasNestedKey fuel' (HRef copiedData) "$fulltext" ;;
      if nested then throw OnlyTopLevel
      else
        ks <~ entriesAt copiedData ;;
        _ <~ forEachS (renameFieldsKey (renameFields fuel') fuel' meta entityName where_ object
                                       copiedData)
                      (map fst ks) ;;
        ret copiedData
  end.

End RenameFields.

(** Reading a value of the store back as a document; [None] past the
    bound or at a dangling reference. *)
Fixpoint reify (fuel : nat) (s : store) (v : hvalue) : option value :=
  match fuel with
  | O => None
  | S fuel' =>
      match v with
      | HUndefined => Some VUndefined
      | HNull => Some VNull
      | HBool b => Some (VBool b)
      | HNum n => Some (VNum n)
      | HStr x => Some (VStr x)
      | HObjectId h => Some (VObjectId h)
      | HRegExp src => option_map VRegExp (reify fuel' s src)
      | HRef l =>
          match nth_error s l with
          | Some (CArr items) =>
              option_map VArr
                ((fix all (l : list hvalue) : option (list value) :=
                    match l with
                    | [] => Some []
                    | x :: t =>
                        match reify fuel' s x, all t with
                        | Some y, Some ys => Some (y :: ys)
                        | _, _ => None
                        end
                    end) items)
          | Some (CObj entries) =>
              option_map VObj
                ((fix all (l : list (string * hvalue)) : option Dictionary :=
                    match l with
                    | [] => Some []
                    | (k, x) :: t =>
                        match reify fuel' s x, all t with
                        | Some y, Some ys => Some ((k, y) :: ys)
                        | _, _ => None
                        end
                    end) entries)
          | None => None
          end
      end
  end.

End Store.

(** ** Vocabulary of the statements *)

(** The key occurs in the value, at its top level or at any depth of its
    objects and arrays. *)
Inductive KeyWithin (key : string) : value -> Prop :=
| KeyHere (entries : Dictionary) :
    In key (keys entries) -> KeyWithin key (VObj entries)
| KeyBelow (entries : Dictionary) (k : string) (v : value) :
    In (k, v) entries -> KeyWithin key v -> KeyWithin key (VObj entries)
| KeyInItem (items : list value) (v : value) :
    In v items -> KeyWithin key v -> KeyWithin key (VArr items).

(** The key [x] is there and maps to [v0]. *)
Definition Kept (x : string) (v0 : value) (d : Dictionary) : Prop :=
  has x d = true /\ get x d = v0.

(** A sub-document that has [$fulltext] among its own keys. *)
Definition holdsFulltext (v : value) : bool :=
  match v with
  | VObj entries => has "$fulltext" entries
  | _ => false
  end.

(** The number of [$fulltext] keys at the top level of the copy and in the
    sub-documents of its [$and]. *)
Definition fulltextCount (copiedData : Dictionary) (items : list value) : nat :=
  (if has "$fulltext" copiedData then 1 else 0) + List.length (filter holdsFulltext items).

(** A sub-document without its own [$fulltext] key. *)
Definition withoutFulltext (v : value) : value :=
  match v with
  | VObj entries => VObj (delete "$fulltext" entries)
  | _ => v
  end.

(** The search term: the value under [$fulltext] at the top level, or else
    in the first sub-document that has the key. *)
Definition fulltextTerm (copiedData : Dictionary) (items : list value) : value :=
  if has "$fulltext" copiedData then get "$fulltext" copiedData
  else match List.find holdsFulltext items with
       | Some (VObj entries) => get "$fulltext" entries
       | _ => VUndefined
       end.

(** The copy once its single [$fulltext] key is hoisted and replaced: the
    key is gone from the top level and from the sub-documents of [$and],
    and [$text] holds the search term. *)
Definition fulltextHoisted (copiedData : Dictionary) (items : list value) : Dictionary :=
  set "$text" (VObj [("$search", fulltextTerm copiedData items)])
      (set "$and" (VArr (map withoutFulltext items)) (delete "$fulltext" copiedData)).

(** The identifier a bare primary key stands for: the native identifier
    when the primary key's type is "objectid" (in any case of letters),
    the string itself otherwise. *)
Definition identifierOf (pk : EntityProperty.t) (id : string) : value :=
  if String.eqb (toLowerCase (EntityProperty.type pk)) "objectid"
  then VObjectId id else VStr id.

(** No property of a registered entity is stored under the name
    [$fulltext]. *)
Definition NoFulltextField (metadata_find : string -> option EntityMetadata.t) : Prop :=
  forall entityName m prop names,
    metadata_find entityName = Some m ->
    In prop (EntityMetadata.props m) ->
    EntityProperty.fieldNames prop = Some names ->
    item0 names <> "$fulltext".

(** The value holds, at some depth of its arrays and objects, a string that
    spells an identifier. *)
Fixpoint holdsIdString (v : value) : bool :=
  match v with
  | VStr s => matchesObjectId s
  | VArr items => existsb holdsIdString items
  | VObj entries =>
      (fix some (l : Dictionary) : bool :=
         match l with
         | [] => false
         | (_, x) :: t => holdsIdString x || some t
         end) entries
  | _ => false
  end.

(** The value is the regex shorthand: a plain object with the key [$re]. *)
Definition isRegexShorthand (v : value) : bool :=
  match v with
  | VObj entries => has "$re" entries
  | _ => false
  end.

(** Line 312 does not throw for [v]: [v] is not the regex shorthand, or
    the runtime accepts the pattern under its [$re]. *)
Definition patternAccepted (acceptsPattern : value -> bool) (v : value) : bool :=
  match v with
  | VObj entries => if has "$re" entries then acceptsPattern (get "$re" entries) else true
  | _ => true
  end.

(** What lines 311-313 leave under a key that holds [v], when they do not
    throw: the [RegExp] built from [v.$re] for the regex shorthand, [v]
    otherwise. *)
Definition regexOf (v : value) : value :=
  match v with
  | VObj entries => if has "$re" entries then VRegExp (get "$re" entries) else v
  | _ => v
  end.

(** The value stored for a property that is not embedded: normalized when
    [isObjectId] is set; and, only when the key did not change (line 311
    reads the copy under the old key), turned into a [RegExp] if it is
    the regex shorthand, with the [SyntaxError] of a pattern the runtime
    does not accept. *)
Definition storedValue (acceptsPattern : value -> bool) (isObjectId sameKey : bool)
  (v : value) : result value :=
  let v := if isObjectId then convertObjectIds v else v in
  if sameKey
  then if patternAccepted acceptsPattern v then Ok (regexOf v) else Err SyntaxError
  else Ok v.

(** [meta?.properties[k]] *)
Definition propertyOf (meta : option EntityMetadata.t) (k : string) : option EntityProperty.t :=
  match meta with
  | Some m => EntityMetadata.properties m k
  | None => None
  end.

(** A value that ['$fulltext' in v] rejects: neither an object, an array
    nor a class instance. *)
Definition isPrimitive (v : value) : bool :=
  match v with
  | VUndefined | VNull | VBool _ | VNum _ | VStr _ => true
  | _ => false
  end.

(** The type tag of the property reads "objectid", in any case of
    letters. *)
Definition isObjectIdType (prop : EntityProperty.t) : bool :=
  String.eqb (toLowerCase (EntityProperty.type prop)) "objectid".

(** What [buildFields] answers for a list of columns: [undefined] for the
    empty list. *)
Definition projection (columns : list string) : option (list EntityField) :=
  match columns with
  | [] => None
  | _ => Some (map FieldName columns)
  end.

(** The column a requested field name stands for: the first field name of
    the property it names, or the name itself when the entity has no such
    property and the name is not the wildcard. *)
Definition columnOf (meta : EntityMetadata.t) (field column : string) : Prop :=
  includesDot field = false
  /\ ((exists prop rest,
         EntityMetadata.properties meta field = Some prop
         /\ EntityProperty.fieldNames prop = Some (column :: rest)
         /\ EntityProperty.serializedPrimaryKey prop = false)
      \/ (EntityMetadata.properties meta field = None
          /\ field <> "*" /\ column = field)).

(** ** An example schema

    [Author] has an identifier, a serialized alias of it, scalar fields, a
    reference to a [Book] and an embedded [Address]; [Address] is an
    embeddable with an embedded [Geo] of its own. *)

Definition property (name : string) (kind : ReferenceKind) (type : string)
  (fieldNames : list string) : EntityProperty.t :=
  {| EntityProperty.name := name;
     EntityProperty.kind := kind;
     EntityProperty.type := type;
     EntityProperty.fieldNames := Some fieldNames;
     EntityProperty.array := false;
     EntityProperty.object := false;
     EntityProperty.lazy := false;
     EntityProperty.formula := false;
     EntityProperty.serializedPrimaryKey := false |}.

Definition Author : EntityMetadata.t :=
  {| EntityMetadata.className := "Author";
     EntityMetadata.props :=
       [ property "_id" SCALAR "ObjectId" ["_id"];
         property "name" SCALAR "string" ["name"];
         property "age" SCALAR "number" ["age"];
         property "born" SCALAR "Date" ["date_of_birth"];
         property "favouriteBook" MANY_TO_ONE "Book" ["favouriteBook"];
         property "address" EMBEDDED "Address" ["addr"] ];
     EntityMetadata.primaryKeys := ["_id"];
     EntityMetadata.serializedPrimaryKey := None;
     EntityMetadata.embeddable := false;
     EntityMetadata.virtual := false |}.

Definition Book : EntityMetadata.t :=
  {| EntityMetadata.className := "Book";
     EntityMetadata.props :=
       [ property "_id" SCALAR "ObjectId" ["_id"];
         property "title" SCALAR "string" ["title"];
         property "author" MANY_TO_ONE "Author" ["author"] ];
     EntityMetadata.primaryKeys := ["_id"];
     EntityMetadata.serializedPrimaryKey := None;
     EntityMetadata.embeddable := false;
     EntityMetadata.virtual := false |}.

Definition Address : EntityMetadata.t :=
  {| EntityMetadata.className := "Address";
     EntityMetadata.props :=
       [ property "city" SCALAR "string" ["city"];
         property "geo" EMBEDDED "Geo" ["location"] ];
     EntityMetadata.primaryKeys := [];
     EntityMetadata.serializedPrimaryKey := None;
     EntityMetadata.embeddable := true;
     EntityMetadata.virtual := false |}.

(** An entity whose primary key property is [id], stored as [_id]. *)
Definition Tag : EntityMetadata.t :=
  {| EntityMetadata.className := "Tag";
     EntityMetadata.props :=
       [ property "id" SCALAR "ObjectId" ["_id"];
         property "label" SCALAR "string" ["label"] ];
     EntityMetadata.primaryKeys := ["id"];
     EntityMetadata.serializedPrimaryKey := None;
     EntityMetadata.embeddable := false;
     EntityMetadata.virtual := false |}.

Definition registry (entityName : string) : option EntityMetadata.t :=
  if String.eqb entityName "Author" then Some Author
  else if String.eqb entityName "Book" then Some Book
  else if String.eqb entityName "Address" then Some Address
  else if String.eqb entityName "Tag" then Some Tag
  else None.

(** The inlining of a document that holds no object under an embedded
    property: there is nothing to inline, the copy stays as it is. *)
Definition nothingToInline : EntityMetadata.t -> Dictionary -> bool -> result Dictionary :=
  fun _ copiedData _ => Ok copiedData.

(** A stand-in for the runtime's [RegExp] constructor: it rejects a string
    that starts with a quantifier, which has nothing to repeat, and
    accepts every other pattern; the patterns of the examples hold no
    other error. *)
Definition noLeadingQuantifier (pattern : value) : bool :=
  match pattern with
  | VStr (String c _) =>
      negb (Ascii.eqb c "+"%char || Ascii.eqb c "*"%char || Ascii.eqb c "?"%char)
  | _ => true
  end.

(** An entity with a serialized alias [id] of its primary key [_id], and
    one whose properties are fetched lazily. *)
Definition Publisher : EntityMetadata.t :=
  {| EntityMetadata.className := "Publisher";
     EntityMetadata.props :=
       [ property "_id" SCALAR "ObjectId" ["_id"];
         {| EntityProperty.name := "id";
            EntityProperty.kind := SCALAR;
            EntityProperty.type := "string";
            EntityProperty.fieldNames := Some ["id"];
            EntityProperty.array := false;
            EntityProperty.object := false;
            EntityProperty.lazy := false;
            EntityProperty.formula := false;
            EntityProperty.serializedPrimaryKey := true |};
         property "name" SCALAR "string" ["name"];
         property "owner" MANY_TO_ONE "Owner" ["owner"];
         {| EntityProperty.name := "history";
            EntityProperty.kind := SCALAR;
            EntityProperty.type := "string";
            EntityProperty.fieldNames := Some ["history"];
            EntityProperty.array := false;
            EntityProperty.object := false;
            EntityProperty.lazy := true;
            EntityProperty.formula := false;
            EntityProperty.serializedPrimaryKey := false |} ];
     EntityMetadata.primaryKeys := ["_id"];
     EntityMetadata.serializedPrimaryKey := Some "id";
     EntityMetadata.embeddable := false;
     EntityMetadata.virtual := false |}.

(** [Owner], the target of [Publisher.owner], is not registered. *)
Definition publishers (entityName : string) : option EntityMetadata.t :=
  if String.eqb entityName "Publisher" then Some Publisher else registry entityName.

(** [Country] has the primary key [code], stored in the field [code];
    [Profile] has a primary key [_id] that is a reference to [Author]. *)
Definition Country : EntityMetadata.t :=
  {| EntityMetadata.className := "Country";
     EntityMetadata.props :=
       [ property "code" SCALAR "string" ["code"];
         property "name" SCALAR "string" ["name"] ];
     EntityMetadata.primaryKeys := ["code"];
     EntityMetadata.serializedPrimaryKey := None;
     EntityMetadata.embeddable := false;
     EntityMetadata.virtual := false |}.

Definition Profile : EntityMetadata.t :=
  {| EntityMetadata.className := "Profile";
     EntityMetadata.props :=
       [ property "_id" ONE_TO_ONE "Author" ["_id"];
         property "bio" SCALAR "string" ["bio"] ];
     EntityMetadata.primaryKeys := ["_id"];
     EntityMetadata.serializedPrimaryKey := None;
     EntityMetadata.embeddable := false;
     EntityMetadata.virtual := false |}.

Definition keyed (entityName : string) : option EntityMetadata.t :=
  if String.eqb entityName "Country" then Some Country
  else if String.eqb entityName "Profile" then Some Profile
  else registry entityName.

(** ** An example store

    [processCursorOptions] is [DatabaseDriver]'s; the stand-in keeps the
    options and the ordering and adds no condition.  The first store
    answers every query with the rows [C] and [B], the order in which a
    descending scan limited to two rows meets the rows [A], [B], [C]; the
    second answers with the filter it was given, as its only row. *)

Definition everyColumn : EntityProperty.t -> list PopulateOptions.t -> bool :=
  fun _ _ => true.

Definition keepCursorOptions
  : option EntityMetadata.t -> FindOptions.t -> value ->
    result (FindOptions.t * value * value) :=
  fun _ options orderBy => Ok (options, orderBy, VObj []).

Definition rowB : value := VObj [("_id", VNum 2)].
Definition rowC : value := VObj [("_id", VNum 3)].

Definition descendingStore
  : string -> Dictionary -> list Dictionary -> option Z -> option Z ->
    option (list EntityField) -> result (list value) :=
  fun _ _ _ _ _ _ => Ok [rowC; rowB].

Definition echoStore
  : string -> Dictionary -> list Dictionary -> option Z -> option Z ->
    option (list EntityField) -> result (list value) :=
  fun _ where_ _ _ _ _ => Ok [VObj where_].

Definition echoUpdateMany : string -> Dictionary -> Dictionary -> UpsertOptions.t -> result value :=
  fun _ where_ _ _ => Ok (VObj where_).

Definition echoDeleteMany : string -> Dictionary -> result value :=
  fun _ where_ => Ok (VObj where_).

Definition rowAsIs : value -> option EntityMetadata.t -> value := fun r _ => r.

Definition noVirtual : string -> value -> FindOptions.t -> result (list value) :=
  fun _ _ _ => Ok [].

Definition pageOptions (first last : option Z) : FindOptions.t :=
  {| FindOptions.first := first;
     FindOptions.last := last;
     FindOptions.before := None;
     FindOptions.after := None;
     FindOptions.populate := None;
     FindOptions.fields := None;
     FindOptions.orderBy := VObj [("_id", VNum 1)];
     FindOptions.limit := None;
     FindOptions.offset := None |}.

Definition noUpsert : UpsertOptions.t :=
  {| UpsertOptions.upsert := false;
     UpsertOptions.onConflictFields := None;
     UpsertOptions.onConflictMergeFields := None;
     UpsertOptions.onConflictExcludeFields := None |}.

(** A store that inserts every document under the identifiers [ids], and
    one that answers a bulk update with the number of filters it was
    given. *)
Definition insertedAs (ids : list value) : string -> list Dictionary -> result QueryResult.t :=
  fun _ docs =>
    Ok {| QueryResult.affectedRows := Z.of_nat (List.length docs);
          QueryResult.insertedIds := Some ids;
          QueryResult.rows := None |}.

Definition countingBulkUpdate
  : string -> list value -> list Dictionary -> UpsertOptions.t -> result QueryResult.t :=
  fun _ where_ _ _ =>
    Ok {| QueryResult.affectedRows := Z.of_nat (List.length where_);
          QueryResult.insertedIds := None;
          QueryResult.rows := None |}.

(** ** Caller documents in the object store

    [callerFilter] holds [{$and: [{age: {$gt: 1}}, {$fulltext: "x"}]}] at
    reference 4, its sub-documents at 1 and 2; [callerReference] holds
    [{favouriteBook: {$in: ["507f1f77bcf86cd799439011"]}}] at reference
    2. *)

Definition callerFilter : Store.store :=
  [ Store.CObj [("$gt", Store.HNum 1)];
    Store.CObj [("age", Store.HRef 0)];
    Store.CObj [("$fulltext", Store.HStr "x")];
    Store.CArr [Store.HRef 1; Store.HRef 2];
    Store.CObj [("$and", Store.HRef 3)] ].

Definition callerReference : Store.store :=
  [ Store.CArr [Store.HStr "507f1f77bcf86cd799439011"];
    Store.CObj [("$in", Store.HRef 0)];
    Store.CObj [("favouriteBook", Store.HRef 1)] ].

Definition nothingToInlineInStore : EntityMetadata.t -> Store.loc -> bool -> Store.M unit :=
  fun _ _ _ => Store.ret tt.

Definition noLeadingQuantifierInStore (pattern : Store.hvalue) : bool :=
  match pattern with
  | Store.HStr (String c _) =>
      negb (Ascii.eqb c "+"%char || Ascii.eqb c "*"%char || Ascii.eqb c "?"%char)
  | _ => true
  end.

(** The document at reference [l] once [run] has returned, and the one
    the run returned. *)
Definition documentAfter (run : Store.M Store.loc) (s : Store.store) (l : Store.loc)
  : option value :=
  match run s with
  | Ok (_, s') => Store.reify 8 s' (Store.HRef l)
  | Err _ => None
  end.

Definition documentReturned (run : Store.M Store.loc) (s : Store.store) : option value :=
  match run s with
  | Ok (copy, s') => Store.reify 8 s' (Store.HRef copy)
  | Err _ => None
  end.

(** * Properties *)

(** ** The identifier normalizer *)

Lemma convertObjectIds_obj (entries : Dictionary) :
  convertObjectIds (VObj entries) = VObj (mapValues convertObjectIds entries).
Proof.
  cbn. f_equal. induction entries as [|[k v] t IH]; cbn; [reflexivity|].
  now rewrite IH.
Qed.

Lemma convertObjectIds_involutive_step (v : value) :
  convertObjectIds (convertObjectIds v) = convertObjectIds v.
Proof.
  induction v using value_rect'; try reflexivity.
  - cbn. destruct (matchesObjectId s) eqn:E; cbn; [reflexivity|]. now rewrite E.
  - cbn. f_equal. rewrite map_map. induction H as [|x l Hx _ IH]; cbn; [reflexivity|].
    now rewrite Hx, IH.
  - rewrite !convertObjectIds_obj. f_equal. unfold mapValues. rewrite map_map.
    induction H as [|[k x] l Hx _ IH]; cbn in *; [reflexivity|].
    now rewrite Hx, IH.
Qed.

(** C6. The identifier normalizer is idempotent on every value; an
    [ObjectId] instance is returned as it is, a string of 24 hexadecimal
    digits becomes the [ObjectId] built from it, every other string and
    every other scalar is returned as it is, and arrays and objects are
    normalized element by element with their keys kept. *)
Theorem convertObjectIds_idempotent (v : value) :
  convertObjectIds (convertObjectIds v) = convertObjectIds v
  /\ (forall hex, convertObjectIds (VObjectId hex) = VObjectId hex)
  /\ (forall s, convertObjectIds (VStr s)
                = if matchesObjectId s then VObjectId s else VStr s)
  /\ convertObjectIds VUndefined = VUndefined
  /\ convertObjectIds VNull = VNull
  /\ (forall b, convertObjectIds (VBool b) = VBool b)
  /\ (forall n, convertObjectIds (VNum n) = VNum n)
  /\ (forall r, convertObjectIds (VRegExp r) = VRegExp r)
  /\ (forall items, convertObjectIds (VArr items) = VArr (map convertObjectIds items))
  /\ (forall entries, convertObjectIds (VObj entries)
                      = VObj (mapValues convertObjectIds entries)
                      /\ keys (mapValues convertObjectIds entries) = keys entries).
Proof.
  split; [apply convertObjectIds_involutive_step|].
  repeat split; try reflexivity.
  - apply convertObjectIds_obj.
  - unfold keys, mapValues. rewrite map_map. reflexivity.
Qed.

(** ** Dictionaries *)

Lemma has_In (k : string) (d : Dictionary) : has k d = true <-> In k (keys d).
Proof.
  induction d as [|[a u] t IH]; cbn; [split; [discriminate | tauto]|].
  destruct (String.eqb_spec a k) as [->|Hne]; [tauto|].
  rewrite IH. split; [tauto | intros [H|H]; [contradiction | exact H]].
Qed.

Lemma has_set (x k : string) (v : value) (d : Dictionary) :
  has x (set k v d) = String.eqb k x || has x d.
Proof.
  induction d as [|[a u] t IH]; cbn.
  - now destruct (String.eqb k x).
  - destruct (String.eqb_spec a k) as [->|Hak]; cbn.
    + now destruct (String.eqb k x).
    + rewrite IH. destruct (String.eqb a x); [now rewrite orb_true_r | reflexivity].
Qed.

Lemma get_set_same (k : string) (v : value) (d : Dictionary) : get k (set k v d) = v.
Proof.
  induction d as [|[a u] t IH]; cbn.
  - now rewrite String.eqb_refl.
  - destruct (String.eqb_spec a k) as [->|Hak]; cbn.
    + now rewrite String.eqb_refl.
    + destruct (String.eqb_spec a k); [contradiction | exact IH].
Qed.

Lemma get_set_other (x k : string) (v : value) (d : Dictionary) :
  x <> k -> get x (set k v d) = get x d.
Proof.
  intros Hx. induction d as [|[a u] t IH]; cbn.
  - destruct (String.eqb_spec k x); [congruence | reflexivity].
  - destruct (String.eqb_spec a k) as [->|Hak]; cbn.
    + destruct (String.eqb_spec k x); [congruence | reflexivity].
    + now rewrite IH.
Qed.

Lemma has_delete (x k : string) (d : Dictionary) :
  has x (delete k d) = negb (String.eqb k x) && has x d.
Proof.
  induction d as [|[a u] t IH]; cbn.
  - now rewrite andb_false_r.
  - destruct (String.eqb_spec a k) as [->|Hak]; cbn.
    + rewrite IH. now destruct (String.eqb k x).
    + rewrite IH. destruct (String.eqb_spec a x) as [->|Hax]; [|reflexivity].
      destruct (String.eqb_spec k x); [congruence | reflexivity].
Qed.

Lemma get_delete_other (x k : string) (d : Dictionary) :
  x <> k -> get x (delete k d) = get x d.
Proof.
  intros Hx. induction d as [|[a u] t IH]; cbn; [reflexivity|].
  destruct (String.eqb_spec a k) as [->|Hak]; cbn.
  - destruct (String.eqb_spec k x); [congruence | exact IH].
  - now rewrite IH.
Qed.

Lemma delete_absent (k : string) (d : Dictionary) : has k d = false -> delete k d = d.
Proof.
  induction d as [|[a u] t IH]; cbn; [reflexivity|].
  destruct (String.eqb a k); [discriminate|]. intros H. now rewrite IH.
Qed.

Lemma delete_set_same (k : string) (v : value) (d : Dictionary) :
  delete k (set k v d) = delete k d.
Proof.
  induction d as [|[a u] t IH]; cbn.
  - now rewrite String.eqb_refl.
  - destruct (String.eqb_spec a k) as [->|Hak]; cbn.
    + now rewrite String.eqb_refl.
    + destruct (String.eqb_spec a k); [contradiction | now rewrite IH].
Qed.

Lemma delete_set_comm (k k' : string) (v : value) (d : Dictionary) :
  k <> k' -> delete k (set k' v d) = set k' v (delete k d).
Proof.
  intros Hk. induction d as [|[a u] t IH]; cbn.
  - destruct (String.eqb_spec k' k); [congruence | reflexivity].
  - destruct (String.eqb_spec a k') as [->|Hak']; cbn.
    + destruct (String.eqb_spec k' k); [congruence|]. cbn. now rewrite String.eqb_refl.
    + destruct (String.eqb_spec a k) as [->|Hak]; [exact IH|].
      cbn. destruct (String.eqb_spec a k'); [contradiction | now rewrite IH].
Qed.

Lemma keys_set (k : string) (v : value) (d : Dictionary) :
  keys (set k v d) = if has k d then keys d else (keys d ++ [k])%list.
Proof.
  unfold keys. induction d as [|[a u] t IH]; cbn; [reflexivity|].
  destruct (String.eqb a k); cbn; [reflexivity|].
  rewrite IH. now destruct (has k t).
Qed.

Lemma In_keys_delete (x k : string) (d : Dictionary) :
  In x (keys (delete k d)) -> In x (keys d).
Proof.
  induction d as [|[a u] t IH]; cbn; [tauto|].
  destruct (String.eqb a k); cbn; tauto.
Qed.

Lemma NoDup_keys_delete (k : string) (d : Dictionary) :
  NoDup (keys d) -> NoDup (keys (delete k d)).
Proof.
  induction d as [|[a u] t IH]; cbn; [trivial|].
  intros H. inversion H as [|? ? Hnotin Hnd]; subst.
  destruct (String.eqb a k); cbn; [now apply IH|].
  constructor; [|now apply IH]. intros Hin. apply Hnotin. now apply In_keys_delete in Hin.
Qed.

Lemma NoDup_keys_set (k : string) (v : value) (d : Dictionary) :
  NoDup (keys d) -> NoDup (keys (set k v d)).
Proof.
  intros H. rewrite keys_set. destruct (has k d) eqn:E; [exact H|].
  apply NoDup_app; [exact H | repeat constructor; cbn; tauto |].
  intros x Hx [<-|[]]. apply has_In in Hx. congruence.
Qed.

(** [renameKey] leaves a key that is there, and is not the one renamed,
    with its value. *)
Lemma renameKey_other (x from to : string) (d : Dictionary) :
  x <> from -> has x d = true ->
  has x (renameKey d from to) = true /\ get x (renameKey d from to) = get x d.
Proof.
  intros Hx Hhas. unfold renameKey.
  destruct (has from d && negb (has to d)) eqn:E; [|now split].
  apply andb_prop in E as [_ Hto]. apply negb_true_iff in Hto.
  assert (Hxt : x <> to) by (intros ->; congruence).
  clear Hto. induction d as [|[a u] t IH]; cbn in *; [discriminate|].
  destruct (String.eqb_spec a x) as [->|Hax].
  - destruct (String.eqb_spec x from); [contradiction|]. cbn. now rewrite String.eqb_refl.
  - destruct (String.eqb_spec a from) as [->|Haf]; cbn.
    + destruct (String.eqb_spec to x); [congruence | now apply IH].
    + destruct (String.eqb_spec a x); [contradiction | now apply IH].
Qed.

Lemma keys_renameKey_single (k to : string) (v : value) :
  renameKey [(k, v)] k to = [(to, v)].
Proof.
  unfold renameKey. cbn. rewrite String.eqb_refl. cbn.
  destruct (String.eqb_spec k to) as [->|Hne]; reflexivity.
Qed.

Lemma properties_name (m : EntityMetadata.t) (k : string) (prop : EntityProperty.t) :
  EntityMetadata.properties m k = Some prop ->
  EntityProperty.name prop = k /\ In prop (EntityMetadata.props m).
Proof.
  unfold EntityMetadata.properties. intros H. apply find_some in H as [Hin Heq].
  apply String.eqb_eq in Heq. now split.
Qed.

(** ** Results *)

Lemma mapM_Forall2 {A B} (f : A -> result B) (l : list A) (l' : list B) :
  mapM f l = Ok l' -> Forall2 (fun x y => f x = Ok y) l l'.
Proof.
  revert l'. induction l as [|x t IH]; cbn; intros l' H.
  - injection H as <-. constructor.
  - destruct (f x) as [y|] eqn:Ex; cbn in H; [|discriminate].
    destruct (mapM f t) as [ys|] eqn:Et; cbn in H; [|discriminate].
    injection H as <-. constructor; [exact Ex | now apply IH].
Qed.

Lemma forEachKey_app {D} (f : D -> string -> result D) (a b : list string) (s : D) :
  forEachKey f (a ++ b)%list s = (s' <- forEachKey f a s ;; forEachKey f b s').
Proof.
  revert s. induction a as [|k t IH]; cbn; intros s; [reflexivity|].
  destruct (f s k); cbn; [apply IH | reflexivity].
Qed.

(** An invariant that every step keeps is kept by the whole pass. *)
Lemma forEachKey_invariant {D} (I : D -> Prop) (f : D -> string -> result D)
  (ks : list string) :
  (forall k s s', In k ks -> I s -> f s k = Ok s' -> I s') ->
  forall s out, I s -> forEachKey f ks s = Ok out -> I out.
Proof.
  induction ks as [|k t IH]; cbn; intros Hstep s out Hs H.
  - now injection H as <-.
  - destruct (f s k) as [s'|] eqn:E; cbn in H; [|discriminate].
    apply (IH (fun k0 s0 s0' Hin => Hstep k0 s0 s0' (or_intror Hin)) s' out); [|exact H].
    apply (Hstep k s s'); [now left | exact Hs | exact E].
Qed.

Lemma bind_Ok {A B} (r : result A) (f : A -> result B) (b : B) :
  bind r f = Ok b -> exists a, r = Ok a /\ f a = Ok b.
Proof. destruct r as [a|e]; cbn; [eauto | discriminate]. Qed.

Ltac bind_inv H :=
  let a := fresh "a" in
  let Ha := fresh "Ha" in
  apply bind_Ok in H as (a & Ha & H).

(** ** Entries the rewriting leaves alone *)

Lemma Kept_set (x : string) (v0 : value) (k : string) (v : value) (d : Dictionary) :
  x <> k -> Kept x v0 d -> Kept x v0 (set k v d).
Proof.
  intros Hx [Hh Hg]. split.
  - rewrite has_set, Hh. apply orb_true_r.
  - now rewrite get_set_other.
Qed.

Lemma Kept_delete (x : string) (v0 : value) (k : string) (d : Dictionary) :
  x <> k -> Kept x v0 d -> Kept x v0 (delete k d).
Proof.
  intros Hx [Hh Hg]. split.
  - rewrite has_delete, Hh. destruct (String.eqb_spec k x); [congruence | reflexivity].
  - now rewrite get_delete_other.
Qed.

Lemma Kept_renameKey (x : string) (v0 : value) (from to : string) (d : Dictionary) :
  x <> from -> Kept x v0 d -> Kept x v0 (renameKey d from to).
Proof.
  intros Hx [Hh Hg]. destruct (renameKey_other x from to d Hx Hh) as [H1 H2].
  split; [exact H1 | now rewrite H2].
Qed.

Lemma regexShorthand_Ok (acceptsPattern : value -> bool) (d d' : Dictionary) (k : string) :
  regexShorthand acceptsPattern d k = Ok d' ->
  d' = d
  \/ exists entries,
       get k d = VObj entries /\ has "$re" entries = true
       /\ acceptsPattern (get "$re" entries) = true
       /\ d' = set k (VRegExp (get "$re" entries)) d.
Proof.
  unfold regexShorthand, new_RegExp. intros H.
  destruct (get k d) eqn:E; try (injection H as <-; now left).
  destruct (has "$re" entries) eqn:Ere; [|injection H as <-; now left].
  destruct (acceptsPattern (get "$re" entries)) eqn:Eok; [|discriminate].
  injection H as <-. right. now exists entries.
Qed.

Lemma Kept_regexShorthand (acceptsPattern : value -> bool) (x : string) (v0 : value)
  (k : string) (d d' : Dictionary) :
  x <> k -> regexShorthand acceptsPattern d k = Ok d' -> Kept x v0 d -> Kept x v0 d'.
Proof.
  intros Hx H Hk. apply regexShorthand_Ok in H as [->|(entries & _ & _ & _ & ->)];
    [exact Hk | now apply Kept_set].
Qed.

Lemma Kept_hoistFulltextFrom (x : string) (v0 : value) (items : list value) :
  x <> "$fulltext" ->
  forall d r, hoistFulltextFrom items d = Ok r -> Kept x v0 d -> Kept x v0 (snd r).
Proof.
  intros Hx. induction items as [|and rest IH]; cbn; intros d r H Hk.
  - now injection H as <-.
  - destruct and; try discriminate.
    + bind_inv H. injection H as <-. cbn. eapply IH; eauto.
    + bind_inv H. injection H as <-. cbn. eapply IH; eauto.
    + bind_inv H. injection H as <-. cbn. eapply IH; eauto.
    + destruct (has "$fulltext" entries).
      * destruct (has "$fulltext" d); [discriminate|].
        bind_inv H. injection H as <-. cbn. eapply IH; [exact Ha|]. now apply Kept_set.
      * bind_inv H. injection H as <-. cbn. eapply IH; eauto.
Qed.

Lemma Kept_hoistFulltext (x : string) (v0 : value) (d d' : Dictionary) :
  x <> "$fulltext" -> x <> "$and" ->
  hoistFulltext d = Ok d' -> Kept x v0 d -> Kept x v0 d'.
Proof.
  intros Hf Ha H Hk. unfold hoistFulltext in H.
  destruct (truthy (get "$and" d)); [|now injection H as <-].
  destruct (get "$and" d); try discriminate; try (now injection H as <-).
  - bind_inv H. injection H as <-. apply Kept_set; [exact Ha|].
    eapply Kept_hoistFulltextFrom; eauto.
  - destruct (has "length" entries); [discriminate | now injection H as <-].
Qed.

Lemma Kept_restructureFulltext (x : string) (v0 : value) (d : Dictionary) :
  x <> "$fulltext" -> x <> "$text" -> Kept x v0 d -> Kept x v0 (restructureFulltext d).
Proof.
  intros Hf Ht Hk. unfold restructureFulltext.
  destruct (has "$fulltext" d); [|exact Hk].
  apply Kept_delete; [exact Hf|]. now apply Kept_set.
Qed.

Section KeptByCallback.

Variable metadata_find : string -> option EntityMetadata.t.
Variable acceptsPattern : value -> bool.
Variable recur : string -> value -> bool -> option bool -> result Dictionary.

Lemma Kept_rewriteByKind (x : string) (v0 : value) (prop : EntityProperty.t) (where_ : bool)
  (object : option bool) (d d' : Dictionary) (b : bool) :
  x <> EntityProperty.name prop ->
  rewriteByKind metadata_find recur prop where_ object d = Ok (Some (b, d')) ->
  Kept x v0 d -> Kept x v0 d'.
Proof.
  intros Hx H Hk. unfold rewriteByKind in H.
  destruct (EntityProperty.kind prop).
  1: { injection H as _ <-. exact Hk. }
  5: { destruct (isNullish (get (EntityProperty.name prop) d)); [discriminate|].
       destruct (get (EntityProperty.name prop) d);
         try (bind_inv H; injection H as _ <-; now apply Kept_set).
       destruct (EntityProperty.array prop);
         bind_inv H; injection H as _ <-; now apply Kept_set. }
  all: destruct (metadata_find (EntityProperty.type prop)) as [meta2|]; [|discriminate];
    destruct (EntityMetadata.properties meta2 (item0 (EntityMetadata.primaryKeys meta2)));
    [|discriminate]; injection H as _ <-; exact Hk.
Qed.

(** A turn of the key-by-key pass touches the key it is run for, and the
    key it renames it to when that one is free. *)
Lemma Kept_renameFieldsKey (x : string) (v0 : value) (meta : option EntityMetadata.t)
  (entityName : string) (where_ : bool) (object : option bool) (d d' : Dictionary)
  (k : string) :
  x <> k ->
  renameFieldsKey metadata_find acceptsPattern recur meta entityName where_ object d k = Ok d' ->
  Kept x v0 d -> Kept x v0 d'.
Proof.
  intros Hx H Hk. unfold renameFieldsKey in H.
  destruct (isGroupOperator k).
  - destruct (get k d); bind_inv H; injection H as <-; now apply Kept_set.
  - destruct (match meta with
              | Some m => EntityMetadata.properties m k
              | None => None
              end) as [prop|] eqn:Eprop.
    + assert (Hname : EntityProperty.name prop = k).
      { destruct meta as [m|]; [|discriminate]. now apply properties_name in Eprop. }
      bind_inv H. destruct a as [[b d1]|]; [|now injection H as <-].
      apply (Kept_regexShorthand acceptsPattern x v0 k _ d' Hx H).
      assert (Hk1 : Kept x v0 d1).
      { eapply Kept_rewriteByKind; eauto. now rewrite Hname. }
      assert (Hk2 : Kept x v0 (if b then set k (convertObjectIds (get k d1)) d1 else d1)).
      { destruct b; [now apply Kept_set | exact Hk1]. }
      destruct (EntityProperty.fieldNames prop); [now apply Kept_renameKey | exact Hk2].
    + now apply (Kept_regexShorthand acceptsPattern x v0 k d d' Hx H).
Qed.

End KeptByCallback.

(** ** Embedded values that are null *)

Section EmbeddedNull.

Variable metadata_find : string -> option EntityMetadata.t.
Variable inlineEmbeddables : EntityMetadata.t -> Dictionary -> bool -> result Dictionary.
Variable acceptsPattern : value -> bool.

Lemma isGroupOperator_and (k : string) : isGroupOperator k = false -> k <> "$and".
Proof. intros H ->. discriminate. Qed.

(** Line 288: the turn of an embedded property whose value is [null] or
    [undefined] returns at once. *)
Lemma renameFieldsKey_embedded_null
  (recur : string -> value -> bool -> option bool -> result Dictionary)
  (m : EntityMetadata.t) (prop : EntityProperty.t) (entityName : string) (where_ : bool)
  (object : option bool) (d : Dictionary) (k : string) :
  EntityMetadata.properties m k = Some prop ->
  EntityProperty.kind prop = EMBEDDED ->
  isGroupOperator k = false ->
  isNullish (get k d) = true ->
  renameFieldsKey metadata_find acceptsPattern recur (Some m) entityName where_ object d k = Ok d.
Proof.
  intros Hprop Hkind Hgroup Hnull. unfold renameFieldsKey. rewrite Hgroup, Hprop.
  unfold rewriteByKind. rewrite Hkind.
  destruct (properties_name _ _ _ Hprop) as [-> _]. now rewrite Hnull.
Qed.

(** Lines 291-295 for a single embedded value. *)
Lemma rewriteByKind_embedded_value
  (recur : string -> value -> bool -> option bool -> result Dictionary)
  (prop : EntityProperty.t) (where_ : bool) (object : option bool) (v : value)
  (d : Dictionary) :
  EntityProperty.kind prop = EMBEDDED ->
  isNullish v = false -> isArray v = false ->
  recur (EntityProperty.type prop) v where_
        (if EntityProperty.object prop then Some true else object) = Ok d ->
  rewriteByKind metadata_find recur prop where_ object [(EntityProperty.name prop, v)]
  = Ok (Some (false, [(EntityProperty.name prop, VObj d)])).
Proof.
  intros Hkind Hnotnull Hnotarray Hrec. unfold rewriteByKind. rewrite Hkind. cbn [get].
  rewrite String.eqb_refl, Hnotnull.
  destruct v; try discriminate; rewrite Hrec; cbn; now rewrite String.eqb_refl.
Qed.

(** C10. An embedded property [k] (not one of the reserved keys [$and],
    [$or], [$fulltext], [$text]) whose entry is [null] or [undefined] once
    the copy is made.  Whatever else the document holds, every document
    returned has the entry under its logical name with its value; and the
    document that holds this entry alone is returned as it is, so the key
    is not renamed to the property's field name.  By contrast the document
    that holds a single embedded value that is not null comes back under
    the property's field name, with the value rewritten against the
    embedded entity. *)
Theorem embedded_null_left_alone (fuel : nat) (entityName : string) (m : EntityMetadata.t)
  (prop : EntityProperty.t) (k : string) (data : value) (where_ : bool)
  (object : option bool) (copiedData : Dictionary) :
  metadata_find entityName = Some m ->
  EntityMetadata.properties m k = Some prop ->
  EntityProperty.kind prop = EMBEDDED ->
  isGroupOperator k = false -> k <> "$fulltext" -> k <> "$text" ->
  renameFieldsCopy metadata_find inlineEmbeddables entityName data where_ = Ok copiedData ->
  has k copiedData = true ->
  (isNullish (get k copiedData) = true ->
   (forall out,
       renameFields metadata_find inlineEmbeddables acceptsPattern (S fuel) entityName data where_
                    object
       = Ok out ->
       has k out = true /\ get k out = get k copiedData)
   /\ (forall v, copiedData = [(k, v)] ->
       renameFields metadata_find inlineEmbeddables acceptsPattern (S fuel) entityName data where_
                    object
       = Ok [(k, v)]))
  /\ (forall v names d,
      copiedData = [(k, v)] -> isNullish v = false -> isArray v = false ->
      hasNestedKey v "$fulltext" = false ->
      EntityProperty.fieldNames prop = Some names ->
      renameFields metadata_find inlineEmbeddables acceptsPattern fuel (EntityProperty.type prop) v
                   where_
                   (if EntityProperty.object prop then Some true else object) = Ok d ->
      has "$re" d = false ->
      renameFields metadata_find inlineEmbeddables acceptsPattern (S fuel) entityName data where_
                   object
      = Ok [(item0 names, VObj d)]).
Proof.
  intros Hmeta Hprop Hkind Hgroup Hft Htext Hcopy Hhas.
  pose proof (isGroupOperator_and k Hgroup) as Hand.
  assert (Ehead : forall v, copiedData = [(k, v)] ->
            renameFieldsHead metadata_find inlineEmbeddables entityName data where_
            = Ok [(k, v)]).
  { intros v ->. unfold renameFieldsHead. rewrite Hcopy. cbn [bind].
    unfold hoistFulltext. cbn [get].
    destruct (String.eqb_spec k "$and"); [contradiction|]. cbn [truthy bind].
    unfold restructureFulltext. cbn [has].
    destruct (String.eqb_spec k "$fulltext"); [contradiction | reflexivity]. }
  assert (Eguard : forall v, hasNestedKey v "$fulltext" = false ->
            hasNestedKey (VObj [(k, v)]) "$fulltext" = false).
  { intros v Hv. cbn. destruct (String.eqb_spec k "$fulltext"); [contradiction|].
    cbn. now rewrite Hv. }
  split; [intros Hnull; split|].
  - intros out H. cbn [renameFields] in H. unfold renameFieldsHead in H.
    rewrite Hcopy in H. cbn [bind] in H.
    destruct (hoistFulltext copiedData) as [hoisted|] eqn:Eh; cbn [bind] in H; [|discriminate].
    destruct (hasNestedKey _ _); [discriminate|].
    assert (K0 : Kept k (get k copiedData) (restructureFulltext hoisted)).
    { apply Kept_restructureFulltext; [exact Hft | exact Htext|].
      eapply Kept_hoistFulltext; eauto. now split. }
    rewrite Hmeta in H.
    refine (forEachKey_invariant (Kept k (get k copiedData)) _ _ _ _ _ K0 H).
    intros k0 s s' _ Hs Hstep.
    destruct (String.eqb_spec k k0) as [<-|Hne].
    + rewrite (renameFieldsKey_embedded_null _ m prop) in Hstep; auto.
      * now injection Hstep as <-.
      * destruct Hs as [_ ->]. exact Hnull.
    + eapply Kept_renameFieldsKey; eauto.
  - intros v Hv. cbn [renameFields]. rewrite (Ehead v Hv). cbn [bind].
    subst copiedData. cbn [get] in Hnull. rewrite String.eqb_refl in Hnull.
    rewrite Eguard by (destruct v; try discriminate; reflexivity).
    rewrite Hmeta. cbn [keys map fst forEachKey].
    rewrite (renameFieldsKey_embedded_null _ m prop); auto.
    cbn [get]. now rewrite String.eqb_refl.
  - intros v names d Hv Hnotnull Hnotarray Hclean Hnames Hrec Hre.
    cbn [renameFields]. rewrite (Ehead v Hv). cbn [bind]. rewrite (Eguard v Hclean).
    rewrite Hmeta. cbn [keys map fst forEachKey].
    unfold renameFieldsKey. rewrite Hgroup, Hprop.
    destruct (properties_name _ _ _ Hprop) as [<- _].
    rewrite (rewriteByKind_embedded_value _ prop where_ object v d Hkind Hnotnull Hnotarray
               Hrec).
    cbn [bind]. rewrite Hnames, keys_renameKey_single.
    unfold regexShorthand. cbn [get].
    destruct (String.eqb (item0 names) (EntityProperty.name prop)); [|reflexivity].
    now rewrite Hre.
Qed.

End EmbeddedNull.

Lemma embedded_null_left_alone_witness :
  renameFieldsCopy registry nothingToInline "Author" (VObj [("address", VNull)]) true
  = Ok [("address", VNull)]
  /\ renameFields registry nothingToInline noLeadingQuantifier 1 "Author"
                  (VObj [("address", VNull)]) true None
     = Ok [("address", VNull)].
Proof.
  split; [reflexivity|].
  refine (proj2 (proj1 (embedded_null_left_alone registry nothingToInline noLeadingQuantifier 0
                                                 "Author" Author
                          (property "address" EMBEDDED "Address" ["addr"]) "address"
                          (VObj [("address", VNull)]) true None [("address", VNull)]
                          _ _ _ _ _ _ _ _) _) VNull _);
    try reflexivity; discriminate.
Defined.

(** An embedded value that is not null, for comparison: it is rewritten
    against [Address] and its key becomes the field name. *)
Example embedded_value_renamed :
  renameFields registry nothingToInline noLeadingQuantifier 2 "Author"
    (VObj [("address", VObj [("city", VStr "X"); ("geo", VNull)])]) true None
  = Ok [("addr", VObj [("city", VStr "X"); ("geo", VNull)])].
Proof. reflexivity. Qed.

(** ** Renaming replaces the key *)

(** Lines 311-313 on a copy that holds one entry. *)
Lemma regexShorthand_single (acceptsPattern : value -> bool) (p k : string) (v : value) :
  regexShorthand acceptsPattern [(p, v)] k
  = if String.eqb p k
    then if patternAccepted acceptsPattern v then Ok [(p, regexOf v)] else Err SyntaxError
    else Ok [(p, v)].
Proof.
  unfold regexShorthand, new_RegExp, patternAccepted, regexOf. cbn [get].
  destruct (String.eqb_spec p k) as [->|Hne]; [|reflexivity].
  destruct v; try reflexivity.
  destruct (has "$re" entries); [|reflexivity].
  destruct (acceptsPattern (get "$re" entries)); [|reflexivity].
  cbn. now rewrite String.eqb_refl.
Qed.

Section RenameReplaces.

Variable metadata_find : string -> option EntityMetadata.t.
Variable inlineEmbeddables : EntityMetadata.t -> Dictionary -> bool -> result Dictionary.
Variable acceptsPattern : value -> bool.

Lemma rewriteByKind_None
  (recur : string -> value -> bool -> option bool -> result Dictionary)
  (prop : EntityProperty.t) (where_ : bool) (object : option bool) (d : Dictionary) :
  rewriteByKind metadata_find recur prop where_ object d = Ok None ->
  EntityProperty.kind prop = EMBEDDED
  /\ isNullish (get (EntityProperty.name prop) d) = true.
Proof.
  unfold rewriteByKind. intros H.
  destruct (EntityProperty.kind prop); try discriminate.
  5: { destruct (isNullish (get (EntityProperty.name prop) d)) eqn:E; [now split|].
       destruct (get (EntityProperty.name prop) d);
         try (bind_inv H; discriminate).
       destruct (EntityProperty.array prop); bind_inv H; discriminate. }
  all: destruct (metadata_find (EntityProperty.type prop)) as [meta2|]; [|discriminate];
    destruct (EntityMetadata.properties meta2 (item0 (EntityMetadata.primaryKeys meta2)));
    discriminate.
Qed.

Lemma rewriteByKind_single
  (recur : string -> value -> bool -> option bool -> result Dictionary)
  (prop : EntityProperty.t) (where_ : bool) (object : option bool) (v : value)
  (b : bool) (d : Dictionary) :
  rewriteByKind metadata_find recur prop where_ object [(EntityProperty.name prop, v)]
  = Ok (Some (b, d)) ->
  exists v', d = [(EntityProperty.name prop, v')].
Proof.
  unfold rewriteByKind. intros H.
  assert (Hset : forall x, set (EntityProperty.name prop) x [(EntityProperty.name prop, v)]
                           = [(EntityProperty.name prop, x)]).
  { intros x. cbn. now rewrite String.eqb_refl. }
  destruct (EntityProperty.kind prop).
  1: { injection H as _ <-. now eexists. }
  5: { destruct (isNullish _); [discriminate|].
       destruct (get (EntityProperty.name prop) _);
         try (bind_inv H; injection H as _ <-; rewrite ?Hset, ?String.eqb_refl; now eexists).
       destruct (EntityProperty.array prop);
         bind_inv H; injection H as _ <-; rewrite ?Hset, ?String.eqb_refl; now eexists. }
  all: destruct (metadata_find (EntityProperty.type prop)) as [meta2|]; [|discriminate];
    destruct (EntityMetadata.properties meta2 (item0 (EntityMetadata.primaryKeys meta2)));
    [|discriminate]; injection H as _ <-; now eexists.
Qed.

(** C3, amended.  The document [{l: v}] for a property [l] with field names
    [names], where [l] is neither a group operator nor [$fulltext], [v]
    holds no [$fulltext] key, and the primary-key alias and the inlining
    leave the copy as it is.  Unless the property is embedded and [v] is
    [null] or [undefined], every document the rewriting returns has the
    first field name as its only key, so it has that key and, when the two
    differ, not [l].  For a scalar property a document is returned, but
    for one case: when the field name is [l] itself and the value, once
    normalized, is the regex shorthand with a pattern the runtime does
    not accept, line 312 throws a [SyntaxError]. *)
Theorem rename_replaces_key (fuel : nat) (entityName : string) (m : EntityMetadata.t)
  (prop : EntityProperty.t) (l : string) (names : list string) (v : value)
  (where_ : bool) (object : option bool) :
  metadata_find entityName = Some m ->
  EntityMetadata.properties m l = Some prop ->
  EntityProperty.fieldNames prop = Some names ->
  isGroupOperator l = false -> l <> "$fulltext" ->
  hasNestedKey v "$fulltext" = false ->
  renameFieldsCopy metadata_find inlineEmbeddables entityName (VObj [(l, v)]) where_
  = Ok [(l, v)] ->
  (EntityProperty.kind prop = EMBEDDED -> isNullish v = false) ->
  (forall out,
      renameFields metadata_find inlineEmbeddables acceptsPattern (S fuel) entityName
                   (VObj [(l, v)]) where_ object = Ok out ->
      keys out = [item0 names]
      /\ has (item0 names) out = true
      /\ (item0 names <> l -> has l out = false))
  /\ (EntityProperty.kind prop = SCALAR ->
      if String.eqb (item0 names) l
         && negb (patternAccepted acceptsPattern
                    (if isObjectIdType prop then convertObjectIds v else v))
      then renameFields metadata_find inlineEmbeddables acceptsPattern (S fuel) entityName
                        (VObj [(l, v)]) where_ object = Err SyntaxError
      else exists v',
             renameFields metadata_find inlineEmbeddables acceptsPattern (S fuel) entityName
                          (VObj [(l, v)]) where_ object = Ok [(item0 names, v')]).
Proof.
  intros Hmeta Hprop Hnames Hgroup Hft Hclean Hcopy Hnotnull.
  pose proof (isGroupOperator_and l Hgroup) as Hand.
  destruct (properties_name _ _ _ Hprop) as [Hname _].
  assert (Ehead : renameFieldsHead metadata_find inlineEmbeddables entityName
                    (VObj [(l, v)]) where_ = Ok [(l, v)]).
  { unfold renameFieldsHead. rewrite Hcopy. cbn [bind].
    unfold hoistFulltext. cbn [get].
    destruct (String.eqb_spec l "$and"); [contradiction|]. cbn [truthy bind].
    unfold restructureFulltext. cbn [has].
    destruct (String.eqb_spec l "$fulltext"); [contradiction | reflexivity]. }
  assert (Eguard : hasNestedKey (VObj [(l, v)]) "$fulltext" = false).
  { cbn. destruct (String.eqb_spec l "$fulltext"); [contradiction|].
    cbn. now rewrite Hclean. }
  assert (E :
    renameFields metadata_find inlineEmbeddables acceptsPattern (S fuel) entityName
                 (VObj [(l, v)]) where_ object
    = (r <- rewriteByKind metadata_find
              (renameFields metadata_find inlineEmbeddables acceptsPattern fuel)
              prop where_ object [(l, v)] ;;
       match r with
       | None => Ok [(l, v)]
       | Some (isObjectId, cd) =>
           regexShorthand acceptsPattern
             (renameKey (if isObjectId then set l (convertObjectIds (get l cd)) cd else cd)
                        l (item0 names)) l
       end)).
  { cbn [renameFields]. rewrite Ehead. cbn [bind]. rewrite Eguard, Hmeta.
    cbn [keys map fst forEachKey]. unfold renameFieldsKey at 1. rewrite Hgroup, Hprop.
    destruct (rewriteByKind _ _ _ _ _ _) as [[[b cd]|]|]; cbn [bind]; try reflexivity.
    rewrite Hnames. now destruct (regexShorthand _ _ _). }
  assert (Hshape : forall b cd,
    rewriteByKind metadata_find
                  (renameFields metadata_find inlineEmbeddables acceptsPattern fuel)
                  prop where_ object [(l, v)] = Ok (Some (b, cd)) ->
    exists v1,
      cd = [(l, v1)]
      /\ regexShorthand acceptsPattern
           (renameKey (if b then set l (convertObjectIds (get l cd)) cd else cd)
                      l (item0 names)) l
         = if String.eqb (item0 names) l
           then if patternAccepted acceptsPattern (if b then convertObjectIds v1 else v1)
                then Ok [(item0 names, regexOf (if b then convertObjectIds v1 else v1))]
                else Err SyntaxError
           else Ok [(item0 names, if b then convertObjectIds v1 else v1)]).
  { intros b cd Hr. rewrite <- Hname in Hr. apply rewriteByKind_single in Hr as [v1 ->].
    rewrite Hname. exists v1. split; [reflexivity|].
    assert (E1 : (if b then set l (convertObjectIds (get l [(l, v1)])) [(l, v1)]
                  else [(l, v1)]) = [(l, if b then convertObjectIds v1 else v1)]).
    { destruct b; [|reflexivity]. cbn. now rewrite !String.eqb_refl. }
    rewrite E1, keys_renameKey_single. apply regexShorthand_single. }
  split.
  - intros out H. rewrite E in H. bind_inv H.
    destruct a as [[b cd]|].
    + destruct (Hshape b cd Ha) as (v1 & _ & Es). rewrite Es in H.
      assert (exists v', out = [(item0 names, v')]) as [v' ->].
      { destruct (String.eqb (item0 names) l); [|injection H as <-; now eexists].
        destruct (patternAccepted _ _); [injection H as <-; now eexists | discriminate]. }
      cbn. rewrite String.eqb_refl. repeat split.
      intros Hne. destruct (String.eqb_spec (item0 names) l); [contradiction | reflexivity].
    + apply rewriteByKind_None in Ha as [Hk Hn]. rewrite Hname in Hn. cbn [get] in Hn.
      rewrite String.eqb_refl in Hn. rewrite (Hnotnull Hk) in Hn. discriminate.
  - intros Hscalar. rewrite E.
    assert (Hr : rewriteByKind metadata_find
                   (renameFields metadata_find inlineEmbeddables acceptsPattern fuel)
                   prop where_ object [(l, v)]
                 = Ok (Some (isObjectIdType prop, [(l, v)]))).
    { unfold rewriteByKind. now rewrite Hscalar. }
    rewrite Hr. cbn [bind]. destruct (Hshape _ _ Hr) as (v1 & Ev & ->).
    injection Ev as <-.
    destruct (String.eqb (item0 names) l); cbn [andb]; [|now eexists].
    destruct (patternAccepted _ _); cbn [negb]; [now eexists | reflexivity].
Qed.

End RenameReplaces.

Lemma rename_replaces_key_witness :
  renameFieldsCopy registry nothingToInline "Author" (VObj [("born", VNum 1990)]) true
  = Ok [("born", VNum 1990)]
  /\ exists v',
       renameFields registry nothingToInline noLeadingQuantifier 1 "Author"
                    (VObj [("born", VNum 1990)]) true None
       = Ok [("date_of_birth", v')].
Proof.
  split; [reflexivity|].
  refine (proj2 (rename_replaces_key registry nothingToInline noLeadingQuantifier 0 "Author" Author
                   (property "born" SCALAR "Date" ["date_of_birth"]) "born"
                   ["date_of_birth"] (VNum 1990) true None _ _ _ _ _ _ _ _) _);
    try reflexivity; discriminate.
Defined.

(** The claim C3 fails for an embedded property whose value is [null]: the
    entry stays under its logical name.  [Address] is an embeddable, so no
    inlining runs; [Author] is a top-level entity. *)
Lemma rename_keeps_key_of_embedded_null :
  EntityMetadata.properties Address "geo" = Some (property "geo" EMBEDDED "Geo" ["location"])
  /\ renameFields registry nothingToInline noLeadingQuantifier 1 "Address" (VObj [("geo", VNull)])
                  false None
     = Ok [("geo", VNull)]
  /\ has "location" [("geo", VNull)] = false
  /\ EntityMetadata.properties Author "address"
     = Some (property "address" EMBEDDED "Address" ["addr"])
  /\ renameFields registry nothingToInline noLeadingQuantifier 1 "Author"
                  (VObj [("address", VNull)]) true None
     = Ok [("address", VNull)]
  /\ has "addr" [("address", VNull)] = false.
Proof. repeat split. Qed.

(** ** The key found at any depth *)

Lemma hasNestedKey_obj (d : Dictionary) (key : string) :
  hasNestedKey (VObj d) key
  = existsb (fun kv => String.eqb (fst kv) key || hasNestedKey (snd kv) key) d.
Proof.
  cbn. induction d as [|[k v] t IH]; cbn; [reflexivity|]. now rewrite IH.
Qed.

(** [hasNestedKey] answers [true] exactly for the values the key occurs
    in. *)
Lemma hasNestedKey_spec (v : value) (key : string) :
  hasNestedKey v key = true <-> KeyWithin key v.
Proof.
  split.
  - induction v using value_rect'; try discriminate.
    + cbn. intros Hex. apply existsb_exists in Hex as (x & Hin & Hx).
      apply (KeyInItem key items x Hin). rewrite Forall_forall in H. now apply H.
    + rewrite hasNestedKey_obj. intros Hex. apply existsb_exists in Hex as ([k x] & Hin & Hx).
      cbn in Hx. apply orb_prop in Hx as [Hk|Hx].
      * apply String.eqb_eq in Hk as <-. apply KeyHere. unfold keys.
        apply in_map_iff. now exists (k, x).
      * apply (KeyBelow key entries k x Hin). rewrite Forall_forall in H.
        now apply (H (k, x)).
  - induction 1 as [entries Hin | entries k v Hin _ IH | items v Hin _ IH].
    + rewrite hasNestedKey_obj. apply existsb_exists.
      unfold keys in Hin. apply in_map_iff in Hin as ([k x] & <- & Hin).
      exists (k, x). split; [exact Hin|]. cbn. now rewrite String.eqb_refl.
    + rewrite hasNestedKey_obj. apply existsb_exists.
      exists (k, v). split; [exact Hin|]. cbn. rewrite IH. apply orb_true_r.
    + cbn. apply existsb_exists. now exists v.
Qed.

Lemma restructureFulltext_removes (d : Dictionary) :
  has "$fulltext" (restructureFulltext d) = false.
Proof.
  unfold restructureFulltext. destruct (has "$fulltext" d) eqn:E; [|exact E].
  rewrite has_delete. now rewrite String.eqb_refl.
Qed.

Section FulltextGuards.

Variable metadata_find : string -> option EntityMetadata.t.
Variable inlineEmbeddables : EntityMetadata.t -> Dictionary -> bool -> result Dictionary.
Variable acceptsPattern : value -> bool.

(** C5. Once the copy is made, [$fulltext] hoisted and replaced (lines
    228-260), the top level of the copy does not hold [$fulltext]; if the
    key occurs anywhere in a value of the copy, [renameFields] throws the
    error that says full text search is only supported on the top level,
    and returns no document. *)
Theorem fulltext_below_top_level_rejected (fuel : nat) (entityName : string) (data : value)
  (where_ : bool) (object : option bool) (copiedData : Dictionary) :
  renameFieldsHead metadata_find inlineEmbeddables entityName data where_ = Ok copiedData ->
  (exists k v, In (k, v) copiedData /\ KeyWithin "$fulltext" v) ->
  has "$fulltext" copiedData = false
  /\ renameFields metadata_find inlineEmbeddables acceptsPattern (S fuel) entityName data where_
                  object
     = Err (Error "Full text search is only supported on the top level of the query object.").
Proof.
  intros Hhead (k & v & Hin & Hwithin). split.
  - unfold renameFieldsHead in Hhead. bind_inv Hhead. bind_inv Hhead.
    injection Hhead as <-. apply restructureFulltext_removes.
  - cbn [renameFields]. rewrite Hhead. cbn [bind].
    assert (Hnested : hasNestedKey (VObj copiedData) "$fulltext" = true).
    { apply hasNestedKey_spec. now apply (KeyBelow _ copiedData k v). }
    now rewrite Hnested.
Qed.

Lemma hoistFulltextFrom_taken (items rest : list value) (d : Dictionary) :
  has "$fulltext" d = true ->
  Forall (fun v => isPrimitive v = false) items ->
  1 <= List.length (filter holdsFulltext items) ->
  hoistFulltextFrom (items ++ rest) d = Err CannotMerge.
Proof.
  intros Hd Hobjects. induction Hobjects as [|and items Hand _ IH]; cbn; [lia|].
  destruct and; try discriminate; cbn;
    try (intros Hlen; now rewrite IH).
  destruct (has "$fulltext" entries); cbn; [now rewrite Hd|].
  intros Hlen. now rewrite IH.
Qed.

Lemma hoistFulltextFrom_twice (items rest : list value) (d : Dictionary) :
  has "$fulltext" d = false ->
  Forall (fun v => isPrimitive v = false) items ->
  2 <= List.length (filter holdsFulltext items) ->
  hoistFulltextFrom (items ++ rest) d = Err CannotMerge.
Proof.
  intros Hd Hobjects. induction Hobjects as [|and items Hand Hitems IH]; cbn; [lia|].
  destruct and; try discriminate; cbn;
    try (intros Hlen; now rewrite IH).
  destruct (has "$fulltext" entries); cbn.
  - rewrite Hd. intros Hlen.
    rewrite hoistFulltextFrom_taken; [reflexivity | | exact Hitems | lia].
    rewrite has_set. now rewrite String.eqb_refl.
  - intros Hlen. now rewrite IH.
Qed.

(** C4, amended.  The hoisting looks for [$fulltext] at the top level of
    the copy and in the elements of an array under [$and], in order; an
    element that is not an object stops it with a [TypeError].  When the
    elements up to some point of the array hold no primitive and more
    than one [$fulltext] key is found across the top level and those
    elements, [renameFields] throws the error that says the conditions
    cannot be merged, and returns no document.  A key in a branch of
    [$or] is not looked for: it is left to the guard of line 264. *)
Theorem fulltext_conflict (fuel : nat) (entityName : string) (data : value)
  (where_ : bool) (object : option bool) (copiedData : Dictionary)
  (items rest : list value) :
  renameFieldsCopy metadata_find inlineEmbeddables entityName data where_ = Ok copiedData ->
  get "$and" copiedData = VArr (items ++ rest) ->
  Forall (fun v => isPrimitive v = false) items ->
  2 <= fulltextCount copiedData items ->
  renameFields metadata_find inlineEmbeddables acceptsPattern (S fuel) entityName data
               where_ object
  = Err (Error "Cannot merge multiple $fulltext conditions to top level of the query object.").
Proof.
  intros Hcopy Hand Hobjects Hcount.
  cbn [renameFields]. unfold renameFieldsHead. rewrite Hcopy. cbn [bind].
  unfold hoistFulltext. rewrite Hand. cbn [truthy].
  unfold fulltextCount in Hcount.
  destruct (has "$fulltext" copiedData) eqn:Etop.
  - rewrite hoistFulltextFrom_taken; [reflexivity | exact Etop | exact Hobjects | lia].
  - rewrite hoistFulltextFrom_twice; [reflexivity | exact Etop | exact Hobjects | lia].
Qed.

End FulltextGuards.

Lemma fulltext_below_top_level_rejected_witness :
  renameFieldsHead registry nothingToInline "Author"
    (VObj [("name", VStr "x"); ("$or", VArr [VObj [("$fulltext", VStr "b")]])]) true
  = Ok [("name", VStr "x"); ("$or", VArr [VObj [("$fulltext", VStr "b")]])]
  /\ renameFields registry nothingToInline noLeadingQuantifier 1 "Author"
       (VObj [("name", VStr "x"); ("$or", VArr [VObj [("$fulltext", VStr "b")]])]) true None
     = Err (Error "Full text search is only supported on the top level of the query object.").
Proof.
  split; [reflexivity|].
  refine (proj2 (fulltext_below_top_level_rejected registry nothingToInline noLeadingQuantifier 0
                                                   "Author"
                   (VObj [("name", VStr "x"); ("$or", VArr [VObj [("$fulltext", VStr "b")]])])
                   true None
                   [("name", VStr "x"); ("$or", VArr [VObj [("$fulltext", VStr "b")]])]
                   eq_refl _)).
  exists "$or", (VArr [VObj [("$fulltext", VStr "b")]]). split; [cbn; tauto|].
  apply (KeyInItem _ _ (VObj [("$fulltext", VStr "b")])); [cbn; tauto|].
  apply KeyHere. cbn. tauto.
Defined.

Lemma fulltext_conflict_witness :
  fulltextCount [("$fulltext", VStr "a"); ("$and", VArr [VObj [("$fulltext", VStr "b")]])]
                [VObj [("$fulltext", VStr "b")]] = 2
  /\ renameFields registry nothingToInline noLeadingQuantifier 1 "Author"
       (VObj [("$fulltext", VStr "a"); ("$and", VArr [VObj [("$fulltext", VStr "b")]])])
       true None
     = Err (Error "Cannot merge multiple $fulltext conditions to top level of the query object.")
  /\ renameFields registry nothingToInline noLeadingQuantifier 1 "Author"
       (VObj [("$and", VArr [VObj [("$fulltext", VStr "a")]; VArr [];
                             VObj [("$fulltext", VStr "b")]; VNum 1])])
       true None
     = Err (Error "Cannot merge multiple $fulltext conditions to top level of the query object.").
Proof.
  split; [reflexivity|]. split.
  - refine (fulltext_conflict registry nothingToInline noLeadingQuantifier 0 "Author"
              (VObj [("$fulltext", VStr "a"); ("$and", VArr [VObj [("$fulltext", VStr "b")]])])
              true None
              [("$fulltext", VStr "a"); ("$and", VArr [VObj [("$fulltext", VStr "b")]])]
              [VObj [("$fulltext", VStr "b")]] [] eq_refl eq_refl _ _).
    + repeat constructor.
    + cbn. apply le_n.
  - refine (fulltext_conflict registry nothingToInline noLeadingQuantifier 0 "Author"
              (VObj [("$and", VArr [VObj [("$fulltext", VStr "a")]; VArr [];
                                    VObj [("$fulltext", VStr "b")]; VNum 1])])
              true None
              [("$and", VArr [VObj [("$fulltext", VStr "a")]; VArr [];
                              VObj [("$fulltext", VStr "b")]; VNum 1])]
              [VObj [("$fulltext", VStr "a")]; VArr []; VObj [("$fulltext", VStr "b")]]
              [VNum 1] eq_refl eq_refl _ _).
    + repeat constructor.
    + cbn. apply le_n.
Defined.

(** The claim C4 fails for a key in a branch of [$or], and for [$and] given
    as a single document: the hoisting does not look there, and the call
    throws the error of line 265 instead of the one of line 247. *)
Lemma fulltext_in_or_is_not_merged :
  renameFields registry nothingToInline noLeadingQuantifier 2 "Author"
    (VObj [("$fulltext", VStr "a"); ("$or", VArr [VObj [("$fulltext", VStr "b")]])])
    true None
  = Err (Error "Full text search is only supported on the top level of the query object.")
  /\ renameFields registry nothingToInline noLeadingQuantifier 2 "Author"
       (VObj [("$or", VArr [VObj [("$fulltext", VStr "a")]; VObj [("$fulltext", VStr "b")]])])
       true None
     = Err (Error "Full text search is only supported on the top level of the query object.")
  /\ renameFields registry nothingToInline noLeadingQuantifier 2 "Author"
       (VObj [("$fulltext", VStr "a"); ("$and", VObj [("$fulltext", VStr "b")])])
       true None
     = Err (Error "Full text search is only supported on the top level of the query object.").
Proof. repeat split. Qed.

(** ** Documents that hold no [$fulltext] key *)

Lemma clean_has (d : Dictionary) (key : string) :
  hasNestedKey (VObj d) key = false -> has key d = false.
Proof.
  rewrite hasNestedKey_obj. induction d as [|[a u] t IH]; cbn; [reflexivity|].
  intros H. apply orb_false_elim in H as [H1 H2]. apply orb_false_elim in H1 as [H1 _].
  rewrite H1. now apply IH.
Qed.

Lemma clean_get (d : Dictionary) (key k : string) :
  hasNestedKey (VObj d) key = false -> hasNestedKey (get k d) key = false.
Proof.
  rewrite hasNestedKey_obj. induction d as [|[a u] t IH]; cbn; [reflexivity|].
  intros H. apply orb_false_elim in H as [H1 H2]. apply orb_false_elim in H1 as [_ H1].
  destruct (String.eqb a k); [exact H1 | now apply IH].
Qed.

Lemma clean_set (d : Dictionary) (key k : string) (v : value) :
  k <> key -> hasNestedKey (VObj d) key = false -> hasNestedKey v key = false ->
  hasNestedKey (VObj (set k v d)) key = false.
Proof.
  intros Hk Hd Hv. rewrite hasNestedKey_obj in *.
  induction d as [|[a u] t IH]; cbn in *.
  - rewrite Hv. destruct (String.eqb_spec k key); [contradiction | reflexivity].
  - apply orb_false_elim in Hd as [H1 H2]. apply orb_false_elim in H1 as [H0 H1].
    destruct (String.eqb a k); cbn; rewrite H0.
    + now rewrite Hv, H2.
    + rewrite H1. now apply IH.
Qed.

Lemma clean_renameKey (d : Dictionary) (key from to : string) :
  to <> key -> hasNestedKey (VObj d) key = false ->
  hasNestedKey (VObj (renameKey d from to)) key = false.
Proof.
  intros Hto Hd. unfold renameKey. destruct (has from d && negb (has to d)); [|exact Hd].
  rewrite hasNestedKey_obj in *. induction d as [|[a u] t IH]; cbn in *; [reflexivity|].
  apply orb_false_elim in Hd as [H1 H2]. apply orb_false_elim in H1 as [H0 H1].
  rewrite H1, (IH H2). destruct (String.eqb a from).
  - destruct (String.eqb_spec to key); [contradiction | reflexivity].
  - now rewrite H0.
Qed.

Lemma hasNestedKey_convertObjectIds (v : value) (key : string) :
  hasNestedKey (convertObjectIds v) key = hasNestedKey v key.
Proof.
  induction v using value_rect'; try reflexivity.
  - cbn. now destruct (matchesObjectId s).
  - cbn. induction H as [|x l Hx _ IH]; cbn; [reflexivity|]. now rewrite Hx, IH.
  - rewrite convertObjectIds_obj, !hasNestedKey_obj. unfold mapValues.
    induction H as [|[k x] l Hx _ IH]; cbn in *; [reflexivity|]. now rewrite Hx, IH.
Qed.

Lemma clean_regexShorthand (acceptsPattern : value -> bool) (d d' : Dictionary)
  (key k : string) :
  k <> key -> regexShorthand acceptsPattern d k = Ok d' ->
  hasNestedKey (VObj d) key = false ->
  hasNestedKey (VObj d') key = false.
Proof.
  intros Hk H Hd. apply regexShorthand_Ok in H as [->|(entries & Hget & _ & _ & ->)];
    [exact Hd|].
  now apply clean_set.
Qed.

Lemma hasNestedKey_arr_cons (x : value) (t : list value) (key : string) :
  hasNestedKey (VArr (x :: t)) key = hasNestedKey x key || hasNestedKey (VArr t) key.
Proof. reflexivity. Qed.

Section Clean.

Variable metadata_find : string -> option EntityMetadata.t.
Variable inlineEmbeddables : EntityMetadata.t -> Dictionary -> bool -> result Dictionary.
Variable acceptsPattern : value -> bool.
Hypothesis fields_ok : NoFulltextField metadata_find.

Section CleanCallback.

Variable recur : string -> value -> bool -> option bool -> result Dictionary.
Hypothesis recur_clean :
  forall e v w o d, recur e v w o = Ok d -> hasNestedKey (VObj d) "$fulltext" = false.

Lemma renameEach_clean (entityName : string) (items items' : list value) (where_ : bool)
  (object : option bool) :
  renameEach recur entityName items where_ object = Ok items' ->
  hasNestedKey (VArr items') "$fulltext" = false.
Proof.
  unfold renameEach. revert items'. induction items as [|x t IH]; cbn; intros items' H.
  - now injection H as <-.
  - bind_inv H. bind_inv H. injection H as <-. bind_inv Ha. injection Ha as <-.
    change (hasNestedKey (VArr (VObj a1 :: a0)) "$fulltext" = false).
    rewrite hasNestedKey_arr_cons, (recur_clean _ _ _ _ _ Ha1). cbn [orb].
    apply (IH a0 Ha0).
Qed.

Lemma clean_rewriteByKind (prop : EntityProperty.t) (where_ : bool) (object : option bool)
  (d d' : Dictionary) (b : bool) :
  EntityProperty.name prop <> "$fulltext" ->
  rewriteByKind metadata_find recur prop where_ object d = Ok (Some (b, d')) ->
  hasNestedKey (VObj d) "$fulltext" = false -> hasNestedKey (VObj d') "$fulltext" = false.
Proof.
  intros Hname H Hd. unfold rewriteByKind in H.
  destruct (EntityProperty.kind prop).
  1: { injection H as _ <-. exact Hd. }
  5: { destruct (isNullish (get (EntityProperty.name prop) d)); [discriminate|].
       destruct (get (EntityProperty.name prop) d);
         try (bind_inv H; injection H as _ <-; apply clean_set;
              [exact Hname | exact Hd | eapply recur_clean; eauto]).
       destruct (EntityProperty.array prop); bind_inv H; injection H as _ <-;
         (apply clean_set; [exact Hname | exact Hd |]).
       - eapply renameEach_clean; eauto.
       - eapply recur_clean; eauto. }
  all: destruct (metadata_find (EntityProperty.type prop)) as [meta2|]; [|discriminate];
    destruct (EntityMetadata.properties meta2 (item0 (EntityMetadata.primaryKeys meta2)));
    [|discriminate]; injection H as _ <-; exact Hd.
Qed.

Lemma clean_renameFieldsKey (entityName : string) (where_ : bool) (object : option bool)
  (d d' : Dictionary) (k : string) :
  k <> "$fulltext" ->
  renameFieldsKey metadata_find acceptsPattern recur (metadata_find entityName) entityName where_
                  object d k
  = Ok d' ->
  hasNestedKey (VObj d) "$fulltext" = false -> hasNestedKey (VObj d') "$fulltext" = false.
Proof.
  intros Hk H Hd. unfold renameFieldsKey in H.
  destruct (isGroupOperator k).
  - destruct (get k d);
      try (bind_inv H; injection H as <-; apply clean_set;
           [exact Hk | exact Hd | eapply recur_clean; eauto]).
    bind_inv H. injection H as <-. apply clean_set; [exact Hk | exact Hd|].
    eapply renameEach_clean; eauto.
  - destruct (metadata_find entityName) as [m|] eqn:Em.
    2: { now apply (clean_regexShorthand acceptsPattern d d' "$fulltext" k). }
    destruct (EntityMetadata.properties m k) as [prop|] eqn:Eprop.
    2: { now apply (clean_regexShorthand acceptsPattern d d' "$fulltext" k). }
    destruct (properties_name _ _ _ Eprop) as [Hname Hin].
    bind_inv H. destruct a as [[b d1]|]; [|injection H as <-; exact Hd].
    apply (clean_regexShorthand acceptsPattern _ d' "$fulltext" k Hk H).
    assert (H1 : hasNestedKey (VObj d1) "$fulltext" = false).
    { eapply clean_rewriteByKind; eauto. now rewrite Hname. }
    assert (H2 : hasNestedKey
                   (VObj (if b then set k (convertObjectIds (get k d1)) d1 else d1))
                   "$fulltext" = false).
    { destruct b; [|exact H1]. apply clean_set; [exact Hk | exact H1|].
      rewrite hasNestedKey_convertObjectIds. now apply clean_get. }
    destruct (EntityProperty.fieldNames prop) as [names|] eqn:En; [|exact H2].
    apply clean_renameKey; [|exact H2]. exact (fields_ok entityName m prop names Em Hin En).
Qed.

End CleanCallback.

(** No document that [renameFields] returns holds a [$fulltext] key, at
    any depth. *)
Lemma renameFields_clean (fuel : nat) :
  forall entityName data where_ object out,
    renameFields metadata_find inlineEmbeddables acceptsPattern fuel entityName data where_ object
        = Ok out ->
    hasNestedKey (VObj out) "$fulltext" = false.
Proof.
  induction fuel as [|fuel IH]; intros entityName data where_ object out H; [discriminate|].
  cbn [renameFields] in H. bind_inv H.
  destruct (hasNestedKey (VObj a) "$fulltext") eqn:Eg; [discriminate|].
  assert (Hkeys : forall k, In k (keys a) -> k <> "$fulltext").
  { intros k Hin ->. apply has_In in Hin. rewrite (clean_has _ _ Eg) in Hin. discriminate. }
  refine (forEachKey_invariant (fun d => hasNestedKey (VObj d) "$fulltext" = false)
            _ _ _ _ _ Eg H).
  intros k s s' Hin Hs Hstep.
  eapply (clean_renameFieldsKey (renameFields metadata_find inlineEmbeddables acceptsPattern
      fuel)); eauto.
Qed.

End Clean.

(** ** The single [$fulltext] key moves to [$text] *)

Lemma hoistFulltextFrom_none (items : list value) (d : Dictionary) :
  Forall (fun v => isPlainObject v = true) items ->
  List.length (filter holdsFulltext items) = 0 ->
  hoistFulltextFrom items d = Ok (items, d) /\ map withoutFulltext items = items.
Proof.
  intros Hplain. induction Hplain as [|and rest Hand _ IH]; cbn; [now split|].
  destruct and; try discriminate. cbn.
  destruct (has "$fulltext" entries) eqn:E; cbn; [discriminate|].
  intros Hlen. destruct (IH Hlen) as [-> ->]. cbn. now rewrite delete_absent.
Qed.

Lemma hoistFulltextFrom_one (items : list value) (d : Dictionary) :
  has "$fulltext" d = false ->
  Forall (fun v => isPlainObject v = true) items ->
  List.length (filter holdsFulltext items) = 1 ->
  hoistFulltextFrom items d
  = Ok (map withoutFulltext items, set "$fulltext" (fulltextTerm d items) d).
Proof.
  intros Hd Hplain. unfold fulltextTerm. rewrite Hd.
  induction Hplain as [|and rest Hand Hrest IH]; cbn; [discriminate|].
  destruct and; try discriminate. cbn.
  destruct (has "$fulltext" entries) eqn:E; cbn.
  - rewrite Hd. intros Hlen. injection Hlen as Hlen.
    destruct (hoistFulltextFrom_none rest (set "$fulltext" (get "$fulltext" entries) d)
                Hrest Hlen) as [-> ->].
    reflexivity.
  - intros Hlen. rewrite (IH Hlen). cbn. now rewrite delete_absent.
Qed.

Lemma renameEach_Forall2
  (recur : string -> value -> bool -> option bool -> result Dictionary)
  (f : value -> value) (entityName : string) (items items' : list value)
  (where_ : bool) (object : option bool) :
  renameEach recur entityName (map f items) where_ object = Ok items' ->
  Forall2 (fun x y => exists d, recur entityName (f x) where_ object = Ok d /\ y = VObj d)
          items items'.
Proof.
  unfold renameEach. intros H. apply mapM_Forall2 in H.
  remember (map f items) as l eqn:El. revert items El.
  induction H as [|x y l l' Hxy _ IH]; intros items El.
  - destruct items; [constructor | discriminate].
  - destruct items as [|i items]; [discriminate|]. injection El as -> ->.
    constructor; [|now apply IH].
    bind_inv Hxy. injection Hxy as <-. now exists a.
Qed.

Section FulltextMerge.

Variable metadata_find : string -> option EntityMetadata.t.
Variable inlineEmbeddables : EntityMetadata.t -> Dictionary -> bool -> result Dictionary.
Variable acceptsPattern : value -> bool.

(** Lines 241-260 on a copy with a single [$fulltext] key. *)
Lemma renameFieldsHead_one (entityName : string) (data : value) (where_ : bool)
  (copiedData : Dictionary) (items : list value) :
  renameFieldsCopy metadata_find inlineEmbeddables entityName data where_ = Ok copiedData ->
  get "$and" copiedData = VArr items ->
  Forall (fun v => isPlainObject v = true) items ->
  fulltextCount copiedData items = 1 ->
  renameFieldsHead metadata_find inlineEmbeddables entityName data where_
  = Ok (fulltextHoisted copiedData items).
Proof.
  intros Hcopy Hand Hplain Hcount. unfold renameFieldsHead. rewrite Hcopy. cbn [bind].
  unfold hoistFulltext. rewrite Hand. cbn [truthy]. unfold fulltextCount in Hcount.
  unfold fulltextHoisted.
  assert (Hne1 : "$fulltext" <> "$text") by discriminate.
  assert (Hne2 : "$fulltext" <> "$and") by discriminate.
  destruct (has "$fulltext" copiedData) eqn:Etop.
  - destruct (hoistFulltextFrom_none items copiedData Hplain) as [-> Hsame]; [lia|].
    cbn [bind fst snd]. f_equal. unfold restructureFulltext.
    rewrite has_set, Etop, orb_true_r.
    rewrite get_set_other by exact Hne2.
    rewrite !delete_set_comm by assumption.
    unfold fulltextTerm. now rewrite Etop, Hsame.
  - rewrite (hoistFulltextFrom_one items copiedData Etop Hplain) by lia.
    cbn [bind fst snd]. f_equal. unfold restructureFulltext.
    rewrite !has_set, String.eqb_refl, orb_true_r.
    rewrite get_set_other by exact Hne2. rewrite get_set_same.
    rewrite !delete_set_comm by assumption. now rewrite delete_set_same.
Qed.

(** C1, amended.  The copy holds an array of sub-documents under [$and]
    and a single [$fulltext] key, at its top level or in one of those
    sub-documents, and no other [$fulltext] key at any depth.  Then the key
    is removed where it stood and [$text: {$search: term}] is set (lines
    241-260) without an error; and every document the rewriting returns
    has that [$text] at its top level, holds no [$fulltext] key at any
    depth, and has under [$and] one rewritten sub-document for each
    sub-document of the input, in order: the sub-document the key was
    taken from stays in the array, rewritten without the key.  When the
    copy holds nothing besides [$and] and the key, and the rewriting of
    the sub-documents returns, the rewriting returns [$and] with those
    results followed by [$text]. *)
Theorem fulltext_hoisted_to_text (fuel : nat) (entityName : string) (data : value)
  (where_ : bool) (object : option bool) (copiedData : Dictionary) (items : list value) :
  NoFulltextField metadata_find ->
  (forall m, metadata_find entityName = Some m -> EntityMetadata.properties m "$text" = None) ->
  renameFieldsCopy metadata_find inlineEmbeddables entityName data where_ = Ok copiedData ->
  NoDup (keys copiedData) ->
  get "$and" copiedData = VArr items ->
  Forall (fun v => isPlainObject v = true) items ->
  fulltextCount copiedData items = 1 ->
  hasNestedKey (fulltextTerm copiedData items) "$fulltext" = false ->
  hasNestedKey (VObj (set "$and" (VArr (map withoutFulltext items))
                          (delete "$fulltext" copiedData))) "$fulltext" = false ->
  renameFieldsHead metadata_find inlineEmbeddables entityName data where_
  = Ok (fulltextHoisted copiedData items)
  /\ hasNestedKey (VObj (fulltextHoisted copiedData items)) "$fulltext" = false
  /\ (forall out,
       renameFields metadata_find inlineEmbeddables acceptsPattern (S fuel) entityName data where_
                    object
       = Ok out ->
       get "$text" out = VObj [("$search", fulltextTerm copiedData items)]
       /\ hasNestedKey (VObj out) "$fulltext" = false
       /\ exists items',
            get "$and" out = VArr items'
            /\ Forall2 (fun sub sub' =>
                          exists d,
                            renameFields metadata_find inlineEmbeddables acceptsPattern fuel
                                         entityName
                                         (withoutFulltext sub) false None = Ok d
                            /\ sub' = VObj d)
                       items items')
  /\ (forall items',
        delete "$fulltext" copiedData = [("$and", VArr items)] ->
        renameEach (renameFields metadata_find inlineEmbeddables acceptsPattern fuel) entityName
                   (map withoutFulltext items) false None = Ok items' ->
        renameFields metadata_find inlineEmbeddables acceptsPattern (S fuel) entityName data where_
                     object
        = Ok [("$and", VArr items');
              ("$text", VObj [("$search", fulltextTerm copiedData items)])]).
Proof.
  intros Hfields Htext Hcopy Hnodup Hand Hplain Hcount Hterm Hrest.
  pose proof (renameFieldsHead_one entityName data where_ copiedData items
                Hcopy Hand Hplain Hcount) as Hhead.
  assert (Hclean : hasNestedKey (VObj (fulltextHoisted copiedData items)) "$fulltext" = false).
  { unfold fulltextHoisted. apply clean_set; [discriminate | exact Hrest|].
    cbn. now rewrite Hterm. }
  assert (Enone : match metadata_find entityName with
                  | Some m => EntityMetadata.properties m "$text"
                  | None => None
                  end = None).
  { destruct (metadata_find entityName) as [m|] eqn:Em; [now apply Htext | reflexivity]. }
  split; [exact Hhead|]. split; [exact Hclean|]. split.
  2: { intros items' Honly Hrec. cbn [renameFields]. rewrite Hhead. cbn [bind].
       rewrite Hclean. unfold fulltextHoisted. rewrite Honly.
       cbn [set String.eqb Ascii.eqb Bool.eqb keys map fst forEachKey].
       unfold renameFieldsKey at 1.
       cbn [isGroupOperator String.eqb Ascii.eqb Bool.eqb orb get]. rewrite Hrec.
       cbn [bind set String.eqb Ascii.eqb Bool.eqb].
       unfold renameFieldsKey.
       cbn [isGroupOperator String.eqb Ascii.eqb Bool.eqb orb]. rewrite Enone.
       reflexivity. }
  intros out H. split; [|split].
  - (* $text *)
    cbn [renameFields] in H. rewrite Hhead in H. cbn [bind] in H. rewrite Hclean in H.
    set (T := VObj [("$search", fulltextTerm copiedData items)]).
    assert (K0 : Kept "$text" T (fulltextHoisted copiedData items)).
    { unfold fulltextHoisted. split; [|apply get_set_same].
      rewrite has_set. now rewrite String.eqb_refl. }
    refine (proj2 (forEachKey_invariant (Kept "$text" T) _ _ _ _ _ K0 H)).
    intros k s s' _ Hs Hstep.
    destruct (String.eqb_spec "$text" k) as [<-|Hne].
    + unfold renameFieldsKey in Hstep. cbn [isGroupOperator String.eqb Ascii.eqb Bool.eqb orb]
        in Hstep.
      rewrite Enone in Hstep. unfold regexShorthand in Hstep.
      destruct Hs as [Hh Hg]. rewrite Hg in Hstep. cbn in Hstep.
      injection Hstep as <-. now split.
    + eapply Kept_renameFieldsKey; eauto.
  - (* no $fulltext *)
    eapply renameFields_clean; eauto.
  - (* $and *)
    cbn [renameFields] in H. rewrite Hhead in H. cbn [bind] in H. rewrite Hclean in H.
    set (S0 := VArr (map withoutFulltext items)).
    assert (K0 : Kept "$and" S0 (fulltextHoisted copiedData items)).
    { unfold fulltextHoisted. apply Kept_set; [discriminate|]. split; [|apply get_set_same].
      rewrite has_set. now rewrite String.eqb_refl. }
    assert (Hnd : NoDup (keys (fulltextHoisted copiedData items))).
    { unfold fulltextHoisted. now repeat apply NoDup_keys_set; apply NoDup_keys_delete. }
    assert (Hin : In "$and" (keys (fulltextHoisted copiedData items))).
    { apply has_In. exact (proj1 K0). }
    apply in_split in Hin as (before & after & Hkeys). rewrite Hkeys in H, Hnd.
    apply NoDup_remove_2 in Hnd.
    assert (Hb : ~ In "$and" before) by (intros Hi; apply Hnd, in_or_app; now left).
    assert (Ha : ~ In "$and" after) by (intros Hi; apply Hnd, in_or_app; now right).
    rewrite forEachKey_app in H. bind_inv H. cbn [forEachKey] in H. bind_inv H.
    assert (K1 : Kept "$and" S0 a).
    { refine (forEachKey_invariant (Kept "$and" S0) _ _ _ _ _ K0 Ha0).
      intros k s s' Hk Hs Hstep. eapply Kept_renameFieldsKey; eauto.
      intros <-. contradiction. }
    unfold renameFieldsKey in Ha1.
    cbn [isGroupOperator String.eqb Ascii.eqb Bool.eqb orb] in Ha1.
    destruct K1 as [Hh1 Hg1]. rewrite Hg1 in Ha1. unfold S0 in Ha1.
    bind_inv Ha1. injection Ha1 as <-.
    exists a1. split; [|now apply renameEach_Forall2].
    assert (K2 : Kept "$and" (VArr a1) (set "$and" (VArr a1) a)).
    { split; [|apply get_set_same]. rewrite has_set. now rewrite String.eqb_refl. }
    refine (proj2 (forEachKey_invariant (Kept "$and" (VArr a1)) _ _ _ _ _ K2 H)).
    intros k s s' Hk Hs Hstep. eapply Kept_renameFieldsKey; eauto.
    intros <-. contradiction.
Qed.

End FulltextMerge.

Lemma registry_NoFulltextField : NoFulltextField registry.
Proof.
  intros entityName m prop names Hm Hin Hnames. unfold registry in Hm.
  repeat match type of Hm with
         | (if ?c then _ else _) = _ => destruct c
         end;
    try discriminate; injection Hm as <-; cbn in Hin;
    repeat (destruct Hin as [<-|Hin]; [injection Hnames as <-; discriminate|]);
    contradiction.
Qed.

Lemma registry_no_text_property (entityName : string) (m : EntityMetadata.t) :
  registry entityName = Some m -> EntityMetadata.properties m "$text" = None.
Proof.
  unfold registry.
  repeat match goal with
         | |- (if ?c then _ else _) = _ -> _ => destruct c
         end;
    intros H; try discriminate; now injection H as <-.
Qed.

Lemma fulltext_hoisted_to_text_witness :
  fulltextCount [("$and", VArr [VObj [("age", VObj [("$gt", VNum 1)])];
                                VObj [("$fulltext", VStr "x")]])]
                [VObj [("age", VObj [("$gt", VNum 1)])]; VObj [("$fulltext", VStr "x")]] = 1
  /\ renameFields registry nothingToInline noLeadingQuantifier 2 "Author"
       (VObj [("$and", VArr [VObj [("age", VObj [("$gt", VNum 1)])];
                             VObj [("$fulltext", VStr "x")]])]) true None
     = Ok [("$and", VArr [VObj [("age", VObj [("$gt", VNum 1)])]; VObj []]);
           ("$text", VObj [("$search", VStr "x")])].
Proof.
  split; [reflexivity|].
  assert (Hnodup : NoDup (keys [("$and", VArr [VObj [("age", VObj [("$gt", VNum 1)])];
                                               VObj [("$fulltext", VStr "x")]])])).
  { repeat constructor. cbn. tauto. }
  assert (Hplain : Forall (fun v => isPlainObject v = true)
                     [VObj [("age", VObj [("$gt", VNum 1)])]; VObj [("$fulltext", VStr "x")]]).
  { repeat constructor. }
  pose proof (fulltext_hoisted_to_text registry nothingToInline noLeadingQuantifier 1 "Author"
                (VObj [("$and", VArr [VObj [("age", VObj [("$gt", VNum 1)])];
                                      VObj [("$fulltext", VStr "x")]])])
                true None
                [("$and", VArr [VObj [("age", VObj [("$gt", VNum 1)])];
                                VObj [("$fulltext", VStr "x")]])]
                [VObj [("age", VObj [("$gt", VNum 1)])]; VObj [("$fulltext", VStr "x")]]
                registry_NoFulltextField (registry_no_text_property "Author")
                eq_refl Hnodup eq_refl Hplain eq_refl eq_refl eq_refl) as (_ & _ & _ & H).
  exact (H [VObj [("age", VObj [("$gt", VNum 1)])]; VObj []] eq_refl eq_refl).
Defined.

(** The claim C1 fails on its own example: the sub-document that held
    [$fulltext] stays in [$and], empty, so [$and] is not
    [[{age: {$gt: 1}}]].  The entity is unregistered in the first run and
    [Author] in the second. *)
Lemma fulltext_merge_keeps_emptied_branch :
  renameFields registry nothingToInline noLeadingQuantifier 2 "Unregistered"
    (VObj [("$and", VArr [VObj [("age", VObj [("$gt", VNum 1)])];
                          VObj [("$fulltext", VStr "x")]])]) true None
  = Ok [("$and", VArr [VObj [("age", VObj [("$gt", VNum 1)])]; VObj []]);
        ("$text", VObj [("$search", VStr "x")])]
  /\ renameFields registry nothingToInline noLeadingQuantifier 2 "Author"
       (VObj [("$and", VArr [VObj [("age", VObj [("$gt", VNum 1)])];
                             VObj [("$fulltext", VStr "x")]])]) true None
     = Ok [("$and", VArr [VObj [("age", VObj [("$gt", VNum 1)])]; VObj []]);
           ("$text", VObj [("$search", VStr "x")])]
  /\ VArr [VObj [("age", VObj [("$gt", VNum 1)])]; VObj []]
     <> VArr [VObj [("age", VObj [("$gt", VNum 1)])]].
Proof. repeat split. discriminate. Qed.

(** ** Cursor pagination *)

Section CursorPagination.

Variable metadata_find : string -> option EntityMetadata.t.
Variable inlineEmbeddables : EntityMetadata.t -> Dictionary -> bool -> result Dictionary.
Variable acceptsPattern : value -> bool.
Variable shouldHaveColumn : EntityProperty.t -> list PopulateOptions.t -> bool.
Variable processCursorOptions :
  option EntityMetadata.t -> FindOptions.t -> value -> result (FindOptions.t * value * value).
Variable connection_find :
  string -> Dictionary -> list Dictionary -> option Z -> option Z ->
  option (list EntityField) -> result (list value).
Variable mapResult : value -> option EntityMetadata.t -> value.
Variable findVirtual : string -> value -> FindOptions.t -> result (list value).

(** C9, amended.  A cursor-paginated [find] on an entity that is not
    virtual, whose filter, cursor condition and ordering are rewritten
    without an error and whose store answers with [rows]: the rows are
    returned reversed exactly when [last] is truthy (given and not 0) and
    [first] is falsy (not given, or 0), and in the order fetched
    otherwise.  In particular they are reversed when [first] is not given
    and [last] is given and not 0, and not reversed when [last] is not
    given or [first] is given and not 0. *)
Theorem cursor_rows_reversed (fuel : nat) (entityName : string) (where_ : value)
  (options options' : FindOptions.t) (fields : option (list EntityField))
  (w1 w2 : Dictionary) (newOrderBy newWhere : value) (orderBy : list Dictionary)
  (rows : list value) :
  isVirtual metadata_find entityName = false ->
  isGiven (FindOptions.first options) || isGiven (FindOptions.last options)
  || isGiven (FindOptions.before options) || isGiven (FindOptions.after options) = true ->
  buildFields metadata_find shouldHaveColumn entityName (populateOf options)
              (FindOptions.fields options) = Ok fields ->
  renameFields metadata_find inlineEmbeddables acceptsPattern fuel entityName where_ true None = Ok
               w1 ->
  processCursorOptions (metadata_find entityName) options (FindOptions.orderBy options)
  = Ok (options', newOrderBy, newWhere) ->
  renameFields metadata_find inlineEmbeddables acceptsPattern fuel entityName newWhere true None =
               Ok w2 ->
  mapM (fun order => renameFields metadata_find inlineEmbeddables acceptsPattern fuel entityName
                                  order
                                  false None) (asArray newOrderBy) = Ok orderBy ->
  connection_find entityName (andWhere w1 w2) orderBy (FindOptions.limit options')
                  (FindOptions.offset options') fields = Ok rows ->
  let returned (rs : list value) := Ok (map (fun r => mapResult r (metadata_find entityName)) rs) in
  let found := find metadata_find inlineEmbeddables acceptsPattern shouldHaveColumn
                    processCursorOptions
                    connection_find mapResult findVirtual fuel entityName where_ options in
  found = returned (if negb (truthyNumber (FindOptions.first options))
                       && truthyNumber (FindOptions.last options)
                    then rev rows else rows)
  /\ (forall n, FindOptions.first options = None -> FindOptions.last options = Some n ->
                n <> 0%Z -> found = returned (rev rows))
  /\ (FindOptions.last options = None -> found = returned rows)
  /\ (forall n, FindOptions.first options = Some n -> n <> 0%Z -> found = returned rows).
Proof.
  intros Hvirtual Hcursor Hfields Hw1 Hcur Hw2 Horder Hrows returned found.
  assert (E : found = returned (if negb (truthyNumber (FindOptions.first options))
                                   && truthyNumber (FindOptions.last options)
                                then rev rows else rows)).
  { unfold found, find. rewrite Hvirtual, Hfields. cbn [bind]. rewrite Hw1. cbn [bind].
    rewrite Hcursor, Hcur. cbn [bind]. rewrite Hw2. cbn [bind]. rewrite Horder. cbn [bind].
    rewrite Hrows. cbn [bind andb]. reflexivity. }
  split; [exact E|]. repeat split.
  - intros n Hf Hl Hn. rewrite E, Hf, Hl. cbn.
    destruct (Z.eqb_spec n 0); [contradiction | reflexivity].
  - intros Hl. rewrite E, Hl. cbn. now rewrite andb_false_r.
  - intros n Hf Hn. rewrite E, Hf. cbn.
    destruct (Z.eqb_spec n 0); [contradiction | reflexivity].
Qed.

End CursorPagination.

Lemma cursor_rows_reversed_witness :
  find registry nothingToInline noLeadingQuantifier everyColumn keepCursorOptions descendingStore
       rowAsIs noVirtual
       3 "Author" (VObj []) (pageOptions None (Some 2%Z))
  = Ok [rowB; rowC].
Proof.
  refine (proj1 (proj2 (cursor_rows_reversed registry nothingToInline noLeadingQuantifier
                                             everyColumn
                          keepCursorOptions descendingStore rowAsIs noVirtual
                          3 "Author" (VObj []) (pageOptions None (Some 2%Z))
                          (pageOptions None (Some 2%Z)) None [] []
                          (VObj [("_id", VNum 1)]) (VObj []) [[("_id", VNum 1)]]
                          [rowC; rowB] _ _ _ _ _ _ _ _)) 2%Z _ _ _);
    try reflexivity; discriminate.
Defined.

(** The claim C9 fails where [first] or [last] is 0.  With [first] given
    as 0 and [last] as 2, the rows [C], [B] of the store are returned
    reversed although [first] is set; with [last] given as 0 and [first]
    not given, they are returned as fetched although [last] is set and
    [first] is not. *)
Lemma cursor_rows_zero_counts_as_unset :
  find registry nothingToInline noLeadingQuantifier everyColumn keepCursorOptions descendingStore
       rowAsIs noVirtual
       3 "Author" (VObj []) (pageOptions (Some 0%Z) (Some 2%Z))
  = Ok [rowB; rowC]
  /\ find registry nothingToInline noLeadingQuantifier everyColumn keepCursorOptions
      descendingStore rowAsIs
          noVirtual 3 "Author" (VObj []) (pageOptions None (Some 0%Z))
     = Ok [rowC; rowB]
  /\ descendingStore "Author" [] [[("_id", VNum 1)]] None None None = Ok [rowC; rowB].
Proof. repeat split. Qed.

(** ** The filter of a bare primary key *)

Section PrimaryKeyFilter.

Variable metadata_find : string -> option EntityMetadata.t.
Variable inlineEmbeddables : EntityMetadata.t -> Dictionary -> bool -> result Dictionary.
Variable acceptsPattern : value -> bool.
Variable shouldHaveColumn : EntityProperty.t -> list PopulateOptions.t -> bool.
Variable connection_find :
  string -> Dictionary -> list Dictionary -> option Z -> option Z ->
  option (list EntityField) -> result (list value).
Variable connection_updateMany :
  string -> Dictionary -> Dictionary -> UpsertOptions.t -> result value.
Variable connection_deleteMany : string -> Dictionary -> result value.
Variable mapResult : value -> option EntityMetadata.t -> value.
Variable findVirtual : string -> value -> FindOptions.t -> result (list value).

Lemma buildFilterById_string (entityName : string) (m : EntityMetadata.t)
  (pk : EntityProperty.t) (id : string) :
  metadata_find entityName = Some m ->
  EntityMetadata.properties m (item0 (EntityMetadata.primaryKeys m)) = Some pk ->
  (toLowerCase (EntityProperty.type pk) = "objectid" -> matchesObjectId id = true) ->
  buildFilterById metadata_find entityName (VStr id) = Ok [("_id", identifierOf pk id)].
Proof.
  intros Hm Hpk Hid. unfold buildFilterById, identifierOf. rewrite Hm, Hpk.
  destruct (String.eqb_spec (toLowerCase (EntityProperty.type pk)) "objectid") as [E|E];
    [|reflexivity].
  cbn. now rewrite (Hid E).
Qed.

(** The filter [{_id: x}] of a primary key goes through [renameFields]:
    it comes back under the field name of the primary key. *)
Lemma renameFields_id_filter (fuel : nat) (entityName : string) (m : EntityMetadata.t)
  (pk : EntityProperty.t) (names : list string) (id : string) :
  metadata_find entityName = Some m ->
  EntityMetadata.properties m (item0 (EntityMetadata.primaryKeys m)) = Some pk ->
  EntityProperty.fieldNames pk = Some names ->
  (item0 (EntityMetadata.primaryKeys m) = "_id" /\ EntityProperty.kind pk = SCALAR)
  \/ (EntityMetadata.properties m "_id" = None /\ item0 names = "_id") ->
  renameFieldsCopy metadata_find inlineEmbeddables entityName
                   (VObj [("_id", identifierOf pk id)]) true
  = Ok [("_id", identifierOf pk id)] ->
  renameFields metadata_find inlineEmbeddables acceptsPattern (S fuel) entityName
               (VObj [("_id", identifierOf pk id)]) true None
  = Ok [(item0 names, identifierOf pk id)].
Proof.
  intros Hm Hpk Hnames Hkey Hcopy.
  assert (Hscalar : exists b s, identifierOf pk id = (if b : bool then VObjectId s else VStr s)
                                /\ (String.eqb (toLowerCase (EntityProperty.type pk)) "objectid"
                                    = true -> b = true)).
  { unfold identifierOf.
    destruct (String.eqb (toLowerCase (EntityProperty.type pk)) "objectid");
      [exists true, id | exists false, id]; split; auto; discriminate. }
  destruct Hscalar as (b & s & Hnid & Hoid). revert Hcopy. rewrite Hnid. intros Hcopy.
  cbn [renameFields]. unfold renameFieldsHead. rewrite Hcopy. cbn [bind].
  assert (Eg : hasNestedKey (VObj [("_id", if b then VObjectId s else VStr s)]) "$fulltext"
               = false) by now destruct b.
  change (hoistFulltext [("_id", if b then VObjectId s else VStr s)])
    with (Ok [("_id", if b then VObjectId s else VStr s)] : result Dictionary).
  cbn [bind].
  change (restructureFulltext [("_id", if b then VObjectId s else VStr s)])
    with [("_id", if b then VObjectId s else VStr s)].
  rewrite Eg, Hm. cbn [keys map fst forEachKey]. unfold renameFieldsKey.
  change (isGroupOperator "_id") with false. cbv iota.
  assert (Ere : forall p,
    regexShorthand acceptsPattern [(p, if b then VObjectId s else VStr s)] "_id"
    = Ok [(p, if b then VObjectId s else VStr s)]).
  { intros p0. rewrite regexShorthand_single.
    destruct (String.eqb p0 "_id"); [|reflexivity]. now destruct b. }
  destruct Hkey as [[Hpkname Hkind]|[Hnone Hfield]].
  - rewrite Hpkname in Hpk. rewrite Hpk. unfold rewriteByKind. rewrite Hkind. cbn [bind].
    rewrite Hnames.
    assert (E1 : (if String.eqb (toLowerCase (EntityProperty.type pk)) "objectid"
                  then set "_id"
                         (convertObjectIds
                            (get "_id" [("_id", if b then VObjectId s else VStr s)]))
                         [("_id", if b then VObjectId s else VStr s)]
                  else [("_id", if b then VObjectId s else VStr s)])
                 = [("_id", if b then VObjectId s else VStr s)]).
    { destruct (String.eqb (toLowerCase (EntityProperty.type pk)) "objectid");
        [|reflexivity].
      now rewrite (Hoid eq_refl). }
    rewrite E1, keys_renameKey_single. now rewrite Ere.
  - rewrite Hnone, Hfield. cbn [bind]. now rewrite Ere.
Qed.

(** C8, amended.  An entity that is not virtual, in which either the
    primary key is the property [_id] and is scalar, or no property is
    named [_id] and the primary key has the first field name [_id]; the
    primary-key alias and the inlining leave the filter [{_id: x}] as it
    is; [id] is a string, and spells an identifier when the primary key's
    type is "objectid".  [buildFilterById] maps [_id] to the identifier
    built from the string, native exactly when the type is "objectid";
    and [findOne], [nativeUpdate] and [nativeDelete], given the string as
    their filter, hand the store the single-entry document that maps the
    first field name of the primary key to that identifier. *)
Theorem primary_key_shorthand_filter (fuel : nat) (entityName : string)
  (m : EntityMetadata.t) (pk : EntityProperty.t) (names : list string) (id : string)
  (options : FindOptions.t) (data : value) (upsertOptions : UpsertOptions.t) :
  metadata_find entityName = Some m ->
  EntityMetadata.virtual m = false ->
  EntityMetadata.properties m (item0 (EntityMetadata.primaryKeys m)) = Some pk ->
  EntityProperty.fieldNames pk = Some names ->
  (item0 (EntityMetadata.primaryKeys m) = "_id" /\ EntityProperty.kind pk = SCALAR)
  \/ (EntityMetadata.properties m "_id" = None /\ item0 names = "_id") ->
  (toLowerCase (EntityProperty.type pk) = "objectid" -> matchesObjectId id = true) ->
  renameFieldsCopy metadata_find inlineEmbeddables entityName
                   (VObj [("_id", identifierOf pk id)]) true
  = Ok [("_id", identifierOf pk id)] ->
  buildFilterById metadata_find entityName (VStr id) = Ok [("_id", identifierOf pk id)]
  /\ findOne metadata_find inlineEmbeddables acceptsPattern shouldHaveColumn connection_find
             mapResult findVirtual (S fuel) entityName (VStr id) options
     = (fields <- buildFields metadata_find shouldHaveColumn entityName (populateOf options)
                    (FindOptions.fields options) ;;
        orderBy <- mapM (fun orderBy =>
                           renameFields metadata_find inlineEmbeddables acceptsPattern
                                        (S fuel) entityName orderBy false None)
                        (asArray (FindOptions.orderBy options)) ;;
        res <- connection_find entityName [(item0 names, identifierOf pk id)] orderBy
                 (Some 1%Z) None fields ;;
        Ok (mapResult (hd VUndefined res) (metadata_find entityName)))
  /\ nativeUpdate metadata_find inlineEmbeddables acceptsPattern connection_updateMany
                  (S fuel) entityName (VStr id) data upsertOptions
     = (data' <- renameFields metadata_find inlineEmbeddables acceptsPattern (S fuel)
                   entityName data false None ;;
        fields <- renameFieldList metadata_find entityName
                    (UpsertOptions.onConflictFields upsertOptions) ;;
        mergeFields <- renameFieldList metadata_find entityName
                         (UpsertOptions.onConflictMergeFields upsertOptions) ;;
        excludeFields <- renameFieldList metadata_find entityName
                           (UpsertOptions.onConflictExcludeFields upsertOptions) ;;
        connection_updateMany entityName [(item0 names, identifierOf pk id)] data'
          {| UpsertOptions.upsert := UpsertOptions.upsert upsertOptions;
             UpsertOptions.onConflictFields := fields;
             UpsertOptions.onConflictMergeFields := mergeFields;
             UpsertOptions.onConflictExcludeFields := excludeFields |})
  /\ nativeDelete metadata_find inlineEmbeddables acceptsPattern connection_deleteMany
                  (S fuel) entityName (VStr id)
     = connection_deleteMany entityName [(item0 names, identifierOf pk id)].
Proof.
  intros Hm Hvirtual Hpk Hnames Hkey Hid Hcopy.
  pose proof (buildFilterById_string entityName m pk id Hm Hpk Hid) as Hbuild.
  pose proof (renameFields_id_filter fuel entityName m pk names id
                Hm Hpk Hnames Hkey Hcopy) as Hrename.
  assert (Hwhere : whereById metadata_find entityName (VStr id)
                   = Ok (VObj [("_id", identifierOf pk id)])).
  { unfold whereById. cbn [isPrimaryKey]. now rewrite Hbuild. }
  split; [exact Hbuild|]. split; [|split].
  - unfold findOne, isVirtual. rewrite Hm, Hvirtual, Hwhere. cbn [bind].
    destruct (buildFields _ _ _ _ _); cbn [bind]; [|reflexivity].
    now rewrite Hrename.
  - unfold nativeUpdate. rewrite Hwhere. cbn [bind]. now rewrite Hrename.
  - unfold nativeDelete. rewrite Hwhere. cbn [bind]. now rewrite Hrename.
Qed.

End PrimaryKeyFilter.

Lemma primary_key_shorthand_filter_witness :
  matchesObjectId "507f1f77bcf86cd799439011" = true
  /\ buildFilterById registry "Author" (VStr "507f1f77bcf86cd799439011")
     = Ok [("_id", VObjectId "507f1f77bcf86cd799439011")]
  /\ nativeDelete registry nothingToInline noLeadingQuantifier echoDeleteMany 1 "Author"
                  (VStr "507f1f77bcf86cd799439011")
     = Ok (VObj [("_id", VObjectId "507f1f77bcf86cd799439011")])
  /\ EntityMetadata.properties Tag "_id" = None
  /\ nativeDelete registry nothingToInline noLeadingQuantifier echoDeleteMany 1 "Tag"
                  (VStr "507f1f77bcf86cd799439011")
     = Ok (VObj [("_id", VObjectId "507f1f77bcf86cd799439011")]).
Proof.
  split; [reflexivity|].
  assert (Hkey : (item0 (EntityMetadata.primaryKeys Author) = "_id"
                  /\ EntityProperty.kind (property "_id" SCALAR "ObjectId" ["_id"]) = SCALAR)
                 \/ (EntityMetadata.properties Author "_id" = None
                     /\ item0 ["_id"] = "_id")).
  { left. split; reflexivity. }
  destruct (primary_key_shorthand_filter registry nothingToInline noLeadingQuantifier
              everyColumn echoStore echoUpdateMany echoDeleteMany rowAsIs noVirtual
              0 "Author" Author
              (property "_id" SCALAR "ObjectId" ["_id"]) ["_id"] "507f1f77bcf86cd799439011"
              (pageOptions None None) (VObj []) noUpsert
              eq_refl eq_refl eq_refl eq_refl Hkey (fun _ => eq_refl) eq_refl)
    as (Hbuild & _ & _ & Hdelete).
  split; [exact Hbuild|]. split; [exact Hdelete|]. split; [reflexivity|].
  assert (Hkey' : (item0 (EntityMetadata.primaryKeys Tag) = "_id"
                   /\ EntityProperty.kind (property "id" SCALAR "ObjectId" ["_id"]) = SCALAR)
                  \/ (EntityMetadata.properties Tag "_id" = None
                      /\ item0 ["_id"] = "_id")).
  { right. split; reflexivity. }
  assert (Hid : toLowerCase (EntityProperty.type (property "id" SCALAR "ObjectId" ["_id"]))
                = "objectid" -> matchesObjectId "507f1f77bcf86cd799439011" = true).
  { intros _. reflexivity. }
  exact (proj2 (proj2 (proj2
           (primary_key_shorthand_filter registry nothingToInline noLeadingQuantifier
              everyColumn echoStore echoUpdateMany echoDeleteMany rowAsIs noVirtual
              0 "Tag" Tag
              (property "id" SCALAR "ObjectId" ["_id"]) ["_id"] "507f1f77bcf86cd799439011"
              (pageOptions None None) (VObj []) noUpsert
              eq_refl eq_refl eq_refl eq_refl Hkey' Hid eq_refl)))).
Defined.

(** The claim C8 fails outside those conditions.  [buildFilterById] writes
    the key [_id] whatever the field name of the primary key is: for
    [Country], whose primary key is stored in [code], the store is handed
    [{_id: "fr"}].  A primary key that is a reference is normalized by
    [renameFields] according to the key of the referenced entity: for
    [Profile] the string becomes a native identifier although the type
    of the primary key does not read "objectid".  A string that does not
    spell an identifier makes [new ObjectId] throw for a primary key of
    type "objectid".  And [find] itself has no shorthand: the filter it
    hands the store is the copy of the string, one entry per character. *)
Lemma primary_key_filter_is_written_under_id :
  option_map EntityProperty.fieldNames (EntityMetadata.properties Country "code")
  = Some (Some ["code"])
  /\ findOne keyed nothingToInline noLeadingQuantifier everyColumn echoStore rowAsIs noVirtual
             1 "Country" (VStr "fr") (pageOptions None None)
     = Ok (VObj [("_id", VStr "fr")])
  /\ nativeUpdate keyed nothingToInline noLeadingQuantifier echoUpdateMany 1 "Country"
                  (VStr "fr") (VObj []) noUpsert
     = Ok (VObj [("_id", VStr "fr")])
  /\ nativeDelete keyed nothingToInline noLeadingQuantifier echoDeleteMany 1 "Country"
                  (VStr "fr")
     = Ok (VObj [("_id", VStr "fr")])
  /\ option_map EntityProperty.type (EntityMetadata.properties Profile "_id") = Some "Author"
  /\ buildFilterById keyed "Profile" (VStr "507f1f77bcf86cd799439011")
     = Ok [("_id", VStr "507f1f77bcf86cd799439011")]
  /\ findOne keyed nothingToInline noLeadingQuantifier everyColumn echoStore rowAsIs noVirtual
             1 "Profile" (VStr "507f1f77bcf86cd799439011") (pageOptions None None)
     = Ok (VObj [("_id", VObjectId "507f1f77bcf86cd799439011")])
  /\ findOne registry nothingToInline noLeadingQuantifier everyColumn echoStore rowAsIs
             noVirtual 1 "Author" (VStr "abc") (pageOptions None None)
     = Err BSONError
  /\ find registry nothingToInline noLeadingQuantifier everyColumn keepCursorOptions echoStore
          rowAsIs noVirtual 1 "Author" (VStr "507f1f77bcf86cd799439011")
          (pageOptions None None)
     = Ok [VObj (indexed (fun c => VStr (String c EmptyString)) 0
                         (list_ascii_of_string "507f1f77bcf86cd799439011"))]
  /\ get "_id" (indexed (fun c => VStr (String c EmptyString)) 0
                        (list_ascii_of_string "507f1f77bcf86cd799439011")) = VUndefined.
Proof. repeat split. Qed.

(** ** The projection *)

(** C7 (the code departs from the claim).  [Tag] has the primary key
    property [id], stored in the field [_id].  For the explicit field
    [label], [buildFields] puts the logical name [id] of the primary key
    in front of the projection, not its field name [_id]; the requested
    field itself is given by its field name. *)
Theorem buildFields_prepends_logical_name :
  EntityMetadata.primaryKeys Tag = ["id"]
  /\ option_map EntityProperty.fieldNames (EntityMetadata.properties Tag "id")
     = Some (Some ["_id"])
  /\ buildFields registry everyColumn "Tag" [] (Some [FieldName "label"])
     = Ok (Some [FieldName "id"; FieldName "label"])
  /\ buildFields registry everyColumn "Author" [] (Some [FieldName "born"])
     = Ok (Some [FieldName "_id"; FieldName "date_of_birth"]).
Proof. repeat split. Qed.

(** ** Writes that reach the caller's documents *)

(** C2 (the code departs from the claim).  After [renameFields] has run on
    the filter [{$and: [{age: {$gt: 1}}, {$fulltext: "x"}]}], the caller's
    own document reads [{$and: [{age: {$gt: 1}}, {}]}]: the key was
    deleted from the caller's sub-document.  After it has run on
    [{favouriteBook: {$in: ["507f1f77bcf86cd799439011"]}}], the caller's
    nested object holds the native identifier in place of the string.  In
    both runs the document returned is the one the first part of this
    file computes. *)
Theorem renameFields_writes_to_caller_documents :
  Store.reify 8 callerFilter (Store.HRef 4)
  = Some (VObj [("$and", VArr [VObj [("age", VObj [("$gt", VNum 1)])];
                               VObj [("$fulltext", VStr "x")]])])
  /\ documentAfter (Store.renameFields registry nothingToInlineInStore noLeadingQuantifierInStore 8
                                       "Unregistered"
                                       (Store.HRef 4) true None) callerFilter 4
     = Some (VObj [("$and", VArr [VObj [("age", VObj [("$gt", VNum 1)])]; VObj []])])
  /\ documentAfter (Store.renameFields registry nothingToInlineInStore noLeadingQuantifierInStore 8
                                       "Author"
                                       (Store.HRef 4) true None) callerFilter 4
     = Some (VObj [("$and", VArr [VObj [("age", VObj [("$gt", VNum 1)])]; VObj []])])
  /\ documentReturned (Store.renameFields registry nothingToInlineInStore
      noLeadingQuantifierInStore 8 "Author"
                                          (Store.HRef 4) true None) callerFilter
     = Some (VObj [("$and", VArr [VObj [("age", VObj [("$gt", VNum 1)])]; VObj []]);
                   ("$text", VObj [("$search", VStr "x")])])
  /\ renameFields registry nothingToInline noLeadingQuantifier 8 "Author"
       (VObj [("$and", VArr [VObj [("age", VObj [("$gt", VNum 1)])];
                             VObj [("$fulltext", VStr "x")]])]) true None
     = Ok [("$and", VArr [VObj [("age", VObj [("$gt", VNum 1)])]; VObj []]);
           ("$text", VObj [("$search", VStr "x")])]
  /\ Store.reify 8 callerReference (Store.HRef 2)
     = Some (VObj [("favouriteBook", VObj [("$in", VArr [VStr "507f1f77bcf86cd799439011"])])])
  /\ documentAfter (Store.renameFields registry nothingToInlineInStore noLeadingQuantifierInStore 8
                                       "Author"
                                       (Store.HRef 2) true None) callerReference 2
     = Some (VObj [("favouriteBook",
                    VObj [("$in", VArr [VObjectId "507f1f77bcf86cd799439011"])])])
  /\ documentReturned (Store.renameFields registry nothingToInlineInStore
      noLeadingQuantifierInStore 8 "Author"
                                          (Store.HRef 2) true None) callerReference
     = Some (VObj [("favouriteBook",
                    VObj [("$in", VArr [VObjectId "507f1f77bcf86cd799439011"])])])
  /\ renameFields registry nothingToInline noLeadingQuantifier 8 "Author"
       (VObj [("favouriteBook", VObj [("$in", VArr [VStr "507f1f77bcf86cd799439011"])])])
       true None
     = Ok [("favouriteBook", VObj [("$in", VArr [VObjectId "507f1f77bcf86cd799439011"])])].
Proof. repeat split. Qed.

(** * Further properties *)

(** ** The identifier normalizer, continued *)

(** X1. The identifier normalizer changes no key: a key occurs in the
    normalized value, at any depth, exactly when it occurs in the value it
    was given. *)
Theorem convertObjectIds_keeps_keys (v : value) (key : string) :
  KeyWithin key (convertObjectIds v) <-> KeyWithin key v.
Proof.
  split; intros H; apply hasNestedKey_spec; apply hasNestedKey_spec in H.
  - now rewrite <- (hasNestedKey_convertObjectIds v key).
  - now rewrite (hasNestedKey_convertObjectIds v key).
Qed.

(** X2. The identifier normalizer returns a value as it was given exactly
    when no string in it, at any depth of its arrays and objects, spells
    an identifier. *)
Theorem convertObjectIds_fixes_values_without_identifier_strings (v : value) :
  convertObjectIds v = v <-> holdsIdString v = false.
Proof.
  induction v using value_rect'; try (cbn; split; reflexivity).
  - cbn. destruct (matchesObjectId s); split; try reflexivity; discriminate.
  - cbn. induction H as [|x l Hx _ IH]; cbn; [tauto|].
    rewrite orb_false_iff, <- Hx. split.
    + intros E. injection E as E1 E2. split; [exact E1|]. apply IH. now f_equal.
    + intros [E1 E2]. apply IH in E2. injection E2 as E2. now rewrite E1, E2.
  - rewrite convertObjectIds_obj. unfold mapValues. cbn [holdsIdString].
    induction H as [|[k x] l Hx _ IH]; cbn in *; [tauto|].
    rewrite orb_false_iff, <- Hx. split.
    + intros E. injection E as E1 E2. split; [exact E1|]. apply IH. now f_equal.
    + intros [E1 E2]. apply IH in E2. injection E2 as E2. now rewrite E1, E2.
Qed.

Lemma isHexDigit_lowerChar (c : ascii) : isHexDigit (lowerChar c) = isHexDigit c.
Proof. destruct c as [[] [] [] [] [] [] [] []]; reflexivity. Qed.

Lemma length_toLowerCase (s : string) : String.length (toLowerCase s) = String.length s.
Proof. induction s as [|c t IH]; cbn; [reflexivity | now rewrite IH]. Qed.

(** X3. The test for a string that spells an identifier does not tell
    upper case from lower case, and only a string of 24 characters passes
    it. *)
Theorem matchesObjectId_ignores_case (s : string) :
  matchesObjectId (toLowerCase s) = matchesObjectId s
  /\ (matchesObjectId s = true -> String.length s = 24%nat).
Proof.
  unfold matchesObjectId. split.
  - rewrite length_toLowerCase. f_equal.
    induction s as [|c t IH]; cbn; [reflexivity|].
    now rewrite isHexDigit_lowerChar, IH.
  - intros H. apply andb_prop in H as [H _]. now apply Nat.eqb_eq in H.
Qed.

(** ** The rewriting of documents, continued *)

Lemma mapM_ext {A B} (f g : A -> result B) (l : list A) :
  (forall x, f x = g x) -> mapM f l = mapM g l.
Proof. intros H. induction l as [|x t IH]; cbn; [reflexivity|]. now rewrite H, IH. Qed.

Lemma forEachKey_ext {D} (f g : D -> string -> result D) (ks : list string) (s : D) :
  (forall s k, f s k = g s k) -> forEachKey f ks s = forEachKey g ks s.
Proof.
  intros H. revert s. induction ks as [|k t IH]; cbn; intros s; [reflexivity|].
  rewrite H. destruct (g s k); cbn; [apply IH | reflexivity].
Qed.

Lemma forEachKey_fixed {D} (f : D -> string -> result D) (ks : list string) (s : D) :
  (forall k, In k ks -> f s k = Ok s) -> forEachKey f ks s = Ok s.
Proof.
  induction ks as [|k t IH]; cbn; intros H; [reflexivity|].
  rewrite (H k) by now left. cbn. apply IH. intros k0 Hk0. apply H. now right.
Qed.

(** The pass settles an entry that the turn of its key settles and that
    every other turn leaves alone. *)
Lemma forEachKey_settles (I J : Dictionary -> Prop)
  (f : Dictionary -> string -> result Dictionary) (x : string) (ks : list string) :
  In x ks ->
  (forall s, J s -> I s) ->
  (forall k s s', x <> k -> I s -> f s k = Ok s' -> I s') ->
  (forall k s s', x <> k -> J s -> f s k = Ok s' -> J s') ->
  (forall s s', I s -> f s x = Ok s' -> J s') ->
  forall s out, I s -> forEachKey f ks s = Ok out -> J out.
Proof.
  intros Hin HJI HI HJ Hx s out Hs H.
  apply in_split in Hin as (l1 & l2 & ->).
  rewrite forEachKey_app in H. bind_inv H. cbn [forEachKey] in H. bind_inv H.
  assert (Ia : I a).
  { refine (forEachKey_invariant I f l1 _ s a Hs Ha).
    intros k s0 s0' _ Hs0 Hstep. destruct (String.eqb_spec k x) as [->|Hne].
    - apply HJI. now apply (Hx s0).
    - apply (HI k s0); [congruence | exact Hs0 | exact Hstep]. }
  assert (Ja0 : J a0) by now apply (Hx a).
  refine (forEachKey_invariant J f l2 _ a0 out Ja0 H).
  intros k s0 s0' _ Hs0 Hstep. destruct (String.eqb_spec k x) as [->|Hne].
  - apply (Hx s0); [now apply HJI | exact Hstep].
  - apply (HJ k s0); [congruence | exact Hs0 | exact Hstep].
Qed.

Lemma get_absent (k : string) (d : Dictionary) : has k d = false -> get k d = VUndefined.
Proof.
  induction d as [|[a u] t IH]; cbn; [reflexivity|].
  destruct (String.eqb a k); [discriminate | exact IH].
Qed.

Lemma get_has (k : string) (d : Dictionary) : get k d <> VUndefined -> has k d = true.
Proof.
  intros H. destruct (has k d) eqn:E; [reflexivity|]. now rewrite get_absent in H.
Qed.

Lemma get_In (k : string) (d : Dictionary) : has k d = true -> In (k, get k d) d.
Proof.
  induction d as [|[a u] t IH]; cbn; [discriminate|].
  destruct (String.eqb_spec a k) as [->|Hne]; [now left | intros H; right; now apply IH].
Qed.

Lemma keys_set_has (k : string) (v : value) (d : Dictionary) :
  has k d = true -> keys (set k v d) = keys d.
Proof. intros H. now rewrite keys_set, H. Qed.

Lemma length_keys (d : Dictionary) : List.length (keys d) = List.length d.
Proof. apply length_map. Qed.

Lemma length_renameKey (d : Dictionary) (from to : string) :
  List.length (renameKey d from to) = List.length d.
Proof. unfold renameKey. destruct (_ && _); [apply length_map | reflexivity]. Qed.

Lemma not_KeyWithin (v : value) (key : string) :
  ~ KeyWithin key v -> hasNestedKey v key = false.
Proof.
  intros H. destruct (hasNestedKey v key) eqn:E; [|reflexivity].
  apply hasNestedKey_spec in E. contradiction.
Qed.

Lemma single_entry_clean (k : string) (v : value) :
  k <> "$fulltext" -> ~ KeyWithin "$fulltext" v ->
  hasNestedKey (VObj [(k, v)]) "$fulltext" = false.
Proof.
  intros Hk Hv. apply not_KeyWithin in Hv. rewrite hasNestedKey_obj. cbn [existsb fst snd].
  destruct (String.eqb_spec k "$fulltext"); [contradiction|]. now rewrite Hv.
Qed.

Lemma keys_regexShorthand (acceptsPattern : value -> bool) (d d' : Dictionary) (k : string) :
  regexShorthand acceptsPattern d k = Ok d' -> keys d' = keys d.
Proof.
  intros H. apply regexShorthand_Ok in H as [->|(entries & Hget & _ & _ & ->)];
    [reflexivity|].
  apply keys_set_has, get_has. now rewrite Hget.
Qed.

(** The shorthand is not met where no value is one. *)
Lemma regexShorthand_none (acceptsPattern : value -> bool) (d : Dictionary) (k : string) :
  isRegexShorthand (get k d) = false -> regexShorthand acceptsPattern d k = Ok d.
Proof.
  unfold regexShorthand, isRegexShorthand. destruct (get k d); try reflexivity.
  now intros ->.
Qed.

Lemma NoDup_hoistFulltextFrom (items : list value) :
  forall d r, hoistFulltextFrom items d = Ok r -> NoDup (keys d) -> NoDup (keys (snd r)).
Proof.
  induction items as [|and rest IH]; cbn; intros d r H Hd.
  - now injection H as <-.
  - destruct and; try discriminate.
    + bind_inv H. injection H as <-. cbn. eapply IH; eauto.
    + bind_inv H. injection H as <-. cbn. eapply IH; eauto.
    + bind_inv H. injection H as <-. cbn. eapply IH; eauto.
    + destruct (has "$fulltext" entries).
      * destruct (has "$fulltext" d); [discriminate|].
        bind_inv H. injection H as <-. cbn. eapply IH; [exact Ha|]. now apply NoDup_keys_set.
      * bind_inv H. injection H as <-. cbn. eapply IH; eauto.
Qed.

Lemma NoDup_hoistFulltext (d d' : Dictionary) :
  hoistFulltext d = Ok d' -> NoDup (keys d) -> NoDup (keys d').
Proof.
  intros H Hd. unfold hoistFulltext in H.
  destruct (truthy (get "$and" d)); [|now injection H as <-].
  destruct (get "$and" d); try discriminate; try (now injection H as <-).
  - bind_inv H. injection H as <-. apply NoDup_keys_set.
    eapply NoDup_hoistFulltextFrom; eauto.
  - destruct (has "length" entries); [discriminate | now injection H as <-].
Qed.

Lemma NoDup_restructureFulltext (d : Dictionary) :
  NoDup (keys d) -> NoDup (keys (restructureFulltext d)).
Proof.
  intros H. unfold restructureFulltext. destruct (has "$fulltext" d); [|exact H].
  apply NoDup_keys_delete. now apply NoDup_keys_set.
Qed.

(** A primitive element stops the scan of [$and] when no element holds
    [$fulltext]. *)
Lemma hoistFulltextFrom_primitive (items : list value) (d : Dictionary) :
  Forall (fun v => holdsFulltext v = false) items ->
  Exists (fun v => isPrimitive v = true) items ->
  hoistFulltextFrom items d = Err TypeError.
Proof.
  intros Hnone. induction Hnone as [|and rest Hand _ IH]; intros Hex.
  - inversion Hex.
  - cbn. destruct and; try reflexivity;
      try (inversion Hex as [? ? Hp|? ? Hp]; subst; [discriminate|]; now rewrite (IH Hp)).
    cbn in Hand. rewrite Hand.
    inversion Hex as [? ? Hp|? ? Hp]; subst; [discriminate|]. now rewrite (IH Hp).
Qed.

Section EntriesInPlace.

Variable metadata_find : string -> option EntityMetadata.t.
Variable acceptsPattern : value -> bool.
Variable recur : string -> value -> bool -> option bool -> result Dictionary.

Lemma keys_rewriteByKind (prop : EntityProperty.t) (where_ : bool) (object : option bool)
  (d d' : Dictionary) (b : bool) :
  has (EntityProperty.name prop) d = true ->
  rewriteByKind metadata_find recur prop where_ object d = Ok (Some (b, d')) ->
  keys d' = keys d.
Proof.
  intros Hhas H. unfold rewriteByKind in H.
  destruct (EntityProperty.kind prop).
  1: { now injection H as _ <-. }
  5: { destruct (isNullish (get (EntityProperty.name prop) d)); [discriminate|].
       destruct (get (EntityProperty.name prop) d);
         try (bind_inv H; injection H as _ <-; now apply keys_set_has).
       destruct (EntityProperty.array prop);
         bind_inv H; injection H as _ <-; now apply keys_set_has. }
  all: destruct (metadata_find (EntityProperty.type prop)) as [meta2|]; [|discriminate];
    destruct (EntityMetadata.properties meta2 (item0 (EntityMetadata.primaryKeys meta2)));
    [|discriminate]; now injection H as _ <-.
Qed.

(** A turn run for a key that is there keeps the number of entries, and
    keeps the keys when the key names no property. *)
Lemma renameFieldsKey_in_place (meta : option EntityMetadata.t) (entityName : string)
  (where_ : bool) (object : option bool) (d d' : Dictionary) (k : string) :
  has k d = true ->
  renameFieldsKey metadata_find acceptsPattern recur meta entityName where_ object d k = Ok d' ->
  List.length d' = List.length d
  /\ (propertyOf meta k = None -> keys d' = keys d).
Proof.
  intros Hhas H. unfold renameFieldsKey in H.
  destruct (isGroupOperator k).
  - assert (E : forall v, keys (set k v d) = keys d) by (intros; now apply keys_set_has).
    destruct (get k d); bind_inv H; injection H as <-;
      (split; [rewrite <- !length_keys; now rewrite E | intros _; apply E]).
  - unfold propertyOf.
    destruct (match meta with
              | Some m => EntityMetadata.properties m k
              | None => None
              end) as [prop|] eqn:Eprop.
    + split; [|discriminate].
      assert (Hname : EntityProperty.name prop = k).
      { destruct meta as [m|]; [|discriminate]. now apply properties_name in Eprop. }
      bind_inv H. destruct a as [[b d1]|]; [|now injection H as <-].
      rewrite <- Hname in Hhas. pose proof (keys_rewriteByKind _ _ _ _ _ _ Hhas Ha) as E1.
      rewrite Hname in Hhas.
      assert (H1 : has k d1 = true).
      { apply has_In. rewrite E1. now apply has_In. }
      rewrite <- (length_keys d), <- E1, length_keys.
      rewrite <- (length_keys d'), (keys_regexShorthand _ _ _ _ H), length_keys.
      assert (E2 : List.length (if b then set k (convertObjectIds (get k d1)) d1 else d1)
                   = List.length d1).
      { destruct b; [|reflexivity]. rewrite <- !length_keys. now rewrite keys_set_has. }
      destruct (EntityProperty.fieldNames prop); [now rewrite length_renameKey | exact E2].
    + pose proof (keys_regexShorthand _ _ _ _ H) as E. split; [|intros _; exact E].
      rewrite <- !length_keys. now rewrite E.
Qed.

Lemma forEachKey_in_place (meta : option EntityMetadata.t) (entityName : string)
  (where_ : bool) (object : option bool) (ks : list string) :
  NoDup ks ->
  forall d out,
    (forall k, In k ks -> has k d = true) ->
    forEachKey (renameFieldsKey metadata_find acceptsPattern recur meta entityName where_ object)
        ks d
    = Ok out ->
    List.length out = List.length d
    /\ ((forall k, In k ks -> propertyOf meta k = None) -> keys out = keys d).
Proof.
  induction 1 as [|k t Hk Hnd IH]; cbn [forEachKey]; intros d out Hhas H.
  - injection H as <-. now split.
  - bind_inv H.
    destruct (renameFieldsKey_in_place meta entityName where_ object d a k) as [E1 E2];
      [apply Hhas; now left | exact Ha|].
    destruct (IH a out) as [E3 E4]; [|exact H|].
    + intros k0 Hk0.
      assert (Hne : k0 <> k) by (intros ->; contradiction).
      refine (proj1 (Kept_renameFieldsKey metadata_find acceptsPattern recur k0 (get k0 d) meta
          entityName
                       where_ object d a k Hne Ha _)).
      split; [apply Hhas; now right | reflexivity].
    + split; [now rewrite E3 | intros Hprops].
      rewrite E4 by (intros k0 Hk0; apply Hprops; now right).
      apply E2, Hprops. now left.
Qed.

(** The turn of a property that is not embedded, on a copy that holds its
    entry alone. *)
Lemma renameFieldsKey_stored (m : EntityMetadata.t) (prop : EntityProperty.t)
  (entityName l : string) (names : list string) (v : value) (where_ : bool)
  (object : option bool) (b : bool) :
  EntityMetadata.properties m l = Some prop ->
  EntityProperty.fieldNames prop = Some names ->
  isGroupOperator l = false ->
  rewriteByKind metadata_find recur prop where_ object [(l, v)] = Ok (Some (b, [(l, v)])) ->
  renameFieldsKey metadata_find acceptsPattern recur (Some m) entityName where_ object
                  [(l, v)] l
  = (stored <- storedValue acceptsPattern b (String.eqb (item0 names) l) v ;;
     Ok [(item0 names, stored)]).
Proof.
  intros Hprop Hnames Hgroup Hkind. unfold renameFieldsKey.
  rewrite Hgroup, Hprop, Hkind. cbn [bind]. rewrite Hnames.
  assert (E1 : (if b then set l (convertObjectIds (get l [(l, v)])) [(l, v)] else [(l, v)])
               = [(l, if b then convertObjectIds v else v)]).
  { destruct b; [|reflexivity]. cbn. now rewrite !String.eqb_refl. }
  rewrite E1, keys_renameKey_single, regexShorthand_single. unfold storedValue.
  destruct (String.eqb (item0 names) l); [|reflexivity].
  now destruct (patternAccepted acceptsPattern (if b then convertObjectIds v else v)).
Qed.

End EntriesInPlace.

Section RewritingFurther.

Variable metadata_find : string -> option EntityMetadata.t.
Variable inlineEmbeddables : EntityMetadata.t -> Dictionary -> bool -> result Dictionary.
Variable acceptsPattern : value -> bool.

(** The flags reach the result through the inlining alone. *)
Lemma renameFields_flags (w w' : bool) :
  (forall m d, inlineEmbeddables m d w = inlineEmbeddables m d w') ->
  forall fuel entityName data object object',
    renameFields metadata_find inlineEmbeddables acceptsPattern fuel entityName data w object
    = renameFields metadata_find inlineEmbeddables acceptsPattern fuel entityName data w' object'.
Proof.
  intros Hie. induction fuel as [|fuel IH]; intros entityName data object object';
    [reflexivity|].
  cbn [renameFields].
  assert (Ehead : renameFieldsHead metadata_find inlineEmbeddables entityName data w
                  = renameFieldsHead metadata_find inlineEmbeddables entityName data w').
  { unfold renameFieldsHead, renameFieldsCopy, inlineStep.
    destruct (metadata_find entityName) as [m|]; [|reflexivity].
    destruct (EntityMetadata.embeddable m); [reflexivity | now rewrite Hie]. }
  rewrite Ehead.
  destruct (renameFieldsHead metadata_find inlineEmbeddables entityName data w')
    as [copiedData|]; cbn [bind]; [|reflexivity].
  destruct (hasNestedKey (VObj copiedData) "$fulltext"); [reflexivity|].
  apply forEachKey_ext. intros s k. unfold renameFieldsKey.
  destruct (isGroupOperator k); [reflexivity|].
  destruct (match metadata_find entityName with
            | Some m => EntityMetadata.properties m k
            | None => None
            end) as [prop|]; [|reflexivity].
  assert (Ekind :
    rewriteByKind metadata_find (renameFields metadata_find inlineEmbeddables acceptsPattern fuel)
                  prop w object s
    = rewriteByKind metadata_find (renameFields metadata_find inlineEmbeddables acceptsPattern fuel)
                    prop w' object' s).
  { unfold rewriteByKind. destruct (EntityProperty.kind prop); try reflexivity.
    destruct (isNullish (get (EntityProperty.name prop) s)); [reflexivity|].
    assert (Eone : forall v,
      renameFields metadata_find inlineEmbeddables acceptsPattern fuel (EntityProperty.type prop) v
                   w
                   (if EntityProperty.object prop then Some true else object)
      = renameFields metadata_find inlineEmbeddables acceptsPattern fuel (EntityProperty.type prop)
                     v w'
                     (if EntityProperty.object prop then Some true else object'))
      by (intros; apply IH).
    destruct (get (EntityProperty.name prop) s); try (now rewrite Eone).
    destruct (EntityProperty.array prop); [|now rewrite Eone].
    unfold renameEach.
    rewrite (mapM_ext _ (fun v => d <- renameFields metadata_find inlineEmbeddables acceptsPattern
                                                    fuel
                                        (EntityProperty.type prop) v w' (Some true) ;;
                                  Ok (VObj d))); [reflexivity|].
    intros v. now rewrite (IH _ v (Some true) (Some true)). }
  now rewrite Ekind.
Qed.

(** X4. The parameter [object] has no effect: whatever is passed for it,
    [renameFields] returns the same document or throws the same error. *)
Theorem renameFields_ignores_object (fuel : nat) (entityName : string) (data : value)
  (where_ : bool) (object object' : option bool) :
  renameFields metadata_find inlineEmbeddables acceptsPattern fuel entityName data where_ object
  = renameFields metadata_find inlineEmbeddables acceptsPattern fuel entityName data where_ object'.
Proof.
  apply (renameFields_flags where_ where_). intros m d. reflexivity.
Qed.

(** X5. The flag [where] matters to the inlining of embeddables alone:
    when the inlining does the same with and without it, a document is
    rewritten as a filter exactly as it is rewritten as data. *)
Theorem renameFields_where_matters_to_inlining_only (fuel : nat) (entityName : string)
  (data : value) (object : option bool) :
  (forall m d, inlineEmbeddables m d true = inlineEmbeddables m d false) ->
  renameFields metadata_find inlineEmbeddables acceptsPattern fuel entityName data true object
  = renameFields metadata_find inlineEmbeddables acceptsPattern fuel entityName data false object.
Proof.
  intros Hinline. apply (renameFields_flags true false). exact Hinline.
Qed.

(** X6. When no property is stored under the field name [$fulltext], no
    document that [renameFields] returns holds the key [$fulltext], at any
    depth. *)
Theorem renameFields_returns_no_fulltext (fuel : nat) (entityName : string) (data : value)
  (where_ : bool) (object : option bool) (out : Dictionary) :
  NoFulltextField metadata_find ->
  renameFields metadata_find inlineEmbeddables acceptsPattern fuel entityName data where_ object =
               Ok out ->
  ~ KeyWithin "$fulltext" (VObj out).
Proof.
  intros Hok H Hin. apply hasNestedKey_spec in Hin.
  now rewrite (renameFields_clean metadata_find inlineEmbeddables acceptsPattern Hok fuel _ _ _ _ _
                                  H) in Hin.
Qed.

(** Lines 241-260 leave alone a copy without [$and] and [$fulltext]. *)
Lemma renameFieldsHead_plain (entityName : string) (data : value) (where_ : bool)
  (copiedData : Dictionary) :
  renameFieldsCopy metadata_find inlineEmbeddables entityName data where_ = Ok copiedData ->
  truthy (get "$and" copiedData) = false -> has "$fulltext" copiedData = false ->
  renameFieldsHead metadata_find inlineEmbeddables entityName data where_ = Ok copiedData.
Proof.
  intros Hcopy Hand Hft. unfold renameFieldsHead. rewrite Hcopy. cbn [bind].
  unfold hoistFulltext. rewrite Hand. cbn [bind]. unfold restructureFulltext. now rewrite Hft.
Qed.

Lemma Kept_renameFieldsHead (x : string) (v0 : value) (entityName : string) (data : value)
  (where_ : bool) (copiedData a : Dictionary) :
  x <> "$fulltext" -> x <> "$and" -> x <> "$text" ->
  renameFieldsCopy metadata_find inlineEmbeddables entityName data where_ = Ok copiedData ->
  renameFieldsHead metadata_find inlineEmbeddables entityName data where_ = Ok a ->
  Kept x v0 copiedData -> Kept x v0 a.
Proof.
  intros Hft Hand Htext Hcopy H Hk. unfold renameFieldsHead in H. rewrite Hcopy in H.
  cbn [bind] in H. bind_inv H. injection H as <-.
  apply Kept_restructureFulltext; [exact Hft | exact Htext|].
  eapply Kept_hoistFulltext; eauto.
Qed.

(** The rewriting of a copy that holds one entry, under a key that is not
    reserved, is the turn of that key. *)
Lemma renameFields_single_turn (fuel : nat) (entityName : string) (l : string) (v : value)
  (data : value) (where_ : bool) (object : option bool) :
  isGroupOperator l = false -> l <> "$fulltext" ->
  ~ KeyWithin "$fulltext" v ->
  renameFieldsCopy metadata_find inlineEmbeddables entityName data where_ = Ok [(l, v)] ->
  renameFields metadata_find inlineEmbeddables acceptsPattern (S fuel) entityName data where_ object
  = renameFieldsKey metadata_find acceptsPattern (renameFields metadata_find inlineEmbeddables
                    acceptsPattern fuel)
                    (metadata_find entityName) entityName where_ object [(l, v)] l.
Proof.
  intros Hgroup Hft Hclean Hcopy.
  pose proof (isGroupOperator_and l Hgroup) as Hand.
  cbn [renameFields].
  rewrite (renameFieldsHead_plain entityName data where_ _ Hcopy).
  2: { cbn [get]. destruct (String.eqb_spec l "$and"); [contradiction | reflexivity]. }
  2: { cbn [has]. destruct (String.eqb_spec l "$fulltext"); [contradiction | reflexivity]. }
  cbn [bind]. rewrite (single_entry_clean l v Hft Hclean).
  cbn [keys map fst forEachKey]. now destruct (renameFieldsKey _ _ _ _ _ _ _ _).
Qed.

(** X7. A document in which no key is a group operator or names a
    property of the entity, no value is the regex shorthand, and
    [$fulltext] occurs nowhere, is returned as the copy was made: the same
    entries, in the same order. *)
Theorem renameFields_leaves_unmapped_document (fuel : nat) (entityName : string)
  (data : value) (where_ : bool) (object : option bool) (copiedData : Dictionary) :
  renameFieldsCopy metadata_find inlineEmbeddables entityName data where_ = Ok copiedData ->
  Forall (fun kv => isGroupOperator (fst kv) = false
                    /\ propertyOf (metadata_find entityName) (fst kv) = None
                    /\ isRegexShorthand (snd kv) = false) copiedData ->
  ~ KeyWithin "$fulltext" (VObj copiedData) ->
  renameFields metadata_find inlineEmbeddables acceptsPattern (S fuel) entityName data where_ object
  = Ok copiedData.
Proof.
  intros Hcopy Hall Hclean. apply not_KeyWithin in Hclean.
  rewrite Forall_forall in Hall.
  assert (Hand : has "$and" copiedData = false).
  { destruct (has "$and" copiedData) eqn:E; [|reflexivity].
    apply get_In in E. apply Hall in E as [E _]. discriminate. }
  cbn [renameFields].
  rewrite (renameFieldsHead_plain entityName data where_ copiedData Hcopy).
  2: { now rewrite (get_absent _ _ Hand). }
  2: { now apply clean_has. }
  cbn [bind]. rewrite Hclean. apply forEachKey_fixed. intros k Hk.
  apply has_In in Hk. apply get_In in Hk. apply Hall in Hk as (Hgroup & Hprop & Hre).
  cbn [fst snd] in *. unfold renameFieldsKey. rewrite Hgroup.
  unfold propertyOf in Hprop. rewrite Hprop. now apply regexShorthand_none.
Qed.

(** X8. The regex shorthand under a key [k] that names no property (and is
    not a reserved key).  A document is returned only if the runtime
    accepts the pattern under [$re], and every document returned holds
    under [k] the [RegExp] built from that pattern, whatever else the
    shorthand object and the document hold.  The document that holds this
    entry alone is returned with that [RegExp] as its only entry when the
    pattern is accepted, and makes line 312 throw a [SyntaxError]
    otherwise. *)
Theorem regex_shorthand_becomes_RegExp (fuel : nat) (entityName : string) (data : value)
  (where_ : bool) (object : option bool) (copiedData : Dictionary) (k : string)
  (entries : Dictionary) :
  renameFieldsCopy metadata_find inlineEmbeddables entityName data where_ = Ok copiedData ->
  isGroupOperator k = false -> k <> "$fulltext" -> k <> "$text" ->
  propertyOf (metadata_find entityName) k = None ->
  has k copiedData = true -> get k copiedData = VObj entries -> has "$re" entries = true ->
  (forall out,
      renameFields metadata_find inlineEmbeddables acceptsPattern (S fuel) entityName data
                   where_ object = Ok out ->
      acceptsPattern (get "$re" entries) = true
      /\ has k out = true /\ get k out = VRegExp (get "$re" entries))
  /\ (copiedData = [(k, VObj entries)] -> ~ KeyWithin "$fulltext" (VObj entries) ->
      renameFields metadata_find inlineEmbeddables acceptsPattern (S fuel) entityName data
                   where_ object
      = if acceptsPattern (get "$re" entries)
        then Ok [(k, VRegExp (get "$re" entries))]
        else Err SyntaxError).
Proof.
  intros Hcopy Hgroup Hft Htext Hprop Hhas Hget Hre.
  pose proof (isGroupOperator_and k Hgroup) as Hand.
  assert (Hturn : forall s,
    renameFieldsKey metadata_find acceptsPattern
                    (renameFields metadata_find inlineEmbeddables acceptsPattern fuel)
                    (metadata_find entityName) entityName where_ object s k
    = regexShorthand acceptsPattern s k).
  { intros s. unfold renameFieldsKey. rewrite Hgroup. unfold propertyOf in Hprop.
    now rewrite Hprop. }
  split.
  - intros out H. cbn [renameFields] in H. bind_inv H.
    destruct (hasNestedKey (VObj a) "$fulltext"); [discriminate|].
    assert (K0 : Kept k (VObj entries) a).
    { eapply Kept_renameFieldsHead; eauto. now split. }
    refine (forEachKey_settles
              (fun s => Kept k (VObj entries) s
                        \/ (acceptsPattern (get "$re" entries) = true
                            /\ Kept k (VRegExp (get "$re" entries)) s))
              (fun s => acceptsPattern (get "$re" entries) = true
                        /\ Kept k (VRegExp (get "$re" entries)) s)
              _ k (keys a) _ _ _ _ _ a out _ H).
    + apply has_In. exact (proj1 K0).
    + intros s Hs. now right.
    + intros k0 s s' Hne [Hs|[Hok Hs]] Hstep; [left | right; split; [exact Hok|]];
        eapply Kept_renameFieldsKey; eauto.
    + intros k0 s s' Hne [Hok Hs] Hstep. split; [exact Hok|].
      eapply Kept_renameFieldsKey; eauto.
    + intros s s' Hs Hstep. rewrite Hturn in Hstep.
      unfold regexShorthand, new_RegExp in Hstep.
      destruct Hs as [[Hh Hg]|[Hok [Hh Hg]]]; rewrite Hg in Hstep.
      * rewrite Hre in Hstep.
        destruct (acceptsPattern (get "$re" entries)); [|discriminate].
        injection Hstep as <-. split; [reflexivity|].
        split; [rewrite has_set; now rewrite String.eqb_refl | apply get_set_same].
      * injection Hstep as <-. now repeat split.
    + now left.
  - intros -> Hclean.
    rewrite (renameFields_single_turn fuel entityName k (VObj entries) data where_ object
               Hgroup Hft Hclean Hcopy).
    rewrite Hturn, regexShorthand_single, String.eqb_refl.
    unfold patternAccepted, regexOf. now rewrite Hre.
Qed.

(** X9. The branches of [$or] are rewritten one by one, each as data (with
    [where] unset) whatever the flag of the call: a returned document
    holds under [$or] one rewritten branch for each branch of the input, in
    order; a value of [$or] that is not an array is rewritten as a single
    document. *)
Theorem or_branches_rewritten_as_data (fuel : nat) (entityName : string) (data : value)
  (where_ : bool) (object : option bool) (copiedData out : Dictionary) :
  renameFieldsCopy metadata_find inlineEmbeddables entityName data where_ = Ok copiedData ->
  NoDup (keys copiedData) ->
  has "$or" copiedData = true ->
  renameFields metadata_find inlineEmbeddables acceptsPattern (S fuel) entityName data where_ object
  = Ok out ->
  match get "$or" copiedData with
  | VArr items =>
      exists items',
        get "$or" out = VArr items'
        /\ Forall2 (fun x y =>
                      exists d,
                        renameFields metadata_find inlineEmbeddables acceptsPattern fuel entityName
                                     x
                                     false None = Ok d
                        /\ y = VObj d) items items'
  | v =>
      exists d,
        renameFields metadata_find inlineEmbeddables acceptsPattern fuel entityName v false None =
                     Ok d
        /\ get "$or" out = VObj d
  end.
Proof.
  intros Hcopy Hnd Hhas H. cbn [renameFields] in H. bind_inv H.
  destruct (hasNestedKey (VObj a) "$fulltext"); [discriminate|].
  assert (K0 : Kept "$or" (get "$or" copiedData) a).
  { eapply Kept_renameFieldsHead; eauto; try discriminate. now split. }
  assert (Hnda : NoDup (keys a)).
  { unfold renameFieldsHead in Ha. rewrite Hcopy in Ha. cbn [bind] in Ha. bind_inv Ha.
    injection Ha as <-. apply NoDup_restructureFulltext. eapply NoDup_hoistFulltext; eauto. }
  assert (Hin : In "$or" (keys a)) by (apply has_In; exact (proj1 K0)).
  apply in_split in Hin as (l1 & l2 & Hkeys). rewrite Hkeys in H, Hnda.
  apply NoDup_remove_2 in Hnda.
  rewrite forEachKey_app in H. bind_inv H. cbn [forEachKey] in H. bind_inv H.
  assert (K1 : Kept "$or" (get "$or" copiedData) a0).
  { refine (forEachKey_invariant (Kept "$or" (get "$or" copiedData)) _ l1 _ a a0 K0 Ha0).
    intros k s s' Hk Hs Hstep. eapply Kept_renameFieldsKey; eauto.
    intros <-. apply Hnda. apply in_or_app. now left. }
  assert (Hrest : forall v, Kept "$or" v a1 -> get "$or" out = v).
  { intros v Hv.
    refine (proj2 (forEachKey_invariant (Kept "$or" v) _ l2 _ a1 out Hv H)).
    intros k s s' Hk Hs Hstep. eapply Kept_renameFieldsKey; eauto.
    intros <-. apply Hnda. apply in_or_app. now right. }
  unfold renameFieldsKey in Ha1.
  cbn [isGroupOperator String.eqb Ascii.eqb Bool.eqb orb andb] in Ha1.
  destruct K1 as [_ K1]. rewrite K1 in Ha1.
  assert (Hset : forall v, Kept "$or" v (set "$or" v a0)).
  { intros v. split; [rewrite has_set; now rewrite String.eqb_refl | apply get_set_same]. }
  destruct (get "$or" copiedData);
    try (bind_inv Ha1; injection Ha1 as <-; exists a2; split; [exact Ha2 | now apply Hrest]).
  bind_inv Ha1. injection Ha1 as <-. exists a2. split; [now apply Hrest|].
  rewrite <- (map_id items) in Ha2. now apply renameEach_Forall2 in Ha2.
Qed.

(** X10. The document that holds one entry [l: v] of a scalar property
    with field names [names].  [v] is normalized by [convertObjectIds]
    exactly when the type of the property reads "objectid".  When the
    first field name differs from [l], the normalized value is returned
    as the single entry under the field name, the regex shorthand
    included: the shorthand is looked up under the key as it was before
    the rename.  When the field name is [l], the regex shorthand is
    turned into a [RegExp], or line 312 throws a [SyntaxError] for a
    pattern the runtime does not accept. *)
Theorem scalar_entry_stored (fuel : nat) (entityName : string) (m : EntityMetadata.t)
  (prop : EntityProperty.t) (l : string) (names : list string) (v : value) (data : value)
  (where_ : bool) (object : option bool) :
  metadata_find entityName = Some m ->
  EntityMetadata.properties m l = Some prop ->
  EntityProperty.kind prop = SCALAR ->
  EntityProperty.fieldNames prop = Some names ->
  isGroupOperator l = false -> l <> "$fulltext" ->
  ~ KeyWithin "$fulltext" v ->
  renameFieldsCopy metadata_find inlineEmbeddables entityName data where_ = Ok [(l, v)] ->
  renameFields metadata_find inlineEmbeddables acceptsPattern (S fuel) entityName data
               where_ object
  = (stored <- storedValue acceptsPattern (isObjectIdType prop)
                           (String.eqb (item0 names) l) v ;;
     Ok [(item0 names, stored)]).
Proof.
  intros Hmeta Hprop Hkind Hnames Hgroup Hft Hclean Hcopy.
  rewrite (renameFields_single_turn fuel entityName l v data where_ object
             Hgroup Hft Hclean Hcopy), Hmeta.
  apply (renameFieldsKey_stored _ _ _ m prop); try assumption.
  unfold rewriteByKind. now rewrite Hkind.
Qed.

(** X11. The document that holds one entry [l: v] of a reference (a
    property that is neither scalar nor embedded) is rewritten as the
    entry of a scalar is, but [v] is normalized by [convertObjectIds]
    exactly when the type of the primary key of the referenced entity
    reads "objectid"; the type of the property itself plays no part.
    The result is the single entry under the first field name, or the
    [SyntaxError] of line 312 when the field name is [l] and the value is
    the regex shorthand with a pattern the runtime does not accept. *)
Theorem reference_entry_stored (fuel : nat) (entityName : string) (m : EntityMetadata.t)
  (prop : EntityProperty.t) (l : string) (names : list string) (v : value) (data : value)
  (where_ : bool) (object : option bool) (meta2 : EntityMetadata.t) (pk : EntityProperty.t) :
  metadata_find entityName = Some m ->
  EntityMetadata.properties m l = Some prop ->
  EntityProperty.kind prop <> SCALAR -> EntityProperty.kind prop <> EMBEDDED ->
  EntityProperty.fieldNames prop = Some names ->
  isGroupOperator l = false -> l <> "$fulltext" ->
  ~ KeyWithin "$fulltext" v ->
  renameFieldsCopy metadata_find inlineEmbeddables entityName data where_ = Ok [(l, v)] ->
  metadata_find (EntityProperty.type prop) = Some meta2 ->
  EntityMetadata.properties meta2 (item0 (EntityMetadata.primaryKeys meta2)) = Some pk ->
  renameFields metadata_find inlineEmbeddables acceptsPattern (S fuel) entityName data
               where_ object
  = (stored <- storedValue acceptsPattern (isObjectIdType pk)
                           (String.eqb (item0 names) l) v ;;
     Ok [(item0 names, stored)]).
Proof.
  intros Hmeta Hprop Hk1 Hk2 Hnames Hgroup Hft Hclean Hcopy Hmeta2 Hpk.
  rewrite (renameFields_single_turn fuel entityName l v data where_ object
             Hgroup Hft Hclean Hcopy), Hmeta.
  apply (renameFieldsKey_stored _ _ _ m prop); try assumption.
  unfold rewriteByKind.
  destruct (EntityProperty.kind prop); try contradiction; now rewrite Hmeta2, Hpk.
Qed.

(** X12. An entry of a reference whose target entity is not registered
    makes [renameFields] throw a [TypeError]: the metadata of the target
    is read without a check. *)
Theorem reference_to_unknown_entity_throws (fuel : nat) (entityName : string)
  (m : EntityMetadata.t) (prop : EntityProperty.t) (l : string) (v : value) (data : value)
  (where_ : bool) (object : option bool) :
  metadata_find entityName = Some m ->
  EntityMetadata.properties m l = Some prop ->
  EntityProperty.kind prop <> SCALAR -> EntityProperty.kind prop <> EMBEDDED ->
  isGroupOperator l = false -> l <> "$fulltext" ->
  ~ KeyWithin "$fulltext" v ->
  renameFieldsCopy metadata_find inlineEmbeddables entityName data where_ = Ok [(l, v)] ->
  metadata_find (EntityProperty.type prop) = None ->
  renameFields metadata_find inlineEmbeddables acceptsPattern (S fuel) entityName data where_ object
  = Err TypeError.
Proof.
  intros Hmeta Hprop Hk1 Hk2 Hgroup Hft Hclean Hcopy Hmeta2.
  rewrite (renameFields_single_turn fuel entityName l v data where_ object
             Hgroup Hft Hclean Hcopy), Hmeta.
  unfold renameFieldsKey. rewrite Hgroup, Hprop. unfold rewriteByKind.
  destruct (EntityProperty.kind prop); try contradiction; now rewrite Hmeta2.
Qed.

(** X13. The serialized alias of the primary key composes with the
    rename: for an entity that is not an embeddable, whose alias [spk]
    differs from its scalar primary key, the document [{spk: v}] is
    rewritten as the entry of the primary key is: [v] is normalized when
    the primary key's type reads "objectid" and comes back as the single
    entry under the first field name of the primary key; when that field
    name is the primary key's own name, the regex shorthand becomes a
    [RegExp], or line 312 throws a [SyntaxError] for a pattern the
    runtime does not accept. *)
Theorem serialized_primary_key_alias (fuel : nat) (entityName : string)
  (m : EntityMetadata.t) (pk : EntityProperty.t) (spk : string) (names : list string)
  (v : value) (where_ : bool) (object : option bool) :
  metadata_find entityName = Some m ->
  EntityMetadata.embeddable m = false ->
  EntityMetadata.serializedPrimaryKey m = Some spk ->
  spk <> "" -> spk <> item0 (EntityMetadata.primaryKeys m) ->
  EntityMetadata.properties m (item0 (EntityMetadata.primaryKeys m)) = Some pk ->
  EntityProperty.kind pk = SCALAR ->
  EntityProperty.fieldNames pk = Some names ->
  isGroupOperator (item0 (EntityMetadata.primaryKeys m)) = false ->
  item0 (EntityMetadata.primaryKeys m) <> "$fulltext" ->
  ~ KeyWithin "$fulltext" v ->
  inlineEmbeddables m [(item0 (EntityMetadata.primaryKeys m), v)] where_
  = Ok [(item0 (EntityMetadata.primaryKeys m), v)] ->
  renameFields metadata_find inlineEmbeddables acceptsPattern (S fuel) entityName
               (VObj [(spk, v)]) where_ object
  = (stored <- storedValue acceptsPattern (isObjectIdType pk)
                 (String.eqb (item0 names) (item0 (EntityMetadata.primaryKeys m))) v ;;
     Ok [(item0 names, stored)]).
Proof.
  intros Hmeta Hemb Hspk Hne1 Hne2 Hpk Hkind Hnames Hgroup Hft Hclean Hinline.
  assert (Hcopy : renameFieldsCopy metadata_find inlineEmbeddables entityName
                    (VObj [(spk, v)]) where_
                  = Ok [(item0 (EntityMetadata.primaryKeys m), v)]).
  { unfold renameFieldsCopy, aliasPrimaryKey, inlineStep. rewrite Hmeta, Hspk, Hemb.
    cbn [Object_assign negb andb].
    destruct (String.eqb_spec spk ""); [contradiction|].
    destruct (String.eqb_spec spk (item0 (EntityMetadata.primaryKeys m))); [contradiction|].
    cbn [negb andb]. now rewrite keys_renameKey_single. }
  rewrite (renameFields_single_turn fuel entityName _ v _ where_ object
             Hgroup Hft Hclean Hcopy), Hmeta.
  apply (renameFieldsKey_stored _ _ _ m pk); try assumption.
  unfold rewriteByKind. now rewrite Hkind.
Qed.

(** X14. When the copy holds an array under [$and] in which no element
    has [$fulltext] among its keys and some element is a primitive
    ([null], [undefined], a boolean, a number or a string), [renameFields]
    throws a [TypeError]: the scan for [$fulltext] applies [in] to every
    element. *)
Theorem and_with_primitive_element_throws (fuel : nat) (entityName : string) (data : value)
  (where_ : bool) (object : option bool) (copiedData : Dictionary) (items : list value) :
  renameFieldsCopy metadata_find inlineEmbeddables entityName data where_ = Ok copiedData ->
  get "$and" copiedData = VArr items ->
  Forall (fun v => holdsFulltext v = false) items ->
  Exists (fun v => isPrimitive v = true) items ->
  renameFields metadata_find inlineEmbeddables acceptsPattern (S fuel) entityName data where_ object
  = Err TypeError.
Proof.
  intros Hcopy Hand Hnone Hex. cbn [renameFields]. unfold renameFieldsHead.
  rewrite Hcopy. cbn [bind]. unfold hoistFulltext. rewrite Hand. cbn [truthy].
  now rewrite hoistFulltextFrom_primitive.
Qed.

(** X15. A [$fulltext] key at the top level of a copy without [$and] (or
    with a falsy one), for an entity without a property named [$text]:
    every document returned holds [$text: {$search: term}] with the term
    the copy held under [$fulltext]; and the document that holds the key
    alone is returned as that [$text] entry alone. *)
Theorem fulltext_at_top_level_becomes_text (fuel : nat) (entityName : string) (data : value)
  (where_ : bool) (object : option bool) (copiedData : Dictionary) :
  renameFieldsCopy metadata_find inlineEmbeddables entityName data where_ = Ok copiedData ->
  has "$fulltext" copiedData = true ->
  truthy (get "$and" copiedData) = false ->
  propertyOf (metadata_find entityName) "$text" = None ->
  (forall out,
      renameFields metadata_find inlineEmbeddables acceptsPattern (S fuel) entityName data where_
                   object
      = Ok out ->
      has "$text" out = true
      /\ get "$text" out = VObj [("$search", get "$fulltext" copiedData)])
  /\ (forall term, copiedData = [("$fulltext", term)] -> ~ KeyWithin "$fulltext" term ->
      renameFields metadata_find inlineEmbeddables acceptsPattern (S fuel) entityName data where_
          object
      = Ok [("$text", VObj [("$search", term)])]).
Proof.
  intros Hcopy Hhas Hand Hprop.
  assert (Ehead : renameFieldsHead metadata_find inlineEmbeddables entityName data where_
                  = Ok (delete "$fulltext"
                          (set "$text" (VObj [("$search", get "$fulltext" copiedData)])
                               copiedData))).
  { unfold renameFieldsHead. rewrite Hcopy. cbn [bind]. unfold hoistFulltext.
    rewrite Hand. cbn [bind]. unfold restructureFulltext. now rewrite Hhas. }
  assert (Hturn : forall s,
    renameFieldsKey metadata_find acceptsPattern
                    (renameFields metadata_find inlineEmbeddables acceptsPattern fuel)
                    (metadata_find entityName) entityName where_ object s "$text"
    = regexShorthand acceptsPattern s "$text").
  { intros s. unfold renameFieldsKey. unfold propertyOf in Hprop. now rewrite Hprop. }
  split.
  - intros out H. cbn [renameFields] in H. rewrite Ehead in H. cbn [bind] in H.
    destruct (hasNestedKey _ "$fulltext"); [discriminate|].
    refine (forEachKey_invariant
              (Kept "$text" (VObj [("$search", get "$fulltext" copiedData)])) _ _ _ _ _ _ H).
    + intros k s s' _ Hs Hstep. destruct (String.eqb_spec k "$text") as [->|Hne].
      * rewrite Hturn in Hstep. unfold regexShorthand in Hstep.
        destruct Hs as [Hh Hg]. rewrite Hg in Hstep.
        cbn [has String.eqb Ascii.eqb Bool.eqb] in Hstep. injection Hstep as <-.
        now split.
      * eapply Kept_renameFieldsKey; eauto.
    + apply Kept_delete; [discriminate|]. split; [|apply get_set_same].
      rewrite has_set. now rewrite String.eqb_refl.
  - intros term -> Hclean. apply not_KeyWithin in Hclean.
    cbn [renameFields]. rewrite Ehead. cbn [bind].
    assert (E : delete "$fulltext"
                  (set "$text" (VObj [("$search", get "$fulltext" [("$fulltext", term)])])
                       [("$fulltext", term)])
                = [("$text", VObj [("$search", term)])]) by reflexivity.
    rewrite E.
    assert (Eg : hasNestedKey (VObj [("$text", VObj [("$search", term)])]) "$fulltext"
                 = false) by (cbn; now rewrite Hclean).
    rewrite Eg. cbn [keys map fst forEachKey]. rewrite Hturn. reflexivity.
Qed.

(** X16. The key-by-key pass (lines 268-314) adds no entry and drops
    none: a returned document has as many entries as the copy had once
    [$fulltext] was hoisted and replaced; and when no key of that copy
    names a property of the entity, the returned document has the same
    keys in the same order. *)
Theorem renameFields_keeps_entries_in_place (fuel : nat) (entityName : string)
  (data : value) (where_ : bool) (object : option bool) (copiedData out : Dictionary) :
  renameFieldsHead metadata_find inlineEmbeddables entityName data where_ = Ok copiedData ->
  NoDup (keys copiedData) ->
  renameFields metadata_find inlineEmbeddables acceptsPattern (S fuel) entityName data where_ object
  = Ok out ->
  List.length out = List.length copiedData
  /\ ((forall k, In k (keys copiedData) -> propertyOf (metadata_find entityName) k = None) ->
      keys out = keys copiedData).
Proof.
  intros Hhead Hnd H. cbn [renameFields] in H. rewrite Hhead in H. cbn [bind] in H.
  destruct (hasNestedKey (VObj copiedData) "$fulltext"); [discriminate|].
  eapply forEachKey_in_place; eauto. intros k Hk. now apply has_In.
Qed.

End RewritingFurther.

Lemma renameFields_where_matters_to_inlining_only_witness :
  renameFields registry nothingToInline noLeadingQuantifier 3 "Author"
    (VObj [("address", VObj [("city", VStr "X")]); ("born", VNum 1990)]) true None
  = renameFields registry nothingToInline noLeadingQuantifier 3 "Author"
      (VObj [("address", VObj [("city", VStr "X")]); ("born", VNum 1990)]) false None.
Proof.
  apply (renameFields_where_matters_to_inlining_only registry nothingToInline noLeadingQuantifier 3
                                                     "Author").
  intros m d. reflexivity.
Defined.

Lemma renameFields_returns_no_fulltext_witness :
  renameFields registry nothingToInline noLeadingQuantifier 2 "Author"
    (VObj [("$and", VArr [VObj [("$fulltext", VStr "x")]; VObj [("age", VNum 3)]])]) true None
  = Ok [("$and", VArr [VObj []; VObj [("age", VNum 3)]]);
        ("$text", VObj [("$search", VStr "x")])]
  /\ ~ KeyWithin "$fulltext"
         (VObj [("$and", VArr [VObj []; VObj [("age", VNum 3)]]);
                ("$text", VObj [("$search", VStr "x")])]).
Proof.
  split; [reflexivity|].
  apply (renameFields_returns_no_fulltext registry nothingToInline noLeadingQuantifier 2 "Author"
           (VObj [("$and", VArr [VObj [("$fulltext", VStr "x")]; VObj [("age", VNum 3)]])])
           true None).
  - exact registry_NoFulltextField.
  - reflexivity.
Defined.

Lemma renameFields_leaves_unmapped_document_witness :
  renameFields registry nothingToInline noLeadingQuantifier 1 "Author"
    (VObj [("nickname", VStr "x"); ("score", VObj [("$gt", VNum 3)])]) true None
  = Ok [("nickname", VStr "x"); ("score", VObj [("$gt", VNum 3)])].
Proof.
  apply (renameFields_leaves_unmapped_document registry nothingToInline noLeadingQuantifier 0
                                               "Author").
  - reflexivity.
  - repeat constructor.
  - intros H. apply hasNestedKey_spec in H. discriminate.
Defined.

Lemma regex_shorthand_becomes_RegExp_witness :
  renameFieldsCopy registry nothingToInline "Author"
    (VObj [("nickname", VObj [("$re", VStr "^a"); ("$options", VStr "i")])]) true
  = Ok [("nickname", VObj [("$re", VStr "^a"); ("$options", VStr "i")])]
  /\ renameFields registry nothingToInline noLeadingQuantifier 1 "Author"
       (VObj [("nickname", VObj [("$re", VStr "^a"); ("$options", VStr "i")])]) true None
     = Ok [("nickname", VRegExp (VStr "^a"))]
  /\ renameFields registry nothingToInline noLeadingQuantifier 1 "Author"
       (VObj [("nickname", VObj [("$re", VStr "+")])]) true None
     = Err SyntaxError.
Proof.
  split; [reflexivity|]. split.
  - refine (proj2 (regex_shorthand_becomes_RegExp registry nothingToInline
                     noLeadingQuantifier 0 "Author"
                     (VObj [("nickname", VObj [("$re", VStr "^a"); ("$options", VStr "i")])])
                     true None
                     [("nickname", VObj [("$re", VStr "^a"); ("$options", VStr "i")])]
                     "nickname" [("$re", VStr "^a"); ("$options", VStr "i")]
                     eq_refl eq_refl _ _ eq_refl eq_refl eq_refl eq_refl) eq_refl _);
      try discriminate.
    intros H. apply hasNestedKey_spec in H. discriminate.
  - refine (proj2 (regex_shorthand_becomes_RegExp registry nothingToInline
                     noLeadingQuantifier 0 "Author"
                     (VObj [("nickname", VObj [("$re", VStr "+")])]) true None
                     [("nickname", VObj [("$re", VStr "+")])]
                     "nickname" [("$re", VStr "+")]
                     eq_refl eq_refl _ _ eq_refl eq_refl eq_refl eq_refl) eq_refl _);
      try discriminate.
    intros H. apply hasNestedKey_spec in H. discriminate.
Defined.

Lemma or_branches_rewritten_as_data_witness :
  renameFields registry nothingToInline noLeadingQuantifier 2 "Author"
    (VObj [("$or", VArr [VObj [("born", VNum 1990)]; VObj [("name", VStr "x")]])]) true None
  = Ok [("$or", VArr [VObj [("date_of_birth", VNum 1990)]; VObj [("name", VStr "x")]])]
  /\ exists items',
       get "$or" [("$or", VArr [VObj [("date_of_birth", VNum 1990)]; VObj [("name", VStr "x")]])]
       = VArr items'
       /\ Forall2 (fun x y => exists d, renameFields registry nothingToInline noLeadingQuantifier 1
                                                     "Author" x
                                          false None = Ok d /\ y = VObj d)
                  [VObj [("born", VNum 1990)]; VObj [("name", VStr "x")]] items'.
Proof.
  split; [reflexivity|].
  refine (or_branches_rewritten_as_data registry nothingToInline noLeadingQuantifier 1 "Author"
            (VObj [("$or", VArr [VObj [("born", VNum 1990)]; VObj [("name", VStr "x")]])])
            true None
            [("$or", VArr [VObj [("born", VNum 1990)]; VObj [("name", VStr "x")]])]
            [("$or", VArr [VObj [("date_of_birth", VNum 1990)]; VObj [("name", VStr "x")]])]
            eq_refl _ eq_refl eq_refl).
  repeat constructor. cbn. tauto.
Defined.

Lemma scalar_entry_stored_witness :
  renameFields registry nothingToInline noLeadingQuantifier 1 "Author"
    (VObj [("born", VObj [("$re", VStr "^19")])]) true None
  = Ok [("date_of_birth", VObj [("$re", VStr "^19")])]
  /\ renameFields registry nothingToInline noLeadingQuantifier 1 "Author"
       (VObj [("name", VObj [("$re", VStr "^A")])]) true None
     = Ok [("name", VRegExp (VStr "^A"))]
  /\ renameFields registry nothingToInline noLeadingQuantifier 1 "Author"
       (VObj [("name", VObj [("$re", VStr "+")])]) true None
     = Err SyntaxError
  /\ renameFields registry nothingToInline noLeadingQuantifier 1 "Author"
       (VObj [("born", VObj [("$re", VStr "+")])]) true None
     = Ok [("date_of_birth", VObj [("$re", VStr "+")])].
Proof.
  split; [|split; [|split]].
  - refine (scalar_entry_stored registry nothingToInline noLeadingQuantifier 0 "Author"
              Author (property "born" SCALAR "Date" ["date_of_birth"]) "born"
              ["date_of_birth"] (VObj [("$re", VStr "^19")])
              (VObj [("born", VObj [("$re", VStr "^19")])])
              true None eq_refl eq_refl eq_refl eq_refl eq_refl _ _ eq_refl);
      [discriminate | intros H; apply hasNestedKey_spec in H; discriminate].
  - refine (scalar_entry_stored registry nothingToInline noLeadingQuantifier 0 "Author"
              Author (property "name" SCALAR "string" ["name"]) "name" ["name"]
              (VObj [("$re", VStr "^A")]) (VObj [("name", VObj [("$re", VStr "^A")])])
              true None eq_refl eq_refl eq_refl eq_refl eq_refl _ _ eq_refl);
      [discriminate | intros H; apply hasNestedKey_spec in H; discriminate].
  - refine (scalar_entry_stored registry nothingToInline noLeadingQuantifier 0 "Author"
              Author (property "name" SCALAR "string" ["name"]) "name" ["name"]
              (VObj [("$re", VStr "+")]) (VObj [("name", VObj [("$re", VStr "+")])])
              true None eq_refl eq_refl eq_refl eq_refl eq_refl _ _ eq_refl);
      [discriminate | intros H; apply hasNestedKey_spec in H; discriminate].
  - refine (scalar_entry_stored registry nothingToInline noLeadingQuantifier 0 "Author"
              Author (property "born" SCALAR "Date" ["date_of_birth"]) "born"
              ["date_of_birth"] (VObj [("$re", VStr "+")])
              (VObj [("born", VObj [("$re", VStr "+")])])
              true None eq_refl eq_refl eq_refl eq_refl eq_refl _ _ eq_refl);
      [discriminate | intros H; apply hasNestedKey_spec in H; discriminate].
Defined.

Lemma reference_entry_stored_witness :
  renameFields registry nothingToInline noLeadingQuantifier 1 "Author"
    (VObj [("favouriteBook", VObj [("$in", VArr [VStr "507f1f77bcf86cd799439011"])])])
    true None
  = Ok [("favouriteBook", VObj [("$in", VArr [VObjectId "507f1f77bcf86cd799439011"])])].
Proof.
  refine (reference_entry_stored registry nothingToInline noLeadingQuantifier 0 "Author" Author
            (property "favouriteBook" MANY_TO_ONE "Book" ["favouriteBook"]) "favouriteBook"
            ["favouriteBook"] (VObj [("$in", VArr [VStr "507f1f77bcf86cd799439011"])])
            (VObj [("favouriteBook", VObj [("$in", VArr [VStr "507f1f77bcf86cd799439011"])])])
            true None Book (property "_id" SCALAR "ObjectId" ["_id"])
            eq_refl eq_refl _ _ eq_refl eq_refl _ _ eq_refl eq_refl eq_refl);
    try discriminate.
  intros H. apply hasNestedKey_spec in H. discriminate.
Defined.

Lemma reference_to_unknown_entity_throws_witness :
  publishers "Owner" = None
  /\ renameFields publishers nothingToInline noLeadingQuantifier 1 "Publisher" (VObj [("owner",
      VStr "x")])
       true None
     = Err TypeError.
Proof.
  split; [reflexivity|].
  refine (reference_to_unknown_entity_throws publishers nothingToInline noLeadingQuantifier 0
                                             "Publisher"
            Publisher (property "owner" MANY_TO_ONE "Owner" ["owner"]) "owner"
            (VStr "x") (VObj [("owner", VStr "x")]) true None
            eq_refl eq_refl _ _ eq_refl _ _ eq_refl eq_refl);
    try discriminate.
  intros H. apply hasNestedKey_spec in H. discriminate.
Defined.

Lemma serialized_primary_key_alias_witness :
  renameFields publishers nothingToInline noLeadingQuantifier 1 "Publisher"
    (VObj [("id", VStr "507f1f77bcf86cd799439011")]) true None
  = Ok [("_id", VObjectId "507f1f77bcf86cd799439011")].
Proof.
  refine (serialized_primary_key_alias publishers nothingToInline noLeadingQuantifier 0 "Publisher"
                                       Publisher
            (property "_id" SCALAR "ObjectId" ["_id"]) "id" ["_id"]
            (VStr "507f1f77bcf86cd799439011") true None
            eq_refl eq_refl eq_refl _ _ eq_refl eq_refl eq_refl eq_refl _ _ eq_refl);
    try discriminate.
  intros H. apply hasNestedKey_spec in H. discriminate.
Defined.

Lemma and_with_primitive_element_throws_witness :
  renameFields registry nothingToInline noLeadingQuantifier 1 "Author"
    (VObj [("$and", VArr [VObj [("age", VNum 3)]; VNull])]) true None
  = Err TypeError.
Proof.
  refine (and_with_primitive_element_throws registry nothingToInline noLeadingQuantifier 0 "Author"
            (VObj [("$and", VArr [VObj [("age", VNum 3)]; VNull])]) true None
            [("$and", VArr [VObj [("age", VNum 3)]; VNull])]
            [VObj [("age", VNum 3)]; VNull] eq_refl eq_refl _ _).
  - repeat constructor.
  - apply Exists_cons_tl. now apply Exists_cons_hd.
Defined.

Lemma fulltext_at_top_level_becomes_text_witness :
  renameFields registry nothingToInline noLeadingQuantifier 1 "Author"
               (VObj [("$fulltext", VStr "x")]) true None
  = Ok [("$text", VObj [("$search", VStr "x")])].
Proof.
  refine (proj2 (fulltext_at_top_level_becomes_text registry nothingToInline noLeadingQuantifier 0
                                                    "Author"
                   (VObj [("$fulltext", VStr "x")]) true None [("$fulltext", VStr "x")]
                   eq_refl eq_refl eq_refl eq_refl) (VStr "x") eq_refl _).
  intros H. apply hasNestedKey_spec in H. discriminate.
Defined.

Lemma renameFields_keeps_entries_in_place_witness :
  renameFields registry nothingToInline noLeadingQuantifier 1 "Author"
    (VObj [("born", VNum 1990); ("nickname", VObj [("$re", VStr "^a")])]) true None
  = Ok [("date_of_birth", VNum 1990); ("nickname", VRegExp (VStr "^a"))]
  /\ List.length [("date_of_birth", VNum 1990); ("nickname", VRegExp (VStr "^a"))]
     = List.length [("born", VNum 1990); ("nickname", VObj [("$re", VStr "^a")])].
Proof.
  split; [reflexivity|].
  refine (proj1 (renameFields_keeps_entries_in_place registry nothingToInline noLeadingQuantifier 0
                                                     "Author"
                   (VObj [("born", VNum 1990); ("nickname", VObj [("$re", VStr "^a")])])
                   true None
                   [("born", VNum 1990); ("nickname", VObj [("$re", VStr "^a")])]
                   [("date_of_birth", VNum 1990); ("nickname", VRegExp (VStr "^a"))]
                   eq_refl _ eq_refl)).
  repeat constructor; cbn; intuition discriminate.
Defined.

(** ** The projection, continued *)

Lemma includesDot_path (head rest : string) :
  includesDot (head ++ String "." rest) = true.
Proof. induction head as [|c t IH]; cbn; [reflexivity|]. now destruct (Ascii.eqb c "."). Qed.

Lemma beforeDot_path (head rest : string) :
  includesDot head = false -> beforeDot (head ++ String "." rest) = head.
Proof.
  induction head as [|c t IH]; cbn; [reflexivity|].
  destruct (Ascii.eqb c "."); [discriminate|]. intros H. now rewrite IH.
Qed.

Lemma flattenFieldNames_In (l : list EntityProperty.t) (ret : list string) (name : string) :
  flattenFieldNames l = Ok ret -> In name ret ->
  exists prop names,
    In prop l /\ EntityProperty.fieldNames prop = Some names /\ In name names.
Proof.
  revert ret. induction l as [|p t IH]; cbn; intros ret H Hin.
  - injection H as <-. contradiction.
  - destruct (EntityProperty.fieldNames p) as [names|] eqn:En; [|discriminate].
    bind_inv H. injection H as <-. apply in_app_or in Hin as [Hin|Hin].
    + exists p, names. auto.
    + destruct (IH a Ha Hin) as (prop & names' & H1 & H2 & H3).
      exists prop, names'. auto.
Qed.

Section ProjectionFurther.

Variable metadata_find : string -> option EntityMetadata.t.
Variable shouldHaveColumn : EntityProperty.t -> list PopulateOptions.t -> bool.

Lemma buildEachField_columns (m : EntityMetadata.t) (populate : list PopulateOptions.t)
  (fs cols : list string) :
  Forall2 (columnOf m) fs cols ->
  forall ret,
    buildEachField shouldHaveColumn m populate (map FieldName fs) ret
    = Ok (ret ++ cols)%list.
Proof.
  induction 1 as [|f c fs cols Hfc _ IH]; intros ret; cbn [map buildEachField].
  - now rewrite app_nil_r.
  - assert (E : buildField shouldHaveColumn m populate ret (FieldName f)
                = Ok (ret ++ [c])%list).
    { destruct Hfc as [Hdot [(prop & rest & Hprop & Hnames & Hspk)|(Hprop & Hstar & ->)]];
        unfold buildField; rewrite Hdot, Hprop.
      - rewrite Hnames, Hspk. cbn [bind]. now rewrite Hnames.
      - destruct (String.eqb_spec f "*"); [contradiction | reflexivity]. }
    rewrite E. cbn [bind]. rewrite IH. now rewrite <- app_assoc.
Qed.

(** X17. For a registered entity and a list of requested field names
    without dots, each naming a property with field names that is not the
    serialized alias, or naming no property and not being the wildcard:
    the projection is the primary keys of the entity (by their logical
    names) that are not among the requested names, followed, in the order
    requested, by the first field name of each named property and by each
    unknown name as it is. *)
Theorem buildFields_explicit_columns (entityName : string) (m : EntityMetadata.t)
  (populate : list PopulateOptions.t) (fs cols : list string) :
  metadata_find entityName = Some m ->
  Forall2 (columnOf m) fs cols ->
  buildFields metadata_find shouldHaveColumn entityName populate (Some (map FieldName fs))
  = Ok (projection
          (filter (fun pk => negb (existsb (fun f => String.eqb f pk) fs))
                  (EntityMetadata.primaryKeys m) ++ cols)%list).
Proof.
  intros Hmeta Hcols. unfold buildFields. rewrite Hmeta.
  rewrite (buildEachField_columns m populate fs cols Hcols). cbn [bind app].
  assert (E : forall pk, includesName (map FieldName fs) pk
                         = existsb (fun f => String.eqb f pk) fs).
  { intros pk. unfold includesName. clear. induction fs as [|f t IH]; cbn; [reflexivity|].
    now rewrite IH. }
  rewrite (filter_ext _ _ (fun pk => f_equal negb (E pk))).
  unfold projection. now destruct (_ ++ _)%list.
Qed.

(** X18. Without requested fields: when no property that is lazy and not
    populated is left once the formulas are set aside, [buildFields]
    answers [undefined] (every column is fetched); and whenever it
    answers a projection, every column of it is a field name of a
    property of the entity that the platform gives a column and that is
    not lazy, or is populated. *)
Theorem buildFields_default_projection (entityName : string) (m : EntityMetadata.t)
  (populate : list PopulateOptions.t) :
  metadata_find entityName = Some m ->
  (filter (fun p => negb (EntityProperty.formula p)) (lazyProps m populate) = [] ->
   buildFields metadata_find shouldHaveColumn entityName populate None = Ok None)
  /\ (forall columns field,
        buildFields metadata_find shouldHaveColumn entityName populate None
        = Ok (Some columns) ->
        In field columns ->
        exists prop names name,
          field = FieldName name
          /\ In prop (EntityMetadata.props m)
          /\ EntityProperty.fieldNames prop = Some names /\ In name names
          /\ shouldHaveColumn prop populate = true
          /\ (EntityProperty.lazy prop = false
              \/ existsb (fun p => String.eqb (PopulateOptions.field p)
                                              (EntityProperty.name prop)
                                   || PopulateOptions.all p) populate = true)).
Proof.
  intros Hmeta. unfold buildFields. rewrite Hmeta. split.
  - intros ->. reflexivity.
  - intros columns field H Hin.
    destruct (0 <? _)%nat; cbn [bind] in H; [|discriminate].
    bind_inv H. destruct a as [|c ret]; [discriminate|]. injection H as <-.
    change (In field (map FieldName (c :: ret))) in Hin.
    apply in_map_iff in Hin as (name & <- & Hin).
    unfold eagerColumns in Ha.
    destruct (flattenFieldNames_In _ _ name Ha Hin) as (prop & names & Hp & Hnames & Hname).
    apply filter_In in Hp as [Hp Hlazy]. apply filter_In in Hp as [Hp Hcol].
    exists prop, names, name. repeat split; try assumption.
    destruct (EntityProperty.lazy prop) eqn:El; [right | now left].
    destruct (existsb _ populate) eqn:Epop; [reflexivity|].
    apply negb_true_iff in Hlazy. rewrite <- Hlazy. unfold includesProp.
    apply existsb_exists. exists prop. split; [|apply String.eqb_refl].
    unfold lazyProps. apply filter_In. split; [exact Hp|]. now rewrite El, Epop.
Qed.

(** X19. A requested field that is a dotted path is treated as the part
    before its first dot: the turn of the loop over [fields] run for
    [head.rest] pushes what the turn run for [head] pushes. *)
Theorem buildField_reads_head_of_path (m : EntityMetadata.t)
  (populate : list PopulateOptions.t) (ret : list string) (head rest : string) :
  includesDot head = false ->
  buildField shouldHaveColumn m populate ret (FieldName (head ++ String "." rest))
  = buildField shouldHaveColumn m populate ret (FieldName head).
Proof.
  intros H. unfold buildField. now rewrite includesDot_path, beforeDot_path, H.
Qed.

End ProjectionFurther.

Lemma buildFields_explicit_columns_witness :
  buildFields registry everyColumn "Author" []
    (Some [FieldName "name"; FieldName "born"; FieldName "nick"])
  = Ok (Some [FieldName "_id"; FieldName "name"; FieldName "date_of_birth"; FieldName "nick"]).
Proof.
  refine (buildFields_explicit_columns registry everyColumn "Author" Author []
            ["name"; "born"; "nick"] ["name"; "date_of_birth"; "nick"] eq_refl _).
  apply Forall2_cons; [|apply Forall2_cons; [|apply Forall2_cons; [|apply Forall2_nil]]].
  - split; [reflexivity | left].
    exists (property "name" SCALAR "string" ["name"]), []. now repeat split.
  - split; [reflexivity | left].
    exists (property "born" SCALAR "Date" ["date_of_birth"]), []. now repeat split.
  - split; [reflexivity | right]. repeat split. discriminate.
Defined.

Lemma buildFields_default_projection_witness :
  buildFields registry everyColumn "Author" [] None = Ok None
  /\ buildFields publishers everyColumn "Publisher" [] None
     = Ok (Some [FieldName "_id"; FieldName "id"; FieldName "name"; FieldName "owner"]).
Proof.
  split; [|reflexivity].
  exact (proj1 (buildFields_default_projection registry everyColumn "Author" Author []
                  eq_refl) eq_refl).
Defined.

Lemma buildField_reads_head_of_path_witness :
  buildField everyColumn Author [] [] (FieldName "address.city") = Ok ["addr"].
Proof.
  exact (eq_trans (buildField_reads_head_of_path everyColumn Author [] [] "address" "city"
                     eq_refl) eq_refl).
Defined.

(** ** Bulk writes *)

Section BulkWrites.

Variable metadata_find : string -> option EntityMetadata.t.
Variable inlineEmbeddables : EntityMetadata.t -> Dictionary -> bool -> result Dictionary.
Variable acceptsPattern : value -> bool.
Variable connection_insertMany : string -> list Dictionary -> result QueryResult.t.
Variable connection_bulkUpdateMany :
  string -> list value -> list Dictionary -> UpsertOptions.t -> result QueryResult.t.

(** X20. When [nativeInsertMany] returns, the store was given one
    rewritten document for each document of the input, in order, each
    rewritten as data; and the result is the store's, with [rows] holding
    one single-entry row for each inserted identifier, in order, under
    the first field name of the primary key (or [_id] for an entity that
    is not registered). *)
Theorem nativeInsertMany_rows (fuel : nat) (entityName : string) (data : list value)
  (res : QueryResult.t) :
  nativeInsertMany metadata_find inlineEmbeddables acceptsPattern connection_insertMany fuel
                   entityName data
  = Ok res ->
  exists docs stored ids pk,
    Forall2 (fun d doc =>
               renameFields metadata_find inlineEmbeddables acceptsPattern fuel entityName d false
                            None
               = Ok doc) data docs
    /\ connection_insertMany entityName docs = Ok stored
    /\ QueryResult.insertedIds stored = Some ids
    /\ primaryFieldName metadata_find entityName = Ok pk
    /\ (metadata_find entityName = None -> pk = "_id")
    /\ QueryResult.rows res = Some (map (fun id => [(pk, id)]) ids)
    /\ QueryResult.insertedIds res = Some ids
    /\ QueryResult.affectedRows res = QueryResult.affectedRows stored.
Proof.
  intros H. unfold nativeInsertMany in H. bind_inv H. bind_inv H. bind_inv H.
  destruct (QueryResult.insertedIds a1) as [ids|] eqn:Eids; [|discriminate].
  injection H as <-. exists a, a1, ids, a0. cbn.
  repeat split; try assumption; [now apply mapM_Forall2|].
  intros Hnone. unfold primaryFieldName in Ha0. rewrite Hnone in Ha0. now injection Ha0.
Qed.

(** X21. When [nativeUpdateMany] returns, the store was given one filter
    for each row of [where], in order: a row that is a plain object
    rewritten as a filter, any other row (a bare primary key) as it is;
    and one document for each row of [data], rewritten as data. *)
Theorem nativeUpdateMany_filters (fuel : nat) (entityName : string)
  (where_ data : list value) (options : UpsertOptions.t) (res : QueryResult.t) :
  nativeUpdateMany metadata_find inlineEmbeddables acceptsPattern connection_bulkUpdateMany fuel
                   entityName
                   where_ data options = Ok res ->
  exists filters docs options',
    Forall2 (fun row filter =>
               if isPlainObject row
               then exists d,
                      renameFields metadata_find inlineEmbeddables acceptsPattern fuel entityName
                                   row true None
                      = Ok d /\ filter = VObj d
               else filter = row) where_ filters
    /\ Forall2 (fun row doc =>
                  renameFields metadata_find inlineEmbeddables acceptsPattern fuel entityName row
                               false None
                  = Ok doc) data docs
    /\ UpsertOptions.upsert options' = UpsertOptions.upsert options
    /\ connection_bulkUpdateMany entityName filters docs options' = Ok res.
Proof.
  intros H. unfold nativeUpdateMany in H. do 5 bind_inv H.
  refine (ex_intro _ a (ex_intro _ a0 (ex_intro _ _ (conj _ (conj _ (conj _ H)))))).
  2: now apply mapM_Forall2.
  2: reflexivity.
  apply mapM_Forall2 in Ha. clear - Ha.
  induction Ha as [|row filter l l' Hrow _ IH]; constructor; [|exact IH].
  unfold renameWhereRow in Hrow. destruct (isPlainObject row); [|now injection Hrow as <-].
  apply bind_Ok in Hrow as (d & Hd & Hrow). injection Hrow as <-. now exists d.
Qed.

End BulkWrites.

Lemma nativeInsertMany_rows_witness :
  nativeInsertMany registry nothingToInline noLeadingQuantifier (insertedAs [VNum 7; VNum 8]) 1
                   "Tag"
    [VObj [("label", VStr "a")]; VObj [("label", VStr "b")]]
  = Ok {| QueryResult.affectedRows := 2;
          QueryResult.insertedIds := Some [VNum 7; VNum 8];
          QueryResult.rows := Some [[("_id", VNum 7)]; [("_id", VNum 8)]] |}
  /\ exists docs stored ids pk,
       Forall2 (fun d doc =>
                  renameFields registry nothingToInline noLeadingQuantifier 1 "Tag" d false None =
                               Ok doc)
               [VObj [("label", VStr "a")]; VObj [("label", VStr "b")]] docs
       /\ insertedAs [VNum 7; VNum 8] "Tag" docs = Ok stored
       /\ QueryResult.insertedIds stored = Some ids
       /\ primaryFieldName registry "Tag" = Ok pk
       /\ (registry "Tag" = None -> pk = "_id")
       /\ Some [[("_id", VNum 7)]; [("_id", VNum 8)]] = Some (map (fun id => [(pk, id)]) ids)
       /\ Some [VNum 7; VNum 8] = Some ids
       /\ 2%Z = QueryResult.affectedRows stored.
Proof.
  split; [reflexivity|].
  exact (nativeInsertMany_rows registry nothingToInline noLeadingQuantifier
                               (insertedAs [VNum 7; VNum 8]) 1 "Tag"
           [VObj [("label", VStr "a")]; VObj [("label", VStr "b")]]
           {| QueryResult.affectedRows := 2;
              QueryResult.insertedIds := Some [VNum 7; VNum 8];
              QueryResult.rows := Some [[("_id", VNum 7)]; [("_id", VNum 8)]] |}
           eq_refl).
Defined.

Lemma nativeUpdateMany_filters_witness :
  nativeUpdateMany registry nothingToInline noLeadingQuantifier countingBulkUpdate 1 "Author"
    [VStr "507f1f77bcf86cd799439011"; VObj [("born", VNum 1990)]]
    [VObj [("name", VStr "a")]; VObj [("name", VStr "b")]] noUpsert
  = Ok {| QueryResult.affectedRows := 2;
          QueryResult.insertedIds := None;
          QueryResult.rows := None |}
  /\ exists filters docs options',
       Forall2 (fun row filter =>
                  if isPlainObject row
                  then exists d,
                         renameFields registry nothingToInline noLeadingQuantifier 1 "Author" row
                                      true None = Ok d
                         /\ filter = VObj d
                  else filter = row)
               [VStr "507f1f77bcf86cd799439011"; VObj [("born", VNum 1990)]] filters
       /\ Forall2 (fun row doc =>
                     renameFields registry nothingToInline noLeadingQuantifier 1 "Author" row false
                                  None = Ok doc)
                  [VObj [("name", VStr "a")]; VObj [("name", VStr "b")]] docs
       /\ UpsertOptions.upsert options' = UpsertOptions.upsert noUpsert
       /\ countingBulkUpdate "Author" filters docs options'
          = Ok {| QueryResult.affectedRows := 2;
                  QueryResult.insertedIds := None;
                  QueryResult.rows := None |}.
Proof.
  split; [reflexivity|].
  exact (nativeUpdateMany_filters registry nothingToInline noLeadingQuantifier countingBulkUpdate 1
                                  "Author"
           [VStr "507f1f77bcf86cd799439011"; VObj [("born", VNum 1990)]]
           [VObj [("name", VStr "a")]; VObj [("name", VStr "b")]] noUpsert
           {| QueryResult.affectedRows := 2;
              QueryResult.insertedIds := None;
              QueryResult.rows := None |} eq_refl).
Defined.

(** ** Errors of the rewriting and the store *)

Lemma mapM_Err {A B} (f : A -> result B) (l : list A) (x : A) (e : exn) :
  In x l -> f x = Err e -> exists e', mapM f l = Err e'.
Proof.
  induction l as [|y t IH]; cbn; [contradiction|]. intros [->|Hin] Hx.
  - rewrite Hx. now exists e.
  - destruct (f y); cbn; [|now eexists]. destruct (IH Hin Hx) as [e' ->]. now exists e'.
Qed.

(** X22. A filter document that the rewriting rejects reaches no store:
    for an entity that is not virtual, [count], [nativeDelete] and
    [nativeUpdate] throw the error of the rewriting whatever the
    connection would answer, and [find] and [findOne] throw (that error,
    or the one [buildFields] raised before it) whatever the connection
    would answer. *)
Theorem rejected_filter_reaches_no_store
  (metadata_find : string -> option EntityMetadata.t)
  (inlineEmbeddables : EntityMetadata.t -> Dictionary -> bool -> result Dictionary)
  (acceptsPattern : value -> bool)
  (fuel : nat) (entityName : string) (where_ : value) (err : exn) :
  isVirtual metadata_find entityName = false ->
  isPrimaryKey where_ = false ->
  renameFields metadata_find inlineEmbeddables acceptsPattern fuel entityName where_ true None =
      Err err ->
  (forall countVirtual connection_countDocuments,
      count metadata_find inlineEmbeddables acceptsPattern countVirtual connection_countDocuments
            fuel entityName where_ = Err err)
  /\ (forall connection_deleteMany,
         nativeDelete metadata_find inlineEmbeddables acceptsPattern connection_deleteMany
                      fuel entityName where_ = Err err)
  /\ (forall connection_updateMany data options,
         nativeUpdate metadata_find inlineEmbeddables acceptsPattern connection_updateMany
                      fuel entityName where_ data options = Err err)
  /\ (forall shouldHaveColumn processCursorOptions mapResult findVirtual options,
         exists err',
           forall connection_find,
             find metadata_find inlineEmbeddables acceptsPattern shouldHaveColumn
                  processCursorOptions
                  connection_find mapResult findVirtual fuel entityName where_ options
             = Err err')
  /\ (forall shouldHaveColumn mapResult findVirtual options,
         exists err',
           forall connection_find,
             findOne metadata_find inlineEmbeddables acceptsPattern shouldHaveColumn connection_find
                     mapResult findVirtual fuel entityName where_ options
             = Err err').
Proof.
  intros Hvirtual Hpk H.
  assert (Hwhere : whereById metadata_find entityName where_ = Ok where_).
  { unfold whereById. now rewrite Hpk. }
  repeat split.
  - intros. unfold count. now rewrite Hvirtual, H.
  - intros. unfold nativeDelete. rewrite Hwhere. cbn [bind]. now rewrite H.
  - intros. unfold nativeUpdate. rewrite Hwhere. cbn [bind]. now rewrite H.
  - intros. unfold find. rewrite Hvirtual.
    destruct (buildFields metadata_find shouldHaveColumn entityName (populateOf options)
                          (FindOptions.fields options)) as [fields|e0].
    + exists err. intros. cbn [bind]. now rewrite H.
    + now exists e0.
  - intros. unfold findOne. rewrite Hvirtual, Hwhere. cbn [bind].
    destruct (buildFields metadata_find shouldHaveColumn entityName (populateOf options)
                          (FindOptions.fields options)) as [fields|e0].
    + exists err. intros. cbn [bind]. now rewrite H.
    + now exists e0.
Qed.

(** X23. A document that the rewriting rejects reaches no store:
    [nativeInsert] throws the error of the rewriting, and a batch that
    holds such a document makes [nativeInsertMany] and [nativeUpdateMany]
    throw, whatever the connection would answer, so that no document of
    the batch is written. *)
Theorem rejected_document_reaches_no_store
  (metadata_find : string -> option EntityMetadata.t)
  (inlineEmbeddables : EntityMetadata.t -> Dictionary -> bool -> result Dictionary)
  (acceptsPattern : value -> bool)
  (fuel : nat) (entityName : string) (data : list value) (d : value) (err : exn) :
  In d data ->
  renameFields metadata_find inlineEmbeddables acceptsPattern fuel entityName d false None = Err
      err ->
  (forall connection_insertOne,
      nativeInsert metadata_find inlineEmbeddables acceptsPattern connection_insertOne fuel
                   entityName d
      = Err err)
  /\ (exists err',
         forall connection_insertMany,
           nativeInsertMany metadata_find inlineEmbeddables acceptsPattern connection_insertMany
                            fuel entityName data = Err err')
  /\ (forall where_ options,
         exists err',
           forall connection_bulkUpdateMany,
             nativeUpdateMany metadata_find inlineEmbeddables acceptsPattern
                              connection_bulkUpdateMany
                              fuel entityName where_ data options = Err err').
Proof.
  intros Hin H.
  destruct (mapM_Err (fun row => renameFields metadata_find inlineEmbeddables acceptsPattern fuel
                                              entityName row false None) data d err Hin H)
    as [e1 He1].
  repeat split.
  - intros. unfold nativeInsert. now rewrite H.
  - exists e1. intros. unfold nativeInsertMany. now rewrite He1.
  - intros. unfold nativeUpdateMany.
    destruct (mapM (renameWhereRow metadata_find inlineEmbeddables acceptsPattern fuel entityName)
                                   where_)
      as [filters|e0].
    + exists e1. intros. cbn [bind]. now rewrite He1.
    + now exists e0.
Qed.

Lemma rejected_filter_reaches_no_store_witness :
  renameFields registry nothingToInline noLeadingQuantifier 2 "Author"
    (VObj [("$or", VArr [VObj [("$fulltext", VStr "x")]])]) true None
  = Err OnlyTopLevel
  /\ forall connection_deleteMany,
       nativeDelete registry nothingToInline noLeadingQuantifier connection_deleteMany 2 "Author"
         (VObj [("$or", VArr [VObj [("$fulltext", VStr "x")]])])
       = Err OnlyTopLevel.
Proof.
  split; [reflexivity|].
  exact (proj1 (proj2 (rejected_filter_reaches_no_store registry nothingToInline
      noLeadingQuantifier 2 "Author"
                         (VObj [("$or", VArr [VObj [("$fulltext", VStr "x")]])])
                         OnlyTopLevel eq_refl eq_refl eq_refl))).
Defined.

Lemma rejected_document_reaches_no_store_witness :
  exists err',
    forall connection_insertMany,
      nativeInsertMany registry nothingToInline noLeadingQuantifier connection_insertMany 2 "Author"
        [VObj [("name", VStr "a")]; VObj [("$and", VArr [VNum 1])]]
      = Err err'.
Proof.
  refine (proj1 (proj2 (rejected_document_reaches_no_store registry nothingToInline
                                                           noLeadingQuantifier 2
                          "Author"
                          [VObj [("name", VStr "a")]; VObj [("$and", VArr [VNum 1])]]
                          (VObj [("$and", VArr [VNum 1])]) TypeError _ eq_refl))).
  right. now left.
Defined.
